(** * HuggingFace trending crawlers: card extraction and number normalisation

    A shallow embedding of [crawl_models.py] and [crawl_paper.py].

    Python [str] values are modelled as [string] whose characters stand for
    the code points U+0000..U+00FF.  Exceptions are explicit: a computation
    that can raise returns a [result].  The libraries the crawlers call
    (the HTML parser, [datetime], the HTTP client) are interfaces, given as
    type classes; [float] is IEEE binary64, computed with the Standard
    Library's [SpecFloat]. *)

From Stdlib Require Import Bool Ascii String List NArith ZArith Lia.
From Stdlib Require Import Floats.SpecFloat.
From Stdlib Require Import DecimalString DecimalPos DecimalN.
Import ListNotations.

Open Scope string_scope.
Open Scope Z_scope.

(** ** Exceptions *)

Inductive exn : Type :=
| ValueError
| OverflowError
| AttributeError
| ClientError.

Inductive result (A : Type) : Type :=
| Ok (a : A)
| Raise (e : exn).

Arguments Ok {A} a.
Arguments Raise {A} e.

Definition bind {A B : Type} (m : result A) (k : A -> result B) : result B :=
  match m with
  | Ok a => k a
  | Raise e => Raise e
  end.

Notation "x <- m ;; k" := (bind m (fun x => k))
  (at level 61, m at next level, right associativity).

(** [try: m except ValueError: h] *)
Definition except_ValueError {A : Type} (m : result A) (h : A) : result A :=
  match m with
  | Raise ValueError => Ok h
  | other => other
  end.

(** [try: m except: h] (a bare [except] catches every exception) *)
Definition except_all {A : Type} (m : result A) (h : A) : result A :=
  match m with
  | Ok a => Ok a
  | Raise _ => Ok h
  end.

Definition returns {A : Type} (m : result A) : Prop := exists a, m = Ok a.

(** ** [str] methods *)

Module Str.

Definition code (c : ascii) : N := N_of_ascii c.

Definition between (lo hi : N) (c : ascii) : bool :=
  (N.leb lo (code c) && N.leb (code c) hi)%bool.

(** [str.isspace] on one character; also the set removed by [str.strip()]
    and matched by [\s]. *)
Definition isspace (c : ascii) : bool :=
  (between 9 13 c || between 28 32 c || N.eqb (code c) 133 || N.eqb (code c) 160)%bool.

(** Decimal digits: the characters accepted by [int], [float] and [\d]. *)
Definition isdecimal (c : ascii) : bool := between 48 57 c.

(** [str.isdigit] on one character: the decimal digits and the superscripts
    U+00B2, U+00B3, U+00B9. *)
Definition isdigit_char (c : ascii) : bool :=
  (isdecimal c || N.eqb (code c) 178 || N.eqb (code c) 179 || N.eqb (code c) 185)%bool.

Definition isalpha_ascii (c : ascii) : bool :=
  (between 65 90 c || between 97 122 c)%bool.

Definition lower_char (c : ascii) : ascii :=
  if (between 65 90 c || (between 192 222 c && negb (N.eqb (code c) 215)))%bool
  then ascii_of_N (code c + 32)
  else c.

Fixpoint lower (s : string) : string :=
  match s with
  | EmptyString => EmptyString
  | String c s' => String (lower_char c) (lower s')
  end.

Fixpoint forallb (p : ascii -> bool) (s : string) : bool :=
  match s with
  | EmptyString => true
  | String c s' => (p c && forallb p s')%bool
  end.

Definition is_empty (s : string) : bool :=
  match s with
  | EmptyString => true
  | String _ _ => false
  end.

(** [s.isdigit()] *)
Definition isdigit (s : string) : bool :=
  (negb (is_empty s) && forallb isdigit_char s)%bool.

Fixpoint lstrip_with (p : ascii -> bool) (s : string) : string :=
  match s with
  | EmptyString => EmptyString
  | String c s' => if p c then lstrip_with p s' else s
  end.

Fixpoint rstrip_with (p : ascii -> bool) (s : string) : string :=
  match s with
  | EmptyString => EmptyString
  | String c s' =>
      match rstrip_with p s' with
      | EmptyString => if p c then EmptyString else String c EmptyString
      | r => String c r
      end
  end.

Definition strip_with (p : ascii -> bool) (s : string) : string :=
  lstrip_with p (rstrip_with p s).

(** [s.strip()] *)
Definition strip (s : string) : string := strip_with isspace s.

(** [s.strip(chars)] *)
Definition strip_chars (chars : string) (s : string) : string :=
  strip_with (fun c => negb (forallb (fun d => negb (Ascii.eqb c d)) chars)) s.

(** [s.endswith(suffix)] *)
Fixpoint endswith (suffix s : string) : bool :=
  (String.eqb s suffix ||
   match s with
   | EmptyString => false
   | String _ s' => endswith suffix s'
   end)%bool.

(** [s.startswith(p)] *)
Definition startswith (p s : string) : bool := String.prefix p s.

(** [s[:-1]] *)
Fixpoint drop_last (s : string) : string :=
  match s with
  | EmptyString => EmptyString
  | String c s' =>
      match s' with
      | EmptyString => EmptyString
      | String _ _ => String c (drop_last s')
      end
  end.

(** [s.replace(old, new)] for a non-empty [old]: occurrences are replaced
    left to right and do not overlap.  [skip] counts the characters of an
    occurrence still to be dropped. *)
Fixpoint replace_from (old new : string) (skip : nat) (s : string) : string :=
  match s with
  | EmptyString => EmptyString
  | String c s' =>
      match skip with
      | S k => replace_from old new k s'
      | O =>
          if String.prefix old s
          then new ++ replace_from old new (Nat.pred (String.length old)) s'
          else String c (replace_from old new O s')
      end
  end.

Definition replace (old new : string) (s : string) : string :=
  replace_from old new O s.

(** [c in s] *)
Fixpoint mem (c : ascii) (s : string) : bool :=
  match s with
  | EmptyString => false
  | String d s' => (Ascii.eqb c d || mem c s')%bool
  end.

End Str.

(** ** [int] and [float] *)

Module Num.

(** The blanks that [int] and [float] skip at both ends of a string: those of
    [str.isspace] but U+001C..U+001F. *)
Definition isblank (c : ascii) : bool :=
  (Str.between 9 13 c || N.eqb (Str.code c) 32 ||
   N.eqb (Str.code c) 133 || N.eqb (Str.code c) 160)%bool.

Definition trim (s : string) : string := Str.strip_with isblank s.

Definition digit_value (c : ascii) : Z := Z.of_N (Str.code c) - 48.

(** The longest prefix of the form [digit (["_"] digit)*] and what follows
    it; [scan_more] continues after a digit. *)
Fixpoint scan_more (s : string) : list Z * string :=
  match s with
  | EmptyString => ([], s)
  | String c s' =>
      if Str.isdecimal c then
        let '(ds, r) := scan_more s' in (digit_value c :: ds, r)
      else if Ascii.eqb c "_" then
        match s' with
        | EmptyString => ([], s)
        | String d s'' =>
            if Str.isdecimal d then
              let '(ds, r) := scan_more s'' in (digit_value d :: ds, r)
            else ([], s)
        end
      else ([], s)
  end.

Definition scan_digits (s : string) : list Z * string :=
  match s with
  | EmptyString => ([], s)
  | String c s' =>
      if Str.isdecimal c then
        let '(ds, r) := scan_more s' in (digit_value c :: ds, r)
      else ([], s)
  end.

Definition decimal_value (ds : list Z) : Z :=
  fold_left (fun acc d => 10 * acc + d) ds 0.

(** An optional sign: [true] for ["-"]. *)
Definition split_sign (s : string) : bool * string :=
  match s with
  | String c s' =>
      if Ascii.eqb c "-" then (true, s')
      else if Ascii.eqb c "+" then (false, s')
      else (false, s)
  | EmptyString => (false, s)
  end.

Definition with_sign (neg : bool) (v : Z) : Z := if neg then - v else v.

(** The default of [sys.get_int_max_str_digits()]. *)
Definition int_max_str_digits : nat := 4300.

(** [int(s)] for a string; [None] stands for [ValueError]. *)
Definition int_of_str (s : string) : option Z :=
  let '(neg, body) := split_sign (trim s) in
  let '(ds, rest) := scan_digits body in
  match ds, rest with
  | _ :: _, EmptyString =>
      if Nat.leb (List.length ds) int_max_str_digits
      then Some (with_sign neg (decimal_value ds))
      else None
  | _, _ => None
  end.

(** *** binary64 *)

Definition prec : Z := 53.
Definition emax : Z := 1024.

Definition float := spec_float.

(** The binary64 value nearest to [m * 10 ^ e] (ties to even), [m >= 0]. *)
Definition decimal_to_float (neg : bool) (m e : Z) : float :=
  match m with
  | Zpos p =>
      if 0 <=? e then binary_round prec emax neg (Z.to_pos (m * 10 ^ e)) 0
      else
        let '(q, e', l) := SFdiv_core_binary prec emax m 0 (10 ^ (- e)) 0 in
        binary_round_aux prec emax neg q e' l
  | _ => S754_zero neg
  end.

(** [float(n)] for an integer. *)
Definition float_of_Z (n : Z) : float := binary_normalize prec emax n 0 false.

(** [x * y] on floats. *)
Definition float_mul (x y : float) : float := SFmul prec emax x y.

(** [float(s)] for a string; [None] stands for [ValueError]. *)
Definition float_of_str (s : string) : option float :=
  let '(neg, body) := split_sign (trim s) in
  let name := Str.lower body in
  if (String.eqb name "inf" || String.eqb name "infinity")%bool then
    Some (S754_infinity neg)
  else if String.eqb name "nan" then Some S754_nan
  else
    let '(ip, r1) := scan_digits body in
    let '(fp, r2) :=
      match r1 with
      | String "." r => scan_digits r
      | _ => ([], r1)
      end in
    match (ip ++ fp)%list with
    | [] => None
    | ds =>
        let frac := Z.of_nat (List.length fp) in
        match r2 with
        | EmptyString => Some (decimal_to_float neg (decimal_value ds) (- frac))
        | String c r3 =>
            if (Ascii.eqb c "e" || Ascii.eqb c "E")%bool then
              let '(eneg, eb) := split_sign r3 in
              match scan_digits eb with
              | ((_ :: _) as ed, EmptyString) =>
                  Some (decimal_to_float neg (decimal_value ds)
                          (with_sign eneg (decimal_value ed) - frac))
              | _ => None
              end
            else None
        end
    end.

(** [int(x)] for a float: truncation toward zero. *)
Definition int_of_float (x : float) : result Z :=
  match x with
  | S754_nan => Raise ValueError
  | S754_infinity _ => Raise OverflowError
  | S754_zero _ => Ok 0
  | S754_finite s m e =>
      Ok (with_sign s (if 0 <=? e then Z.pos m * 2 ^ e else Z.pos m / 2 ^ (- e)))
  end.

(** [float(s)] and [int(s)] as computations that raise [ValueError]. *)
Definition py_float (s : string) : result float :=
  match float_of_str s with
  | Some x => Ok x
  | None => Raise ValueError
  end.

Definition py_int (s : string) : result Z :=
  match int_of_str s with
  | Some n => Ok n
  | None => Raise ValueError
  end.

End Num.

(** ** Regular expressions, as far as [re.search] decides a match *)

Module Re.

Inductive re : Type :=
| Void
| Eps
| Sym (p : ascii -> bool)
| Cat (r1 r2 : re)
| Alt (r1 r2 : re)
| Star (r : re).

Fixpoint nullable (r : re) : bool :=
  match r with
  | Void => false
  | Eps => true
  | Sym _ => false
  | Cat r1 r2 => (nullable r1 && nullable r2)%bool
  | Alt r1 r2 => (nullable r1 || nullable r2)%bool
  | Star _ => true
  end.

Definition cat (r1 r2 : re) : re :=
  match r1 with
  | Void => Void
  | Eps => r2
  | _ => Cat r1 r2
  end.

Definition alt (r1 r2 : re) : re :=
  match r1, r2 with
  | Void, _ => r2
  | _, Void => r1
  | _, _ => Alt r1 r2
  end.

Fixpoint deriv (c : ascii) (r : re) : re :=
  match r with
  | Void => Void
  | Eps => Void
  | Sym p => if p c then Eps else Void
  | Cat r1 r2 =>
      alt (cat (deriv c r1) r2) (if nullable r1 then deriv c r2 else Void)
  | Alt r1 r2 => alt (deriv c r1) (deriv c r2)
  | Star r1 => cat (deriv c r1) (Star r1)
  end.

Fixpoint fullmatch (r : re) (s : string) : bool :=
  match s with
  | EmptyString => nullable r
  | String c s' => fullmatch (deriv c r) s'
  end.

Definition anything : re := Star (Sym (fun _ => true)).

(** [re.compile(r).search(s)] as a truth value *)
Definition search (r : re) (s : string) : bool :=
  fullmatch (Cat anything (Cat r anything)) s.

(** A literal string *)
Fixpoint lit (s : string) : re :=
  match s with
  | EmptyString => Eps
  | String c s' => Cat (Sym (Ascii.eqb c)) (lit s')
  end.

(** [.]: any character but a newline *)
Definition dot : re := Sym (fun c => negb (Ascii.eqb c "010")).

(** [\d], [\s], [[A-Za-z]] *)
Definition digit : re := Sym Str.isdecimal.
Definition space : re := Sym Str.isspace.
Definition letter : re := Sym Str.isalpha_ascii.

(** [r+] *)
Definition plus (r : re) : re := Cat r (Star r).

(** [r{n}] *)
Fixpoint times (n : nat) (r : re) : re :=
  match n with
  | O => Eps
  | S k => Cat r (times k r)
  end.

(** [r{0,n}] *)
Fixpoint upto (n : nat) (r : re) : re :=
  match n with
  | O => Eps
  | S k => Alt Eps (Cat r (upto k r))
  end.

(** [r{m,n}] *)
Definition range (m n : nat) (r : re) : re := Cat (times m r) (upto (n - m) r).

Fixpoint seq (rs : list re) : re :=
  match rs with
  | [] => Eps
  | r :: rest => Cat r (seq rest)
  end.

End Re.

(** ** The parsed document *)

Module Soup.

(** The tree built by the parser: strings and tags.  Comments, doctypes and
    other special strings are not represented. *)
#[warnings="-register-all"] Inductive node : Type :=
| Text (s : string)
| Tag (name : string) (attrs : list (string * string)) (children : list node).

(** A node followed by its descendants, in document order. *)
Fixpoint preorder (n : node) : list node :=
  match n with
  | Text _ => [n]
  | Tag _ _ cs => n :: flat_map preorder cs
  end.

(** [tag.text] *)
Fixpoint text (n : node) : string :=
  match n with
  | Text s => s
  | Tag _ _ cs => String.concat "" (map text cs)
  end.

(** [tag.string]: the single string below a chain of only children. *)
Fixpoint string_ (n : node) : option string :=
  match n with
  | Text s => Some s
  | Tag _ _ (c :: nil) => string_ c
  | Tag _ _ _ => None
  end.

Fixpoint assoc (k : string) (l : list (string * string)) : option string :=
  match l with
  | [] => None
  | (k', v) :: rest => if String.eqb k k' then Some v else assoc k rest
  end.

(** [tag.get(name)] *)
Definition attr (name : string) (n : node) : option string :=
  match n with
  | Text _ => None
  | Tag _ attrs _ => assoc name attrs
  end.

(** [tag[name]] where the attribute is known to be present *)
Definition attr_value (name : string) (n : node) : string :=
  match attr name n with
  | Some v => v
  | None => ""
  end.

(** [tag.has_attr(name)] *)
Definition has_attr (name : string) (n : node) : bool :=
  match attr name n with
  | Some _ => true
  | None => false
  end.

(** The whitespace-separated tokens of a multi-valued attribute. *)
Fixpoint tokens_from (cur : string) (s : string) : list string :=
  match s with
  | EmptyString => if Str.is_empty cur then [] else [cur]
  | String c s' =>
      if Str.isspace c
      then (if Str.is_empty cur then tokens_from "" s' else cur :: tokens_from "" s')
      else tokens_from (cur ++ String c "") s'
  end.

(** [tag["class"]], a list of class names *)
Definition classes (n : node) : option (list string) :=
  match attr "class" n with
  | Some v => Some (tokens_from "" v)
  | None => None
  end.

Definition is_tag (name : string) (n : node) : bool :=
  match n with
  | Text _ => false
  | Tag nm _ _ => String.eqb nm name
  end.

(** [class_=cls]: one class is [cls], or the whole value is. *)
Definition class_is (cls : string) (n : node) : bool :=
  match classes n with
  | Some cl => (existsb (String.eqb cls) cl || String.eqb (String.concat " " cl) cls)%bool
  | None => false
  end.

(** [attrs={"class": re.compile(r)}]: [r] is found in one class, or in the
    classes joined by spaces. *)
Definition class_search (r : Re.re) (n : node) : bool :=
  match classes n with
  | Some cl => (existsb (Re.search r) cl || Re.search r (String.concat " " cl))%bool
  | None => false
  end.

(** The CSS selector [.c1.c2...]: every listed class is among the tag's. *)
Definition has_classes (cs : list string) (n : node) : bool :=
  match n, classes n with
  | Tag _ _ _, Some cl => List.forallb (fun c => existsb (String.eqb c) cl) cs
  | _, _ => false
  end.

(** [name=re.compile(r)] on an attribute *)
Definition attr_search (name : string) (r : Re.re) (n : node) : bool :=
  match attr name n with
  | Some v => Re.search r v
  | None => false
  end.

(** The CSS selector [[name^='p']] *)
Definition attr_startswith (name p : string) (n : node) : bool :=
  match attr name n with
  | Some v => Str.startswith p v
  | None => false
  end.

(** [string=re.compile(r)] *)
Definition string_search (r : Re.re) (n : node) : bool :=
  match string_ n with
  | Some s => Re.search r s
  | None => false
  end.

(** An element of a document is handled through its position: the element
    itself followed by every node after it in document order. *)
Definition cursor : Type := list node.

Definition here (c : cursor) : node := hd (Text "") c.

Fixpoint suffixes {A : Type} (l : list A) : list (list A) :=
  match l with
  | [] => []
  | _ :: t => l :: suffixes t
  end.

Definition soup : Type := list node.

(** Every node of the document, in document order. *)
Definition everything (doc : soup) : list cursor :=
  suffixes (flat_map preorder doc).

Definition descendants (c : cursor) : list cursor :=
  match c with
  | [] => []
  | n :: rest => firstn (Nat.pred (List.length (preorder n))) (suffixes rest)
  end.

Definition select (p : node -> bool) (scope : list cursor) : list cursor :=
  filter (fun c => p (here c)) scope.

(** [soup.find_all(...)] and [soup.find(...)] on the whole document *)
Definition soup_find_all (p : node -> bool) (doc : soup) : list cursor :=
  select p (everything doc).

Definition soup_find (p : node -> bool) (doc : soup) : option cursor :=
  hd_error (soup_find_all p doc).

(** [tag.find(...)] and [tag.select_one(...)]: the first matching descendant *)
Definition find (p : node -> bool) (c : cursor) : option cursor :=
  hd_error (select p (descendants c)).

Fixpoint first_string (l : list node) : option string :=
  match l with
  | [] => None
  | Text s :: _ => Some s
  | Tag _ _ _ :: rest => first_string rest
  end.

(** [tag.find_next(string=True)]: the first string after the tag's opening,
    inside it or anywhere later in the document. *)
Definition find_next_string (c : cursor) : option string :=
  first_string (tl c).

Definition both (p q : node -> bool) (n : node) : bool := (p n && q n)%bool.

End Soup.

(** ** The libraries *)

(** [BeautifulSoup(page_content, "html.parser")] *)
Class HtmlParser : Type :=
  { BeautifulSoup : string -> Soup.soup }.

(** [datetime]: [None] stands for [ValueError].
    - [fromisoformat_date s] is
      [datetime.fromisoformat(s).strftime("%Y-%m-%d")];
    - [strptime_date s] is
      [datetime.strptime(s, "%b %d, %Y").strftime("%Y-%m-%d")]. *)
Class DateTime : Type :=
  { fromisoformat_date : string -> option string;
    strptime_date : string -> option string }.

(** What [session.get(url)] followed by [response.text()] comes to: the
    request fails, or a response arrives with a status and a body. *)
Inductive http_reply : Type :=
| Failed
| Responded (status : Z) (body : string).

(** The network answers a request knowing the requests made before it. *)
Class Network : Type :=
  { session_get : list string -> string -> http_reply }.

(** ** Coroutines: a result and the requests issued so far *)

Definition IO (A : Type) : Type := list string -> result A * list string.

Definition io_ret {A : Type} (a : A) : IO A := fun h => (Ok a, h).

Definition io_bind {A B : Type} (m : IO A) (k : A -> IO B) : IO B :=
  fun h =>
    match m h with
    | (Ok a, h') => k a h'
    | (Raise e, h') => (Raise e, h')
    end.

Notation "x <~ m ;; k" := (io_bind m (fun x => k))
  (at level 61, m at next level, right associativity).

Definition io_lift {A : Type} (r : result A) : IO A := fun h => (r, h).

(** [await asyncio.gather] over the tasks: every task is started; the
    results come back in the order of the tasks; a task that raised makes the
    call raise (here the first one in task order). *)
Fixpoint gather {A : Type} (tasks : list (IO A)) : IO (list A) :=
  match tasks with
  | [] => io_ret []
  | t :: rest =>
      fun h =>
        let '(r, h1) := t h in
        let '(rs, h2) := gather rest h1 in
        (a <- r ;; l <- rs ;; Ok (a :: l), h2)
  end.

(** ** [crawl_models.py] *)

Module crawl_models.

(** [parse_number], at the top of the module *)
Definition parse_number (text : string) : result (option Z) :=
  if Str.is_empty text then Ok None
  else
    let text := Str.strip (Str.lower text) in
    except_ValueError
      (if Str.endswith "k" text then
         x <- Num.py_float (Str.drop_last text) ;;
         n <- Num.int_of_float (Num.float_mul x (Num.float_of_Z 1000)) ;;
         Ok (Some n)
       else if Str.endswith "m" text then
         x <- Num.py_float (Str.drop_last text) ;;
         n <- Num.int_of_float (Num.float_mul x (Num.float_of_Z 1000000)) ;;
         Ok (Some n)
       else
         n <- Num.py_int (Str.replace "," "" text) ;;
         Ok (Some n))
      None.

Record ModelRecord : Type :=
  { model_id : string;
    url : string;
    task : option string;
    parameters : option string;
    updated : option string;
    downloads : option Z;
    likes : option Z }.

Definition BASE_URL : string := "https://huggingface.co".

(** The structural predicates of [parse_models] *)

(** [soup.find_all("article", class_="overview-card-wrapper")] *)
Definition is_card : Soup.node -> bool :=
  Soup.both (Soup.is_tag "article") (Soup.class_is "overview-card-wrapper").

(** [article.find("a", href=True)] *)
Definition is_link : Soup.node -> bool :=
  Soup.both (Soup.is_tag "a") (Soup.has_attr "href").

(** [re.compile("mr-1.5")] *)
Definition task_class : Re.re := Re.seq [Re.lit "mr-1"; Re.dot; Re.lit "5"].

Definition is_task_svg : Soup.node -> bool :=
  Soup.both (Soup.is_tag "svg") (Soup.class_search task_class).

(** [article.find("span", title=re.compile("Number of parameters"))] *)
Definition is_param_span : Soup.node -> bool :=
  Soup.both (Soup.is_tag "span")
            (Soup.attr_search "title" (Re.lit "Number of parameters")).

(** [re.compile("w-3 text-gray-400 mr-0.5")] *)
Definition download_class : Re.re :=
  Re.seq [Re.lit "w-3 text-gray-400 mr-0"; Re.dot; Re.lit "5"].

Definition is_download_svg : Soup.node -> bool :=
  Soup.both (Soup.is_tag "svg") (Soup.class_search download_class).

(** [re.compile("w-3 text-gray-400 mr-1")] *)
Definition like_class : Re.re := Re.lit "w-3 text-gray-400 mr-1".

Definition is_like_svg : Soup.node -> bool :=
  Soup.both (Soup.is_tag "svg") (Soup.class_search like_class).

Section Pipeline.

Context {parser : HtmlParser} {datetime : DateTime} {network : Network}.

(** The [task] field: the string after the task icon, stripped. *)
Definition card_task (article : Soup.cursor) : result (option string) :=
  match Soup.find is_task_svg article with
  | None => Ok None
  | Some task_svg =>
      match Soup.find_next_string task_svg with
      | Some s => Ok (Some (Str.strip s))
      | None => Raise AttributeError
      end
  end.

Definition card_params (article : Soup.cursor) : option string :=
  match Soup.find is_param_span article with
  | None => None
  | Some param_span => Some (Str.strip (Soup.text (Soup.here param_span)))
  end.

(** The [updated] field, from the [datetime] attribute of the first [time]. *)
Definition card_updated (article : Soup.cursor) : result (option string) :=
  match Soup.find (Soup.is_tag "time") article with
  | None => Ok None
  | Some time_tag =>
      match Soup.attr "datetime" (Soup.here time_tag) with
      | None => Ok None
      | Some stamp =>
          match fromisoformat_date (Str.replace "Z" "+00:00" stamp) with
          | Some d => Ok (Some d)
          | None => Raise ValueError
          end
      end
  end.

(** [parse_number(t) if t else None] for the string found after an icon *)
Definition number_after (found : option string) : result (option Z) :=
  match found with
  | None => Ok None
  | Some t => if Str.is_empty t then Ok None else parse_number t
  end.

Definition card_downloads (article : Soup.cursor) : result (option Z) :=
  match Soup.find is_download_svg article with
  | None => Ok None
  | Some download_svg => number_after (Soup.find_next_string download_svg)
  end.

Definition card_likes (article : Soup.cursor) : result (option Z) :=
  match Soup.find is_like_svg article with
  | None => Ok None
  | Some like_svg =>
      let like_text := Soup.find_next_string like_svg in
      likes <- number_after like_text ;;
      match like_text with
      | Some t =>
          if (negb (Str.is_empty t) && Str.isdigit (Str.strip t))%bool
          then n <- Num.py_int (Str.strip t) ;; Ok (Some n)
          else Ok likes
      | None => Ok likes
      end
  end.

(** The identifier: the text of the link's [h4], else the link's path
    without its outer slashes. *)
Definition card_model_id (a_tag : Soup.cursor) : string :=
  match Soup.find (Soup.is_tag "h4") a_tag with
  | Some h4 => Str.strip (Soup.text (Soup.here h4))
  | None => Str.strip_chars "/" (Soup.attr_value "href" (Soup.here a_tag))
  end.

(** One turn of the loop of [parse_models]: [None] is [continue]. *)
Definition parse_card (article : Soup.cursor) : result (option ModelRecord) :=
  match Soup.find is_link article with
  | None => Ok None
  | Some a_tag =>
      let model_id := card_model_id a_tag in
      let model_url :=
        "https://huggingface.co" ++ Soup.attr_value "href" (Soup.here a_tag) in
      task <- card_task article ;;
      let params := card_params article in
      updated <- card_updated article ;;
      downloads <- card_downloads article ;;
      likes <- card_likes article ;;
      Ok (Some {| model_id := model_id;
                  url := model_url;
                  task := task;
                  parameters := params;
                  updated := updated;
                  downloads := downloads;
                  likes := likes |})
  end.

Fixpoint parse_cards (articles : list Soup.cursor) (models : list ModelRecord)
  : result (list ModelRecord) :=
  match articles with
  | [] => Ok models
  | article :: rest =>
      r <- parse_card article ;;
      match r with
      | None => parse_cards rest models
      | Some m => parse_cards rest (models ++ [m])
      end
  end.

Definition parse_soup (doc : Soup.soup) : result (list ModelRecord) :=
  parse_cards (Soup.soup_find_all is_card doc) [].

Definition parse_models (page_content : string) : result (list ModelRecord) :=
  parse_soup (BeautifulSoup page_content).

Definition fetch_url (url : string) : IO string :=
  fun h =>
    (match session_get h url with
     | Responded _ body => Ok body
     | Failed => Raise ClientError
     end, (h ++ [url])%list).

Definition run : IO (list ModelRecord) :=
  let url := BASE_URL ++ "/models" in
  page_content <~ fetch_url url ;;
  io_lift (parse_models page_content).

End Pipeline.

End crawl_models.

(** ** [crawl_paper.py] *)

Module crawl_paper.

(** [CrawTrendingPapers.parse_number] *)
Definition parse_number (text : string) : result (option Z) :=
  if Str.is_empty text then Ok None
  else
    let text := Str.replace "," "" (Str.lower (Str.strip text)) in
    except_all
      (if Str.endswith "k" text then
         x <- Num.py_float (Str.drop_last text) ;;
         n <- Num.int_of_float (Num.float_mul x (Num.float_of_Z 1000)) ;;
         Ok (Some n)
       else if Str.endswith "m" text then
         x <- Num.py_float (Str.drop_last text) ;;
         n <- Num.int_of_float (Num.float_mul x (Num.float_of_Z 1000000)) ;;
         Ok (Some n)
       else if Str.isdigit text then
         n <- Num.py_int text ;;
         Ok (Some n)
       else
         n <- Num.py_int text ;;
         Ok (Some n))
      None.

(** The dictionary built per paper by [parse_trending_cards] *)
Record PaperCard : Type :=
  { paper_url : string;
    github : option string;
    arxiv : option string;
    upvotes : option Z;
    published : option string;
    github_stars : option Z }.

(** The rows returned by [run] *)
Record PaperRecord : Type :=
  { title : string;
    abstract : string;
    url : string;
    row_github : option string;
    row_arxiv : option string;
    row_upvotes : option Z;
    row_published : option string;
    row_github_stars : option Z }.

Definition BASE_URL : string := "https://huggingface.co".

(** A [dict] keeps its keys in insertion order. *)
Definition dict : Type := list (string * PaperCard).

Definition keys (d : dict) : list string := map fst d.
Definition values (d : dict) : list PaperCard := map snd d.

(** [k in d] *)
Definition contains (k : string) (d : dict) : bool :=
  existsb (String.eqb k) (keys d).

(** [d[k]] *)
Fixpoint get (k : string) (d : dict) : option PaperCard :=
  match d with
  | [] => None
  | (k', v) :: rest => if String.eqb k k' then Some v else get k rest
  end.

(** [d[k] = v] for a key not yet in [d] *)
Definition add (k : string) (v : PaperCard) (d : dict) : dict := (d ++ [(k, v)])%list.

(** [d[k][field] = ...]: the value stored under [k] is changed in place. *)
Fixpoint update (k : string) (f : PaperCard -> PaperCard) (d : dict) : dict :=
  match d with
  | [] => []
  | (k', v) :: rest =>
      if String.eqb k k' then (k', f v) :: rest else (k', v) :: update k f rest
  end.

Definition blank (paper_url : string) : PaperCard :=
  {| paper_url := paper_url;
     github := None;
     arxiv := None;
     upvotes := None;
     published := None;
     github_stars := None |}.

Definition set_upvotes (x : option Z) (c : PaperCard) : PaperCard :=
  {| paper_url := paper_url c; github := github c; arxiv := arxiv c;
     upvotes := x; published := published c; github_stars := github_stars c |}.

Definition set_published (x : option string) (c : PaperCard) : PaperCard :=
  {| paper_url := paper_url c; github := github c; arxiv := arxiv c;
     upvotes := upvotes c; published := x; github_stars := github_stars c |}.

Definition set_github (x : option string) (c : PaperCard) : PaperCard :=
  {| paper_url := paper_url c; github := x; arxiv := arxiv c;
     upvotes := upvotes c; published := published c; github_stars := github_stars c |}.

Definition set_github_stars (x : option Z) (c : PaperCard) : PaperCard :=
  {| paper_url := paper_url c; github := github c; arxiv := arxiv c;
     upvotes := upvotes c; published := published c; github_stars := x |}.

Definition set_arxiv (x : option string) (c : PaperCard) : PaperCard :=
  {| paper_url := paper_url c; github := github c; arxiv := x;
     upvotes := upvotes c; published := published c; github_stars := github_stars c |}.

(** The structural predicates of [parse_trending_cards] *)

(** [article.select_one("a[href^='/papers/']")] *)
Definition is_paper_link : Soup.node -> bool :=
  Soup.both (Soup.is_tag "a") (Soup.attr_startswith "href" "/papers/").

(** [article.select_one(".font-semibold.text-orange-500")] *)
Definition is_upvote_tag : Soup.node -> bool :=
  Soup.has_classes ["font-semibold"; "text-orange-500"].

(** [re.compile(r"Published|[A-Za-z]{3,9}\s+\d{1,2},\s+\d{4}")] *)
Definition published_pattern : Re.re :=
  Re.Alt (Re.lit "Published")
         (Re.seq [Re.range 3 9 Re.letter; Re.plus Re.space;
                  Re.range 1 2 Re.digit; Re.lit ","; Re.plus Re.space;
                  Re.times 4 Re.digit]).

Definition is_pub_span : Soup.node -> bool :=
  Soup.both (Soup.is_tag "span") (Soup.string_search published_pattern).

(** [article.find("a", href=re.compile(r"github.com"))] *)
Definition is_github_link : Soup.node -> bool :=
  Soup.both (Soup.is_tag "a")
            (Soup.attr_search "href" (Re.seq [Re.lit "github"; Re.dot; Re.lit "com"])).

(** [github_link.find("span", string=re.compile(r"\d"))] *)
Definition is_star_span : Soup.node -> bool :=
  Soup.both (Soup.is_tag "span") (Soup.string_search Re.digit).

(** [article.find("a", href=re.compile(r"arxiv.org"))] *)
Definition is_arxiv_link : Soup.node -> bool :=
  Soup.both (Soup.is_tag "a")
            (Soup.attr_search "href" (Re.seq [Re.lit "arxiv"; Re.dot; Re.lit "org"])).

Section Pipeline.

Context {parser : HtmlParser} {datetime : DateTime} {network : Network}.

(** The label of the date, without its prefix *)
Definition pub_text_of (pub_span : Soup.cursor) : string :=
  Str.replace "Published on " "" (Str.strip (Soup.text (Soup.here pub_span))).

(** [try: strptime ... except ValueError: fallback] *)
Definition published_value (pub_text : string) : string :=
  match strptime_date pub_text with
  | Some d => d
  | None => pub_text
  end.

Definition step_upvotes (article : Soup.cursor) (paper_url : string) (papers : dict)
  : result dict :=
  match Soup.find is_upvote_tag article with
  | None => Ok papers
  | Some upvote_tag =>
      n <- parse_number (Soup.text (Soup.here upvote_tag)) ;;
      Ok (update paper_url (set_upvotes n) papers)
  end.

Definition step_published (article : Soup.cursor) (paper_url : string) (papers : dict)
  : dict :=
  match Soup.find is_pub_span article with
  | None => papers
  | Some pub_span =>
      update paper_url (set_published (Some (published_value (pub_text_of pub_span)))) papers
  end.

Definition step_github (article : Soup.cursor) (paper_url : string) (papers : dict)
  : result dict :=
  match Soup.find is_github_link article with
  | None => Ok papers
  | Some github_link =>
      let papers :=
        update paper_url
          (set_github (Some (Soup.attr_value "href" (Soup.here github_link)))) papers in
      match Soup.find is_star_span github_link with
      | None => Ok papers
      | Some star_span =>
          n <- parse_number (Soup.text (Soup.here star_span)) ;;
          Ok (update paper_url (set_github_stars n) papers)
      end
  end.

Definition step_arxiv (article : Soup.cursor) (paper_url : string) (papers : dict)
  : dict :=
  match Soup.find is_arxiv_link article with
  | None => papers
  | Some arxiv_link =>
      update paper_url
        (set_arxiv (Some (Soup.attr_value "href" (Soup.here arxiv_link)))) papers
  end.

(** One turn of the loop of [parse_trending_cards] *)
Definition card_step (papers : dict) (article : Soup.cursor) : result dict :=
  match Soup.find is_paper_link article with
  | None => Ok papers
  | Some a_tag =>
      let paper_url :=
        "https://huggingface.co" ++ Soup.attr_value "href" (Soup.here a_tag) in
      let papers :=
        if contains paper_url papers then papers
        else add paper_url (blank paper_url) papers in
      papers <- step_upvotes article paper_url papers ;;
      let papers := step_published article paper_url papers in
      papers <- step_github article paper_url papers ;;
      Ok (step_arxiv article paper_url papers)
  end.

Fixpoint card_loop (articles : list Soup.cursor) (papers : dict) : result dict :=
  match articles with
  | [] => Ok papers
  | article :: rest =>
      papers <- card_step papers article ;;
      card_loop rest papers
  end.

Definition parse_soup (doc : Soup.soup) : result dict :=
  card_loop (Soup.soup_find_all (Soup.is_tag "article") doc) [].

Definition parse_trending_cards (page_content : string) : result dict :=
  parse_soup (BeautifulSoup page_content).

Definition details_of (doc : Soup.soup) : string * string :=
  let title_tag := Soup.soup_find (Soup.is_tag "h1") doc in
  let abstract_tag := Soup.soup_find (Soup.is_tag "p") doc in
  (match title_tag with
   | Some t => Str.strip (Soup.text (Soup.here t))
   | None => "N/A"
   end,
   match abstract_tag with
   | Some t => Str.strip (Soup.text (Soup.here t))
   | None => "N/A"
   end).

Definition parse_paper_details (page_content : string) : string * string :=
  details_of (BeautifulSoup page_content).

Definition fetch_url (url : string) : IO string :=
  fun h =>
    (match session_get h url with
     | Responded _ body => Ok body
     | Failed => Raise ClientError
     end, (h ++ [url])%list).

Definition row (card : PaperCard) (page : string) : PaperRecord :=
  let '(title, abstract) := parse_paper_details page in
  {| title := title;
     abstract := abstract;
     url := paper_url card;
     row_github := github card;
     row_arxiv := arxiv card;
     row_upvotes := upvotes card;
     row_published := published card;
     row_github_stars := github_stars card |}.

Definition run : IO (list PaperRecord) :=
  let url := BASE_URL ++ "/papers/trending" in
  page_content <~ fetch_url url ;;
  paper_cards <~ io_lift (parse_trending_cards page_content) ;;
  let tasks := map (fun card => fetch_url (paper_url card)) (values paper_cards) in
  pages <~ gather tasks ;;
  io_ret (map (fun cp => row (fst cp) (snd cp)) (combine (values paper_cards) pages)).

End Pipeline.

End crawl_paper.

(** ** Reference instances of the libraries

    [datetime] for timestamps of the shape the site emits and for English
    month names.  [iso_date] reads [YYYY-MM-DD], optionally followed by [T]
    or a space and [hh], [hh:mm] or [hh:mm:ss], a fraction of three or six
    digits and an offset [+hh:mm]; on these it checks the ranges that
    [fromisoformat] checks.  It rejects every other text, among them the
    other ISO 8601 forms that recent versions of the library accept. *)

Module Reference.

Definition two (n : Z) : string :=
  String (ascii_of_N (Z.to_N (48 + n / 10)))
         (String (ascii_of_N (Z.to_N (48 + n mod 10))) "").

Definition number (s : string) : Z :=
  Num.decimal_value (fst (Num.scan_digits s)).

(** [%Y] writes a year without leading zeros. *)
Definition unpadded (year : string) : string :=
  Str.lstrip_with (Ascii.eqb "0") year.

Definition leap (y : Z) : bool :=
  ((y mod 4 =? 0) && (negb (y mod 100 =? 0) || (y mod 400 =? 0)))%bool.

Definition days_in_month (y m : Z) : Z :=
  if m =? 2 then (if leap y then 29 else 28)
  else if ((m =? 4) || (m =? 6) || (m =? 9) || (m =? 11))%bool then 30
  else 31.

Definition valid_date (y m d : Z) : bool :=
  ((1 <=? y) && (1 <=? m) && (m <=? 12) && (1 <=? d) && (d <=? days_in_month y m))%bool.

Definition iso_shape : Re.re :=
  let d2 := Re.times 2 Re.digit in
  Re.seq [Re.times 4 Re.digit; Re.lit "-"; d2; Re.lit "-"; d2;
          Re.Alt Re.Eps
            (Re.seq [Re.Alt (Re.lit "T") (Re.lit " "); d2;
                     Re.Alt Re.Eps
                       (Re.seq [Re.lit ":"; d2;
                                Re.Alt Re.Eps
                                  (Re.seq [Re.lit ":"; d2;
                                           Re.Alt Re.Eps
                                             (Re.Cat (Re.lit ".")
                                                (Re.Alt (Re.times 3 Re.digit)
                                                        (Re.times 6 Re.digit)))])]);
                     Re.Alt Re.Eps
                       (Re.seq [Re.Alt (Re.lit "+") (Re.lit "-");
                                d2; Re.lit ":"; d2])])].

Definition char_is (i : nat) (c : ascii) (s : string) : bool :=
  match String.get i s with
  | Some x => Ascii.eqb x c
  | None => false
  end.

(** The hour, the minute, the second and the minutes of the offset of a
    text of the shape above; what is not written is zero. *)
Definition iso_time (s : string) : Z * Z * Z * Z :=
  let n := String.length s in
  let hour := number (String.substring 11 2 s) in
  let has_minute := char_is 13 ":" s in
  let minute := if has_minute then number (String.substring 14 2 s) else 0 in
  let has_second := (has_minute && char_is 16 ":" s)%bool in
  let second := if has_second then number (String.substring 17 2 s) else 0 in
  let has_offset :=
    ((19 <=? n)%nat && (char_is (n - 6) "+" s || char_is (n - 6) "-" s))%bool in
  let offset :=
    if has_offset
    then 60 * number (String.substring (n - 5) 2 s) + number (String.substring (n - 2) 2 s)
    else 0 in
  (hour, minute, second, offset).

Definition valid_time (t : Z * Z * Z * Z) : bool :=
  let '(hour, minute, second, offset) := t in
  ((hour <? 24) && (minute <? 60) && (second <? 60) && (offset <? 24 * 60))%bool.

Definition iso_date (s : string) : option string :=
  if Re.fullmatch iso_shape s then
    let y := number (String.substring 0 4 s) in
    let m := number (String.substring 5 2 s) in
    let d := number (String.substring 8 2 s) in
    if (valid_date y m d && valid_time (iso_time s))%bool
    then Some (unpadded (String.substring 0 4 s) ++ String.substring 4 6 s)
    else None
  else None.

Definition months : list string :=
  ["jan"; "feb"; "mar"; "apr"; "may"; "jun";
   "jul"; "aug"; "sep"; "oct"; "nov"; "dec"].

Fixpoint index_of (x : string) (l : list string) (i : Z) : option Z :=
  match l with
  | [] => None
  | y :: rest => if String.eqb x y then Some i else index_of x rest (i + 1)
  end.

Definition bdY_shape : Re.re :=
  Re.seq [Re.times 3 Re.letter; Re.plus Re.space; Re.range 1 2 Re.digit;
          Re.lit ","; Re.plus Re.space; Re.times 4 Re.digit].

Definition bdY_date (s : string) : option string :=
  if Re.fullmatch bdY_shape s then
    match index_of (Str.lower (String.substring 0 3 s)) months 1 with
    | None => None
    | Some m =>
        let after_month := Str.lstrip_with Str.isspace (String.substring 3 (String.length s) s) in
        let '(dd, rest) := Num.scan_digits after_month in
        let d := Num.decimal_value dd in
        let year := Str.lstrip_with Str.isspace (String.substring 1 (String.length rest) rest) in
        let y := number year in
        if valid_date y m d
        then Some (unpadded year ++ "-" ++ two m ++ "-" ++ two d)
        else None
    end
  else None.

#[export] Instance datetime : DateTime :=
  {| fromisoformat_date := iso_date;
     strptime_date := bdY_date |}.

End Reference.

(** ** Sample documents *)

Module Samples.

Import Soup.

Definition svg (cls : string) : node := Tag "svg" [("class", cls)] [].

(** A card of the models listing, as the site renders it. *)
Definition model_card (href : string) (label : list node) (extra : list node) : node :=
  Tag "article" [("class", "overview-card-wrapper group/repo")]
    [Tag "a" [("class", "flex items-center"); ("href", href)]
       (label ++
        [Tag "div" [("class", "mr-1 flex items-center")] extra])%list].

Definition full_card : node :=
  model_card "/deepseek-ai/DeepSeek-V3"
    [Tag "header" [] [Tag "h4" [("class", "text-md truncate")] [Text "deepseek-ai/DeepSeek-V3"]]]
    [svg "mr-1.5 text-gray-400"; Text " Text Generation ";
     Tag "span" [("title", "Number of parameters in the model")] [Text " 685B "];
     Text "Updated ";
     Tag "time" [("datetime", "2025-03-25T08:01:16.000Z")] [Text "Mar 25"];
     svg "flex-none w-3 text-gray-400 mr-0.5"; Text " 1.2M ";
     svg "flex-none w-3 text-gray-400 mr-1"; Text " 3,665 "].

Definition paper_card (href : string) (extra : list node) : node :=
  Tag "article" [("class", "relative flex flex-col")]
    (Tag "a" [("href", href); ("class", "line-clamp-3")] [Text "A paper"] :: extra).

Definition upvote (s : string) : node :=
  Tag "div" [("class", "font-semibold text-orange-500")] [Text s].

Definition stars (href s : string) : node :=
  Tag "a" [("href", href)] [svg "w-3"; Tag "span" [] [Text s]].

Definition full_paper : node :=
  paper_card "/papers/2501.00001"
    [upvote "1.2k";
     Tag "span" [] [Text " Published on Jan 5, 2025 "];
     stars "https://github.com/org/repo" "3,400";
     Tag "a" [("href", "https://arxiv.org/abs/2501.00001")] [Text "arXiv"]].

(** Two fragments of one paper: the second has an upvote element that
    holds no number. *)
Definition counted_fragment : node :=
  paper_card "/papers/2501.00001" [upvote "12"].

Definition uncounted_fragment : node :=
  paper_card "/papers/2501.00001" [upvote "-"].

(** A fragment of the same paper with a star count and no upvote element. *)
Definition starred_fragment : node :=
  paper_card "/papers/2501.00001" [stars "https://github.com/org/repo" "3,400"].

(** A card of the models listing without a link. *)
Definition unlinked_card : node :=
  Tag "article" [("class", "overview-card-wrapper")]
    [Tag "span" [("title", "Number of parameters in the model")] [Text "7B"]].

(** A card whose timestamp is not in ISO format. *)
Definition misdated_card : node :=
  model_card "/user/model" []
    [Tag "time" [("datetime", "yesterday")] [Text "yesterday"]].

(** A paper whose date label is not a date. *)
Definition date_label : node := Tag "span" [] [Text " Published on last week "].

Definition undated_paper : node := paper_card "/papers/2501.00002" [date_label].

(** A card whose task icon is the last thing of the page. *)
Definition untitled_card : node :=
  model_card "/user/model" [] [svg "mr-1.5 text-gray-400"].

(** A card whose like count is the superscript digit U+00B2. *)
Definition superscript_card : node :=
  model_card "/user/model" []
    [svg "flex-none w-3 text-gray-400 mr-1"; Text (String "178" "")].

(** A paper with a negative count. *)
Definition downvoted_paper : node :=
  paper_card "/papers/2501.00003" [upvote "-5"].

(** A card of the models listing with a download count only. *)
Definition downloaded_card (href count : string) : node :=
  model_card href [] [svg "flex-none w-3 text-gray-400 mr-0.5"; Text count].

(** A page on which one count of each extractor is written with a minus
    sign and another is not. *)
Definition mixed_counts : soup :=
  [downloaded_card "/user/a" "-5"; downloaded_card "/user/b" "10";
   downvoted_paper; counted_fragment].

(** A listing with two papers, the first one shown twice, and the page of
    a paper. *)
Definition listing_html : string :=
  "<article class='relative flex flex-col'>" ++
  "<a href='/papers/2501.00001' class='line-clamp-3'>A paper</a></article>" ++
  "<article class='relative flex flex-col'>" ++
  "<a href='/papers/2501.00002' class='line-clamp-3'>A paper</a></article>" ++
  "<article class='relative flex flex-col'>" ++
  "<a href='/papers/2501.00001' class='line-clamp-3'>A paper</a></article>".

Definition listing_doc : soup :=
  [paper_card "/papers/2501.00001" [];
   paper_card "/papers/2501.00002" [];
   paper_card "/papers/2501.00001" []].

Definition detail_html : string := "<h1> A paper </h1><p> We study papers. </p>".

Definition detail_doc : soup :=
  [Tag "h1" [] [Text " A paper "]; Tag "p" [] [Text " We study papers. "]].

(** The parser on the two sample pages. *)
#[export] Instance parser : HtmlParser :=
  {| BeautifulSoup := fun page =>
       if String.eqb page listing_html then listing_doc
       else if String.eqb page detail_html then detail_doc
       else [] |}.

(** A site that serves the sample listing and the sample page of a paper. *)
#[export] Instance site : Network :=
  {| session_get := fun _ url =>
       if String.eqb url "https://huggingface.co/papers/trending"
       then Responded 200 listing_html
       else if Str.startswith "https://huggingface.co/papers/" url
       then Responded 200 detail_html
       else Failed |}.

(** A site that answers every request with an error page. *)
#[export] Instance missing_site : Network :=
  {| session_get := fun _ _ => Responded 404 "Not Found" |}.

(** What [parse_models] returns for [model_card "/user/model" [] []]. *)
Definition bare_record : crawl_models.ModelRecord :=
  {| crawl_models.model_id := "user/model";
     crawl_models.url := "https://huggingface.co/user/model";
     crawl_models.task := None;
     crawl_models.parameters := None;
     crawl_models.updated := None;
     crawl_models.downloads := None;
     crawl_models.likes := None |}.

End Samples.

(** ** Notions used in the statements *)

Module Notions.

Import crawl_paper.

(** The sign bit of a float is clear ([nan] has none). *)
Definition sign_clear (x : Num.float) : Prop :=
  match x with
  | S754_zero s | S754_infinity s | S754_finite s _ _ => s = false
  | S754_nan => True
  end.

(** The value of the papers normaliser, which always returns. *)
Definition normalised (text : string) : option Z :=
  match crawl_paper.parse_number text with
  | Ok v => v
  | Raise _ => None
  end.

(** [if k not in d: d[k] = blank] *)
Definition ensure (k : string) (d : dict) : dict :=
  if contains k d then d else add k (blank k) d.

(** The card stored under [k], or the blank one that would be created. *)
Definition prior (k : string) (d : dict) : PaperCard :=
  match get k d with
  | Some c => c
  | None => blank k
  end.

(** The keys after [ensure]: a new key goes last. *)
Definition add_new (ks : list string) (k : string) : list string :=
  if existsb (String.eqb k) ks then ks else (ks ++ [k])%list.

(** What one card fragment writes into the card of its paper: every field
    whose element is found is assigned, the others are left as they are. *)
Definition fragment {datetime : DateTime} (article : Soup.cursor) (c : PaperCard)
  : PaperCard :=
  let c :=
    match Soup.find is_upvote_tag article with
    | Some t => set_upvotes (normalised (Soup.text (Soup.here t))) c
    | None => c
    end in
  let c :=
    match Soup.find is_pub_span article with
    | Some p => set_published (Some (published_value (pub_text_of p))) c
    | None => c
    end in
  let c :=
    match Soup.find is_github_link article with
    | Some g =>
        match Soup.find is_star_span g with
        | Some sp =>
            set_github_stars (normalised (Soup.text (Soup.here sp)))
              (set_github (Some (Soup.attr_value "href" (Soup.here g))) c)
        | None => set_github (Some (Soup.attr_value "href" (Soup.here g))) c
        end
    | None => c
    end in
  match Soup.find is_arxiv_link article with
  | Some a => set_arxiv (Some (Soup.attr_value "href" (Soup.here a))) c
  | None => c
  end.

(** The element a fragment reads the star count from, if it has one. *)
Definition stars_element (article : Soup.cursor) : option Soup.cursor :=
  match Soup.find is_github_link article with
  | Some g => Soup.find is_star_span g
  | None => None
  end.

(** The address a card stands for: the site's origin followed by the
    [href] of the card's link, [link] being what the extractor takes for one. *)
Definition address (link : Soup.node -> bool) (article : Soup.cursor) : option string :=
  match Soup.find link article with
  | Some a_tag => Some ("https://huggingface.co" ++ Soup.attr_value "href" (Soup.here a_tag))
  | None => None
  end.

(** The addresses of the cards that have one, in document order. *)
Fixpoint addresses (link : Soup.node -> bool) (articles : list Soup.cursor) : list string :=
  match articles with
  | [] => []
  | article :: rest =>
      match address link article with
      | Some u => u :: addresses link rest
      | None => addresses link rest
      end
  end.

(** The string a count is read from: the one that follows an icon. *)
Definition string_after (icon : Soup.node -> bool) (article : Soup.cursor)
  : option string :=
  match Soup.find icon article with
  | Some svg => Soup.find_next_string svg
  | None => None
  end.

Definition no_minus (found : option string) : Prop :=
  match found with
  | Some t => Str.mem "-" t = false
  | None => True
  end.

Definition nonneg (x : option Z) : Prop :=
  match x with
  | Some n => 0 <= n
  | None => True
  end.

(** The answers of the network to requests made one after the other. *)
Fixpoint replies {network : Network} (h : list string) (urls : list string)
  : list http_reply :=
  match urls with
  | [] => []
  | u :: rest => session_get h u :: replies (h ++ [u])%list rest
  end.

Definition answered (reply : http_reply) (page : string) : Prop :=
  exists status, reply = Responded status page.

End Notions.

Import Notions.

(** ** [analyze_app.py] *)

Module analyze_app.

Section Pipeline.

Context {parser : HtmlParser} {datetime : DateTime} {network : Network}.


End Pipeline.

(** [series.dropna()] on a column of texts *)
Fixpoint dropna (series : list (option string)) : list string :=
  match series with
  | [] => []
  | Some t :: rest => t :: dropna rest
  | None :: rest => dropna rest
  end.

(** [generate_wordcloud]: the text handed to the word cloud, or [None] when
    the notice that there is no text is shown instead. *)
Definition generate_wordcloud (text_series : list (option string)) : option string :=
  let text := String.concat " " (dropna text_series) in
  if Str.is_empty (Str.strip text) then None else Some text.

End analyze_app.

(** ** More sample sites *)

Module Sites.

(** A site that serves the sample listing and fails on the second paper. *)
#[export] Instance flaky : Network :=
  {| session_get := fun _ url =>
       if String.eqb url "https://huggingface.co/papers/trending"
       then Responded 200 Samples.listing_html
       else if String.eqb url "https://huggingface.co/papers/2501.00002"
       then Failed
       else Responded 200 Samples.detail_html |}.

(** A site that serves the sample listing of papers, the page of a paper
    and, for the models, a listing of one card. *)
Definition models_html : string :=
  "<article class='overview-card-wrapper'><a href='/user/model'></a></article>".


(** The parser on the sample pages, the listing of models included. *)
#[export] Instance parser : HtmlParser :=
  {| BeautifulSoup := fun page =>
       if String.eqb page Samples.listing_html then Samples.listing_doc
       else if String.eqb page Samples.detail_html then Samples.detail_doc
       else if String.eqb page models_html
       then [Soup.Tag "article" [("class", "overview-card-wrapper")]
               [Soup.Tag "a" [("href", "/user/model")] []]]
       else [] |}.

(** A listing of one paper whose card has every field. *)
Definition full_html : string :=
  "<article class='relative flex flex-col'>" ++
  "<a href='/papers/2501.00001' class='line-clamp-3'>A paper</a>" ++
  "<div class='font-semibold text-orange-500'>1.2k</div>" ++
  "<span> Published on Jan 5, 2025 </span>" ++
  "<a href='https://github.com/org/repo'><svg class='w-3'></svg><span>3,400</span></a>" ++
  "<a href='https://arxiv.org/abs/2501.00001'>arXiv</a></article>".

#[export] Instance full : Network :=
  {| session_get := fun _ url =>
       if String.eqb url "https://huggingface.co/papers/trending"
       then Responded 200 full_html
       else Responded 200 Samples.detail_html |}.

#[export] Instance full_parser : HtmlParser :=
  {| BeautifulSoup := fun page =>
       if String.eqb page full_html then [Samples.full_paper]
       else if String.eqb page Samples.detail_html then Samples.detail_doc
       else [] |}.

End Sites.

(** ** Further notions used in the statements *)

Module Views.

(** [str(n)] for a natural number *)
Definition str_of_N (n : N) : string := NilEmpty.string_of_uint (N.to_uint n).

(** A text made of decimal digits and commas only *)
Definition grouped (s : string) : Prop :=
  Str.forallb (fun c => (Str.isdecimal c || Ascii.eqb c ",")%bool) s = true.

(** A text with no blank at either end *)
Definition stripped (s : string) : Prop := Str.strip s = s.

Definition stripped_opt (x : option string) : Prop :=
  match x with
  | Some s => stripped s
  | None => True
  end.

(** A text of blanks only *)
Definition blank (s : string) : Prop := Str.forallb Str.isspace s = true.

(** What a value satisfies when there is one *)
Definition when_some {A : Type} (P : A -> Prop) (x : option A) : Prop :=
  match x with
  | Some a => P a
  | None => True
  end.

(** The elements of a list in the order of their first occurrence *)
Definition first_occurrences (l : list string) : list string :=
  rev (nodup string_dec (rev l)).

End Views.

Import Views.

(** * Properties *)

(** ** Strings *)

Ltac each_char c := destruct c as [[] [] [] [] [] [] [] []]; reflexivity.

Lemma isspace_lower_char (c : ascii) : Str.isspace (Str.lower_char c) = Str.isspace c.
Proof. each_char c. Qed.

Lemma eqb_comma_lower_char (c : ascii) :
  Ascii.eqb "," (Str.lower_char c) = Ascii.eqb "," c.
Proof. each_char c. Qed.

Lemma eqb_minus_lower_char (c : ascii) :
  Ascii.eqb "-" (Str.lower_char c) = Ascii.eqb "-" c.
Proof. each_char c. Qed.

Lemma lower_lstrip (s : string) :
  Str.lower (Str.lstrip_with Str.isspace s) = Str.lstrip_with Str.isspace (Str.lower s).
Proof.
  induction s as [|c s IH]; simpl; [reflexivity|].
  rewrite isspace_lower_char. destruct (Str.isspace c); [exact IH | reflexivity].
Qed.

Lemma lower_rstrip (s : string) :
  Str.lower (Str.rstrip_with Str.isspace s) = Str.rstrip_with Str.isspace (Str.lower s).
Proof.
  induction s as [|c s IH]; simpl; [reflexivity|].
  rewrite <- IH, isspace_lower_char.
  destruct (Str.rstrip_with Str.isspace s); simpl;
    [destruct (Str.isspace c); reflexivity | reflexivity].
Qed.

Lemma lower_strip (s : string) : Str.lower (Str.strip s) = Str.strip (Str.lower s).
Proof.
  unfold Str.strip, Str.strip_with. now rewrite lower_lstrip, lower_rstrip.
Qed.

Lemma mem_lower_comma (s : string) : Str.mem "," (Str.lower s) = Str.mem "," s.
Proof.
  induction s as [|c s IH]; cbn [Str.mem Str.lower]; [reflexivity|].
  now rewrite IH, eqb_comma_lower_char.
Qed.

Lemma mem_lower_minus (s : string) : Str.mem "-" (Str.lower s) = Str.mem "-" s.
Proof.
  induction s as [|c s IH]; cbn [Str.mem Str.lower]; [reflexivity|].
  now rewrite IH, eqb_minus_lower_char.
Qed.

Lemma mem_lstrip (p : ascii -> bool) (c : ascii) (s : string) :
  Str.mem c s = false -> Str.mem c (Str.lstrip_with p s) = false.
Proof.
  induction s as [|d s IH]; simpl; [auto|].
  intros H. apply orb_false_elim in H as [Hd Hs].
  destruct (p d); [auto | simpl; now rewrite Hd, Hs].
Qed.

Lemma mem_rstrip (p : ascii -> bool) (c : ascii) (s : string) :
  Str.mem c s = false -> Str.mem c (Str.rstrip_with p s) = false.
Proof.
  induction s as [|d s IH]; simpl; [auto|].
  intros H. apply orb_false_elim in H as [Hd Hs]. specialize (IH Hs).
  destruct (Str.rstrip_with p s).
  - destruct (p d); simpl; [reflexivity | now rewrite Hd].
  - change (Str.mem c (String d (String a s0))) with
      (Ascii.eqb c d || Str.mem c (String a s0))%bool.
    now rewrite Hd, IH.
Qed.

Lemma mem_strip_with (p : ascii -> bool) (c : ascii) (s : string) :
  Str.mem c s = false -> Str.mem c (Str.strip_with p s) = false.
Proof. intros H. now apply mem_lstrip, mem_rstrip. Qed.

Lemma mem_strip (c : ascii) (s : string) :
  Str.mem c s = false -> Str.mem c (Str.strip s) = false.
Proof. apply mem_strip_with. Qed.

Lemma mem_drop_last (c : ascii) (s : string) :
  Str.mem c s = false -> Str.mem c (Str.drop_last s) = false.
Proof.
  induction s as [|d s IH]; simpl; [auto|].
  intros H. apply orb_false_elim in H as [Hd Hs]. specialize (IH Hs).
  destruct s; [reflexivity|].
  change (Str.mem c (String d (Str.drop_last (String a s)))) with
    (Ascii.eqb c d || Str.mem c (Str.drop_last (String a s)))%bool.
  now rewrite Hd, IH.
Qed.

Lemma mem_append (c : ascii) (s t : string) :
  Str.mem c (s ++ t) = (Str.mem c s || Str.mem c t)%bool.
Proof.
  induction s as [|d s IH]; simpl; [reflexivity|].
  now rewrite IH, orb_assoc.
Qed.

Lemma mem_replace_from (c : ascii) (old new : string) (s : string) :
  Str.mem c new = false ->
  Str.mem c s = false ->
  forall skip, Str.mem c (Str.replace_from old new skip s) = false.
Proof.
  intros Hnew. induction s as [|d s IH]; [reflexivity|].
  cbn [Str.mem Str.replace_from].
  intros H skip. apply orb_false_elim in H as [Hd Hs]. specialize (IH Hs).
  destruct skip; [|apply IH].
  destruct (String.prefix old (String d s)).
  - now rewrite mem_append, Hnew, IH.
  - cbn [Str.mem]. now rewrite Hd, IH.
Qed.

Lemma mem_replace (c : ascii) (old new s : string) :
  Str.mem c new = false -> Str.mem c s = false ->
  Str.mem c (Str.replace old new s) = false.
Proof. intros. now apply mem_replace_from. Qed.

(** Nothing is replaced where the character does not occur. *)
Lemma replace_absent (c : ascii) (new s : string) :
  Str.mem c s = false -> Str.replace (String c "") new s = s.
Proof.
  unfold Str.replace. induction s as [|d s IH]; simpl; [reflexivity|].
  intros H. apply orb_false_elim in H as [Hd Hs].
  destruct (ascii_dec c d) as [->|_].
  - now rewrite Ascii.eqb_refl in Hd.
  - now rewrite (IH Hs).
Qed.

Lemma endswith_cons (suffix : string) (c : ascii) (s : string) :
  Str.endswith suffix s = true -> Str.endswith suffix (String c s) = true.
Proof. intros H. simpl. rewrite H. apply orb_true_r. Qed.

(** Removing commas keeps a one-letter suffix that is not a comma. *)
Lemma endswith_replace_comma (x : ascii) (s : string) :
  Ascii.eqb "," x = false ->
  Str.endswith (String x "") s = true ->
  Str.endswith (String x "") (Str.replace "," "" s) = true.
Proof.
  intros Hx. unfold Str.replace. induction s as [|c s IH]; [discriminate|].
  intros H. cbn [Str.endswith] in H. apply orb_true_iff in H as [H|H].
  - apply String.eqb_eq in H. injection H as -> ->.
    assert (Hp : String.prefix "," (String x "") = false).
    { cbn [String.prefix]. destruct (ascii_dec "," x) as [<-|_]; [discriminate|reflexivity]. }
    cbn [Str.replace_from]. rewrite Hp. cbn [Str.endswith].
    now rewrite String.eqb_refl.
  - specialize (IH H). cbn [Str.replace_from].
    destruct (String.prefix "," (String c s)).
    + exact IH.
    + now apply endswith_cons.
Qed.

(** ** Numbers *)

Lemma digit_value_nonneg (c : ascii) : Str.isdecimal c = true -> 0 <= Num.digit_value c.
Proof.
  unfold Str.isdecimal, Str.between, Num.digit_value. intros H.
  apply andb_true_iff in H as [H _]. apply N.leb_le in H. lia.
Qed.

Lemma scan_more_nonneg (s : string) : Forall (fun d => 0 <= d) (fst (Num.scan_more s)).
Proof.
  remember (String.length s) as n eqn:Hn.
  revert s Hn. induction n as [n IH] using lt_wf_ind. intros s Hn.
  destruct s as [|c s]; [constructor|].
  cbn [Num.scan_more]. destruct (Str.isdecimal c) eqn:Hc.
  - specialize (IH (String.length s) ltac:(subst; simpl; lia) s eq_refl).
    destruct (Num.scan_more s) as [ds r]. simpl in *.
    constructor; [now apply digit_value_nonneg | exact IH].
  - destruct (Ascii.eqb c "_"); [|constructor].
    destruct s as [|d s]; [constructor|].
    destruct (Str.isdecimal d) eqn:Hd; [|constructor].
    specialize (IH (String.length s) ltac:(subst; simpl; lia) s eq_refl).
    destruct (Num.scan_more s) as [ds r]. simpl in *.
    constructor; [now apply digit_value_nonneg | exact IH].
Qed.

Lemma scan_digits_nonneg (s : string) : Forall (fun d => 0 <= d) (fst (Num.scan_digits s)).
Proof.
  destruct s as [|c s]; [constructor|].
  cbn [Num.scan_digits]. destruct (Str.isdecimal c) eqn:Hc; [|constructor].
  pose proof (scan_more_nonneg s) as H.
  destruct (Num.scan_more s) as [ds r]. simpl in *.
  constructor; [now apply digit_value_nonneg | exact H].
Qed.

Lemma fold_decimal_nonneg (ds : list Z) :
  Forall (fun d => 0 <= d) ds ->
  forall acc, 0 <= acc -> 0 <= fold_left (fun a d => 10 * a + d) ds acc.
Proof.
  induction 1 as [|d ds Hd _ IH]; intros acc Hacc; cbn [fold_left]; [exact Hacc|].
  apply IH. lia.
Qed.

Lemma decimal_value_nonneg (ds : list Z) :
  Forall (fun d => 0 <= d) ds -> 0 <= Num.decimal_value ds.
Proof. intros H. apply fold_decimal_nonneg; [exact H | lia]. Qed.

(** A string without a minus sign has no negative sign to split off. *)
Lemma split_sign_no_minus (s : string) :
  Str.mem "-" s = false ->
  fst (Num.split_sign s) = false /\ Str.mem "-" (snd (Num.split_sign s)) = false.
Proof.
  destruct s as [|c s]; [now split|].
  cbn [Str.mem Num.split_sign]. intros H. apply orb_false_elim in H as [Hc Hs].
  rewrite (Ascii.eqb_sym c "-"), Hc.
  destruct (Ascii.eqb c "+"); cbn [fst snd Str.mem]; split; auto.
  now rewrite Hc, Hs.
Qed.

Lemma int_of_str_nonneg (s : string) (n : Z) :
  Str.mem "-" s = false -> Num.int_of_str s = Some n -> 0 <= n.
Proof.
  intros Hs. unfold Num.int_of_str.
  destruct (split_sign_no_minus (Num.trim s) (mem_strip_with _ _ _ Hs)) as [Hneg _].
  destruct (Num.split_sign (Num.trim s)) as [neg body]. simpl in Hneg. subst neg.
  pose proof (scan_digits_nonneg body) as Hd.
  destruct (Num.scan_digits body) as [ds rest]. simpl in Hd.
  destruct ds as [|d ds]; [discriminate|]. destruct rest; [|discriminate].
  destruct (Nat.leb _ _); [|discriminate].
  intros [= <-]. simpl. now apply decimal_value_nonneg.
Qed.

Lemma binary_round_aux_sign (s : bool) (m e : Z) (l : location) :
  match binary_round_aux Num.prec Num.emax s m e l with
  | S754_zero s' | S754_infinity s' | S754_finite s' _ _ => s' = s
  | S754_nan => True
  end.
Proof.
  unfold binary_round_aux.
  destruct (shr_fexp Num.prec Num.emax m e l) as [mrs' e'].
  destruct (shr_fexp Num.prec Num.emax _ e' loc_Exact) as [mrs'' e''].
  destruct (shr_m mrs''); auto.
  destruct (e'' <=? Num.emax - Num.prec); reflexivity.
Qed.

Lemma decimal_to_float_sign (m e : Z) : sign_clear (Num.decimal_to_float false m e).
Proof.
  unfold Num.decimal_to_float. destruct m; try reflexivity.
  destruct (0 <=? e).
  - unfold binary_round. destruct (shl_align _ _ _) as [mz ez].
    apply (binary_round_aux_sign false).
  - destruct (SFdiv_core_binary _ _ _ _ _ _) as [[q e'] l].
    apply (binary_round_aux_sign false).
Qed.

Lemma float_of_str_sign (s : string) (x : Num.float) :
  Str.mem "-" s = false -> Num.float_of_str s = Some x -> sign_clear x.
Proof.
  intros Hs. unfold Num.float_of_str.
  destruct (split_sign_no_minus (Num.trim s) (mem_strip_with _ _ _ Hs)) as [Hneg _].
  destruct (Num.split_sign (Num.trim s)) as [neg body]. simpl in Hneg. subst neg.
  destruct (_ || _)%bool; [intros [= <-]; reflexivity|].
  destruct (String.eqb _ "nan"); [intros [= <-]; exact I|].
  destruct (Num.scan_digits body) as [ip r1].
  destruct (match r1 with String "." r => Num.scan_digits r | _ => ([], r1) end) as [fp r2].
  destruct (ip ++ fp)%list as [|d ds]; [discriminate|].
  destruct r2 as [|c r3]; [intros [= <-]; apply decimal_to_float_sign|].
  destruct (_ || _)%bool; [|discriminate].
  destruct (Num.split_sign r3) as [eneg eb].
  destruct (Num.scan_digits eb) as [[|e1 ed] [|? ?]]; try discriminate.
  intros [= <-]. apply decimal_to_float_sign.
Qed.

Lemma float_mul_sign (x : Num.float) (m : positive) (e : Z) :
  sign_clear x -> sign_clear (Num.float_mul x (S754_finite false m e)).
Proof.
  destruct x as [s|s| |s mx ex]; simpl; intros H; subst; try reflexivity.
  apply (binary_round_aux_sign false).
Qed.

Lemma truncation_nonneg (m : positive) (e : Z) :
  0 <= (if 0 <=? e then Z.pos m * 2 ^ e else Z.pos m / 2 ^ (- e)).
Proof.
  destruct (0 <=? e) eqn:He.
  - apply Z.leb_le in He. apply Z.mul_nonneg_nonneg; [lia|].
    now apply Z.pow_nonneg.
  - apply Z.leb_gt in He. apply Z.div_pos; [lia|].
    apply Z.pow_pos_nonneg; lia.
Qed.

Lemma int_of_float_nonneg (x : Num.float) (n : Z) :
  sign_clear x -> Num.int_of_float x = Ok n -> 0 <= n.
Proof.
  destruct x as [s|s| |s m e]; cbn [sign_clear Num.int_of_float]; intros H;
    try discriminate.
  - intros [= <-]. lia.
  - subst s. intros [= <-]. apply truncation_nonneg.
Qed.

Lemma float_of_thousand :
  Num.float_of_Z 1000 = S754_finite false 8796093022208000 (-43).
Proof. reflexivity. Qed.

Lemma float_of_million :
  Num.float_of_Z 1000000 = S754_finite false 8589934592000000 (-33).
Proof. reflexivity. Qed.

(** The [k]/[m] branch of both normalisers: [int(float(s) * factor)]. *)
Lemma scaled_nonneg (s : string) (m : positive) (e : Z) (n : Z) :
  Str.mem "-" s = false ->
  (x <- Num.py_float s ;;
   n <- Num.int_of_float (Num.float_mul x (S754_finite false m e)) ;;
   Ok (Some n)) = Ok (Some n) ->
  0 <= n.
Proof.
  intros Hs. unfold Num.py_float.
  destruct (Num.float_of_str s) as [x|] eqn:Hx; [|discriminate].
  cbn [bind].
  destruct (Num.int_of_float _) as [k|] eqn:Hk; [|discriminate].
  cbn [bind]. intros [= <-].
  eapply int_of_float_nonneg; [|exact Hk].
  apply float_mul_sign. eapply float_of_str_sign; eassumption.
Qed.

Lemma int_branch_nonneg (s : string) (n : Z) :
  Str.mem "-" s = false ->
  (n <- Num.py_int s ;; Ok (Some n)) = Ok (Some n) -> 0 <= n.
Proof.
  intros Hs. unfold Num.py_int.
  destruct (Num.int_of_str s) as [k|] eqn:Hk; [|discriminate].
  cbn [bind]. intros [= <-]. eapply int_of_str_nonneg; eassumption.
Qed.

(** ** The number normalisers *)

Lemma except_ValueError_some {A : Type} (m : result (option A)) (a : A) :
  except_ValueError m None = Ok (Some a) -> m = Ok (Some a).
Proof. destruct m as [v|[]]; simpl; congruence. Qed.

Lemma except_all_some {A : Type} (m : result (option A)) (a : A) :
  except_all m None = Ok (Some a) -> m = Ok (Some a).
Proof. destruct m as [v|e]; simpl; congruence. Qed.

Lemma except_all_returns {A : Type} (m : result A) (h : A) : returns (except_all m h).
Proof. destruct m as [a|e]; simpl; eexists; reflexivity. Qed.

(** What is caught by [except ValueError] is caught by a bare [except]. *)
Lemma except_ValueError_all {A : Type} (m : result A) (h v : A) :
  except_ValueError m h = Ok v -> except_all m h = Ok v.
Proof. destruct m as [a|[]]; simpl; congruence. Qed.

(** [int(s)] raises nothing but [ValueError]. *)
Lemma except_py_int (s : string) :
  except_ValueError (n <- Num.py_int s ;; Ok (Some n)) None =
  except_all (n <- Num.py_int s ;; Ok (Some n)) None.
Proof. unfold Num.py_int. destruct (Num.int_of_str s); reflexivity. Qed.

Lemma paper_parse_number_returns (text : string) :
  returns (crawl_paper.parse_number text).
Proof.
  unfold crawl_paper.parse_number.
  destruct (Str.is_empty text); [eexists; reflexivity | apply except_all_returns].
Qed.

Lemma paper_parse_number_normalised (text : string) :
  crawl_paper.parse_number text = Ok (normalised text).
Proof.
  unfold normalised. destruct (paper_parse_number_returns text) as [v Hv].
  now rewrite Hv.
Qed.

Lemma models_parse_number_nonneg (text : string) (n : Z) :
  Str.mem "-" text = false ->
  crawl_models.parse_number text = Ok (Some n) -> 0 <= n.
Proof.
  intros Hm. unfold crawl_models.parse_number.
  destruct (Str.is_empty text); [discriminate|].
  assert (Ht : Str.mem "-" (Str.strip (Str.lower text)) = false)
    by (apply mem_strip; now rewrite mem_lower_minus).
  rewrite float_of_thousand, float_of_million.
  intros H. apply except_ValueError_some in H.
  destruct (Str.endswith "k" _); [|destruct (Str.endswith "m" _)].
  - eapply scaled_nonneg; [|exact H]. now apply mem_drop_last.
  - eapply scaled_nonneg; [|exact H]. now apply mem_drop_last.
  - eapply int_branch_nonneg; [|exact H]. now apply mem_replace.
Qed.

Lemma paper_parse_number_nonneg (text : string) (n : Z) :
  Str.mem "-" text = false ->
  crawl_paper.parse_number text = Ok (Some n) -> 0 <= n.
Proof.
  intros Hm. unfold crawl_paper.parse_number.
  destruct (Str.is_empty text); [discriminate|].
  assert (Ht : Str.mem "-" (Str.replace "," "" (Str.lower (Str.strip text))) = false).
  { apply mem_replace; [reflexivity|]. rewrite mem_lower_minus. now apply mem_strip. }
  rewrite float_of_thousand, float_of_million.
  intros H. apply except_all_some in H.
  destruct (Str.endswith "k" _); [|destruct (Str.endswith "m" _)].
  - eapply scaled_nonneg; [|exact H]. now apply mem_drop_last.
  - eapply scaled_nonneg; [|exact H]. now apply mem_drop_last.
  - destruct (Str.isdigit _); eapply int_branch_nonneg; eassumption.
Qed.

Lemma normalised_nonneg (text : string) (n : Z) :
  Str.mem "-" text = false -> normalised text = Some n -> 0 <= n.
Proof.
  intros Hm Hn. apply (paper_parse_number_nonneg text n Hm).
  now rewrite paper_parse_number_normalised, Hn.
Qed.

(** The two normalisers put a text in the same normal form up to commas. *)
Lemma normal_forms (text : string) :
  Str.replace "," "" (Str.lower (Str.strip text)) =
  Str.replace "," "" (Str.strip (Str.lower text)).
Proof. now rewrite lower_strip. Qed.

(** The normalisers on the usual notations. *)
Example normalise_usual :
  map crawl_models.parse_number ["1.2k"; "3M"; ""; "12,345"; "abc"; " 7 "; "1.001k"]
  = [Ok (Some 1200); Ok (Some 3000000); Ok None; Ok (Some 12345); Ok None;
     Ok (Some 7); Ok (Some 1000)] /\
  map crawl_paper.parse_number ["1.2k"; "3M"; ""; "12,345"; "abc"; " 7 "; "1.001k"]
  = [Ok (Some 1200); Ok (Some 3000000); Ok None; Ok (Some 12345); Ok None;
     Ok (Some 7); Ok (Some 1000)].
Proof. split; vm_compute; reflexivity. Qed.

(** **** C6
    The number normaliser of the papers pipeline never raises, whatever
    the text; the one of the models pipeline catches [ValueError] only, and
    raises [OverflowError] on ["infk"], where [float("inf") * 1000] is
    infinite and [int] refuses it. *)
Theorem parse_number_raises_on_infinity :
  (forall text, returns (crawl_paper.parse_number text)) /\
  crawl_paper.parse_number "infk" = Ok None /\
  crawl_models.parse_number "infk" = Raise OverflowError.
Proof.
  split; [exact paper_parse_number_returns|].
  split; reflexivity.
Qed.

(** **** C7, as stated, fails: a comma before a [k] suffix is removed by the
    papers normaliser and rejected by the models one. *)
Lemma parse_number_versions_differ :
  crawl_models.parse_number "1,2k" = Ok None /\
  crawl_paper.parse_number "1,2k" = Ok (Some 12000) /\
  crawl_models.parse_number "1,2k" <> crawl_paper.parse_number "1,2k".
Proof. repeat split; try reflexivity. discriminate. Qed.

(** **** C7, amended
    Whenever the models normaliser returns a value, the papers normaliser
    returns the same one, provided the text has no comma, or its normal form
    with the commas removed ends in neither [k] nor [m]. *)
Theorem parse_number_versions_agree (text : string) (v : option Z) :
  Str.mem "," text = false \/
  (Str.endswith "k" (Str.replace "," "" (Str.lower (Str.strip text))) = false /\
   Str.endswith "m" (Str.replace "," "" (Str.lower (Str.strip text))) = false) ->
  crawl_models.parse_number text = Ok v ->
  crawl_paper.parse_number text = Ok v.
Proof.
  unfold crawl_models.parse_number, crawl_paper.parse_number.
  intros Hside. destruct (Str.is_empty text); [auto|].
  rewrite normal_forms.
  set (t := Str.strip (Str.lower text)).
  destruct Hside as [Hcomma | [Hk Hm]].
  - assert (Ht : Str.mem "," t = false)
      by (apply mem_strip; now rewrite mem_lower_comma).
    rewrite (replace_absent "," "" t Ht).
    intros H. apply except_ValueError_all in H.
    destruct (Str.endswith "k" t); [exact H|].
    destruct (Str.endswith "m" t); [exact H|].
    now destruct (Str.isdigit t).
  - rewrite normal_forms in Hk, Hm. fold t in Hk, Hm. rewrite Hk, Hm.
    destruct (Str.endswith "k" t) eqn:Ek.
    { apply endswith_replace_comma in Ek; [congruence | reflexivity]. }
    destruct (Str.endswith "m" t) eqn:Em.
    { apply endswith_replace_comma in Em; [congruence | reflexivity]. }
    rewrite except_py_int. now destruct (Str.isdigit _).
Qed.

Lemma parse_number_versions_agree_witness :
  crawl_models.parse_number "1.2k" = Ok (Some 1200) /\
  crawl_paper.parse_number "1.2k" = Ok (Some 1200).
Proof.
  split; [reflexivity|].
  apply (parse_number_versions_agree "1.2k" (Some 1200)); [left|]; reflexivity.
Defined.

(** ** The dictionary of paper cards *)

Section Dict.

Import crawl_paper.

Lemma keys_update (k : string) (f : PaperCard -> PaperCard) (d : dict) :
  keys (update k f d) = keys d.
Proof.
  induction d as [|[k' v] d IH]; [reflexivity|].
  unfold keys in *. cbn [update].
  destruct (String.eqb k k'); [reflexivity|].
  cbn [map fst]. now rewrite IH.
Qed.

Lemma get_update_same (k : string) (f : PaperCard -> PaperCard) (d : dict) :
  get k (update k f d) = option_map f (get k d).
Proof.
  induction d as [|[k' v] d IH]; [reflexivity|].
  cbn [update get]. destruct (String.eqb k k') eqn:E; cbn [get]; rewrite E;
    [reflexivity | exact IH].
Qed.

Lemma get_update_other (k k' : string) (f : PaperCard -> PaperCard) (d : dict) :
  k' <> k -> get k' (update k f d) = get k' d.
Proof.
  intros Hk. induction d as [|[k0 v] d IH]; [reflexivity|].
  cbn [update get]. destruct (String.eqb k k0) eqn:E; cbn [get].
  - apply String.eqb_eq in E. subst k0.
    destruct (String.eqb k' k) eqn:E'; [|reflexivity].
    apply String.eqb_eq in E'. contradiction.
  - now rewrite IH.
Qed.

Lemma update_update (k : string) (f g : PaperCard -> PaperCard) (d : dict) :
  update k f (update k g d) = update k (fun c => f (g c)) d.
Proof.
  induction d as [|[k' v] d IH]; [reflexivity|].
  cbn [update]. destruct (String.eqb k k') eqn:E; cbn [update]; rewrite E;
    [reflexivity | now rewrite IH].
Qed.

Lemma update_ext (k : string) (f g : PaperCard -> PaperCard) (d : dict) :
  (forall c, f c = g c) -> update k f d = update k g d.
Proof.
  intros H. induction d as [|[k' v] d IH]; [reflexivity|].
  cbn [update]. destruct (String.eqb k k'); [now rewrite H | now rewrite IH].
Qed.

Lemma update_id (k : string) (d : dict) : update k (fun c => c) d = d.
Proof.
  induction d as [|[k' v] d IH]; [reflexivity|].
  cbn [update]. destruct (String.eqb k k'); [reflexivity | now rewrite IH].
Qed.

Lemma contains_In (k : string) (d : dict) : contains k d = true <-> In k (keys d).
Proof.
  unfold contains. rewrite existsb_exists. split.
  - intros [x [Hx E]]. apply String.eqb_eq in E. now subst.
  - intros H. exists k. split; [exact H | apply String.eqb_refl].
Qed.

Lemma get_None (k : string) (d : dict) : get k d = None <-> ~ In k (keys d).
Proof.
  induction d as [|[k' v] d IH]; cbn [get keys map fst In]; [tauto|].
  destruct (String.eqb k k') eqn:E.
  - apply String.eqb_eq in E. subst. split; [discriminate | tauto].
  - apply String.eqb_neq in E. cbn [keys] in IH. rewrite IH. split.
    + intros H [Hk|Hk]; [congruence | tauto].
    + tauto.
Qed.

Lemma get_add (k k' : string) (v : PaperCard) (d : dict) :
  get k' (add k v d) =
  match get k' d with
  | Some c => Some c
  | None => if String.eqb k' k then Some v else None
  end.
Proof.
  unfold add. induction d as [|[k0 v0] d IH]; cbn [get app]; [reflexivity|].
  destruct (String.eqb k' k0); [reflexivity | exact IH].
Qed.

Lemma get_ensure_same (k : string) (d : dict) : get k (ensure k d) = Some (prior k d).
Proof.
  unfold ensure, prior. destruct (contains k d) eqn:E.
  - destruct (get k d) eqn:G; [reflexivity|].
    apply contains_In in E. apply get_None in G. contradiction.
  - rewrite get_add. destruct (get k d); [reflexivity|].
    now rewrite String.eqb_refl.
Qed.

Lemma get_ensure_other (k k' : string) (d : dict) :
  k' <> k -> get k' (ensure k d) = get k' d.
Proof.
  intros Hk. unfold ensure. destruct (contains k d); [reflexivity|].
  rewrite get_add. destruct (get k' d); [reflexivity|].
  apply String.eqb_neq in Hk. now rewrite Hk.
Qed.

Lemma keys_ensure (k : string) (d : dict) : keys (ensure k d) = add_new (keys d) k.
Proof.
  unfold ensure, add_new, contains. destruct (existsb _ _); [reflexivity|].
  unfold add, keys. now rewrite map_app.
Qed.

Lemma add_new_NoDup (ks : list string) (k : string) :
  NoDup ks -> NoDup (add_new ks k).
Proof.
  intros H. unfold add_new. destruct (existsb _ _) eqn:E; [exact H|].
  apply NoDup_app; [exact H | repeat constructor; intros [] | ].
  intros x Hx [Hk|[]]. subst x.
  assert (existsb (String.eqb k) ks = true); [|congruence].
  apply existsb_exists. exists k. split; [exact Hx | apply String.eqb_refl].
Qed.

Lemma add_new_In (ks : list string) (k x : string) :
  In x (add_new ks k) <-> In x ks \/ x = k.
Proof.
  unfold add_new. destruct (existsb _ _) eqn:E.
  - apply existsb_exists in E as [y [Hy E]]. apply String.eqb_eq in E. subst y.
    split; [tauto | intros [H| ->]; assumption].
  - rewrite in_app_iff. cbn [In]. split; intros [H|H]; try tauto; [|right]; intuition.
Qed.

Lemma count_occ_add_new (ks : list string) (k : string) :
  NoDup ks -> count_occ string_dec (add_new ks k) k = 1%nat.
Proof.
  intros H. apply (NoDup_count_occ' string_dec).
  - now apply add_new_NoDup.
  - apply add_new_In. now right.
Qed.

End Dict.

(** ** The loop of [parse_trending_cards] *)

Section PaperCards.

Import crawl_paper.

Context {datetime : DateTime}.

Lemma step_upvotes_update (article : Soup.cursor) (u : string) (papers : dict) :
  step_upvotes article u papers =
  Ok (update u
        (fun c => match Soup.find is_upvote_tag article with
                  | Some t => set_upvotes (normalised (Soup.text (Soup.here t))) c
                  | None => c
                  end) papers).
Proof.
  unfold step_upvotes. destruct (Soup.find is_upvote_tag article).
  - now rewrite paper_parse_number_normalised.
  - now rewrite update_id.
Qed.

Lemma step_published_update (article : Soup.cursor) (u : string) (papers : dict) :
  step_published article u papers =
  update u
    (fun c => match Soup.find is_pub_span article with
              | Some p => set_published (Some (published_value (pub_text_of p))) c
              | None => c
              end) papers.
Proof.
  unfold step_published. destruct (Soup.find is_pub_span article);
    [reflexivity | now rewrite update_id].
Qed.

Lemma step_github_update (article : Soup.cursor) (u : string) (papers : dict) :
  step_github article u papers =
  Ok (update u
        (fun c =>
           match Soup.find is_github_link article with
           | Some g =>
               match Soup.find is_star_span g with
               | Some sp =>
                   set_github_stars (normalised (Soup.text (Soup.here sp)))
                     (set_github (Some (Soup.attr_value "href" (Soup.here g))) c)
               | None => set_github (Some (Soup.attr_value "href" (Soup.here g))) c
               end
           | None => c
           end) papers).
Proof.
  unfold step_github. destruct (Soup.find is_github_link article) as [g|].
  - destruct (Soup.find is_star_span g).
    + rewrite paper_parse_number_normalised. cbn [bind].
      now rewrite update_update.
    + reflexivity.
  - now rewrite update_id.
Qed.

Lemma step_arxiv_update (article : Soup.cursor) (u : string) (papers : dict) :
  step_arxiv article u papers =
  update u
    (fun c => match Soup.find is_arxiv_link article with
              | Some a => set_arxiv (Some (Soup.attr_value "href" (Soup.here a))) c
              | None => c
              end) papers.
Proof.
  unfold step_arxiv. destruct (Soup.find is_arxiv_link article);
    [reflexivity | now rewrite update_id].
Qed.

(** One card: the card of its paper is created if need be, then the fields
    found in the fragment are assigned. *)
Lemma card_step_linked (papers : dict) (article : Soup.cursor) (u : string) :
  address is_paper_link article = Some u ->
  card_step papers article = Ok (update u (fragment article) (ensure u papers)).
Proof.
  unfold address, card_step.
  destruct (Soup.find is_paper_link article) as [a_tag|]; [|discriminate].
  intros [= <-]. fold (ensure ("https://huggingface.co" ++ Soup.attr_value "href" (Soup.here a_tag)) papers).
  rewrite step_upvotes_update. cbn [bind].
  rewrite step_published_update, step_github_update. cbn [bind].
  rewrite step_arxiv_update. now rewrite !update_update.
Qed.

Lemma card_step_unlinked (papers : dict) (article : Soup.cursor) :
  address is_paper_link article = None -> card_step papers article = Ok papers.
Proof.
  unfold address, card_step.
  now destruct (Soup.find is_paper_link article).
Qed.

Lemma card_step_returns (papers : dict) (article : Soup.cursor) :
  returns (card_step papers article).
Proof.
  destruct (address is_paper_link article) as [u|] eqn:E.
  - rewrite (card_step_linked _ _ _ E). eexists; reflexivity.
  - rewrite (card_step_unlinked _ _ E). eexists; reflexivity.
Qed.

Lemma card_step_keys (papers papers' : dict) (article : Soup.cursor) :
  card_step papers article = Ok papers' ->
  keys papers' =
  match address is_paper_link article with
  | Some u => add_new (keys papers) u
  | None => keys papers
  end.
Proof.
  destruct (address is_paper_link article) as [u|] eqn:E.
  - rewrite (card_step_linked _ _ _ E). intros [= <-].
    now rewrite keys_update, keys_ensure.
  - rewrite (card_step_unlinked _ _ E). now intros [= <-].
Qed.

Lemma card_loop_returns (articles : list Soup.cursor) (papers : dict) :
  returns (card_loop articles papers).
Proof.
  revert papers. induction articles as [|a rest IH]; intros papers; cbn [card_loop].
  - eexists; reflexivity.
  - destruct (card_step_returns papers a) as [p Hp]. rewrite Hp. cbn [bind]. apply IH.
Qed.

(** An invariant of the dictionary that every card keeps is kept by the loop. *)
Lemma card_loop_invariant (P : dict -> Prop) (articles : list Soup.cursor) :
  (forall papers article papers',
      In article articles -> P papers ->
      card_step papers article = Ok papers' -> P papers') ->
  forall papers papers',
    P papers -> card_loop articles papers = Ok papers' -> P papers'.
Proof.
  induction articles as [|a rest IH]; intros Hstep papers papers' HP; cbn [card_loop].
  - now intros [= <-].
  - destruct (card_step papers a) as [p|e] eqn:Hp; [|discriminate]. cbn [bind].
    apply IH.
    + intros q art q' Hin. apply Hstep. now right.
    + eapply Hstep; [now left | exact HP | exact Hp].
Qed.

Lemma card_loop_app (before after : list Soup.cursor) (papers : dict) :
  card_loop (before ++ after) papers =
  (papers' <- card_loop before papers ;; card_loop after papers').
Proof.
  revert papers. induction before as [|a rest IH]; intros papers; [reflexivity|].
  cbn [app card_loop]. destruct (card_step papers a); cbn [bind]; [apply IH|reflexivity].
Qed.

Lemma card_loop_keys (articles : list Soup.cursor) (papers papers' : dict) :
  card_loop articles papers = Ok papers' ->
  keys papers' = fold_left add_new (addresses is_paper_link articles) (keys papers).
Proof.
  revert papers. induction articles as [|a rest IH]; intros papers; cbn [card_loop addresses].
  - now intros [= <-].
  - destruct (card_step papers a) as [p|e] eqn:Hp; [|discriminate]. cbn [bind].
    intros H. rewrite (IH _ H), (card_step_keys _ _ _ Hp).
    now destruct (address is_paper_link a).
Qed.

Lemma fold_add_new_NoDup (us ks : list string) :
  NoDup ks -> NoDup (fold_left add_new us ks).
Proof.
  revert ks. induction us as [|u us IH]; intros ks H; cbn [fold_left]; [exact H|].
  apply IH. now apply add_new_NoDup.
Qed.

Lemma fold_add_new_In (us ks : list string) (x : string) :
  In x (fold_left add_new us ks) <-> In x ks \/ In x us.
Proof.
  revert ks. induction us as [|u us IH]; intros ks; cbn [fold_left In]; [tauto|].
  rewrite IH, add_new_In. intuition.
Qed.

End PaperCards.

(** ** The loop of [parse_models] *)

Section ModelCards.

Import crawl_models.

Context {datetime : DateTime}.

Lemma parse_card_address (article : Soup.cursor) (r : option ModelRecord) :
  parse_card article = Ok r ->
  address is_link article = option_map url r.
Proof.
  unfold parse_card, address.
  destruct (Soup.find is_link article) as [a_tag|]; [|now intros [= <-]].
  destruct (card_task article); [|discriminate].
  destruct (card_updated article); [|discriminate].
  destruct (card_downloads article); [|discriminate].
  destruct (card_likes article); [|discriminate].
  now intros [= <-].
Qed.

Lemma parse_cards_urls (articles : list Soup.cursor) (models rs : list ModelRecord) :
  parse_cards articles models = Ok rs ->
  map url rs = (map url models ++ addresses is_link articles)%list.
Proof.
  revert models. induction articles as [|a rest IH]; intros models; cbn [parse_cards addresses].
  - intros [= <-]. now rewrite app_nil_r.
  - destruct (parse_card a) as [r|e] eqn:Hr; [|discriminate]. cbn [bind].
    rewrite (parse_card_address _ _ Hr).
    destruct r as [m|]; cbn [option_map]; intros H; rewrite (IH _ H).
    + rewrite map_app. cbn [map]. now rewrite <- app_assoc.
    + reflexivity.
Qed.

(** A property of every record that every card establishes holds of the
    whole output. *)
Lemma parse_cards_all (P : ModelRecord -> Prop) (articles : list Soup.cursor) :
  (forall article r, In article articles -> parse_card article = Ok (Some r) -> P r) ->
  forall models rs,
    Forall P models -> parse_cards articles models = Ok rs -> Forall P rs.
Proof.
  induction articles as [|a rest IH]; intros Hcard models rs HP; cbn [parse_cards].
  - now intros [= <-].
  - destruct (parse_card a) as [r|e] eqn:Hr; [|discriminate]. cbn [bind].
    assert (Hrest : forall article r0, In article rest ->
                      parse_card article = Ok (Some r0) -> P r0)
      by (intros art r0 Hin; apply Hcard; now right).
    destruct r as [m|]; apply (IH Hrest); [|exact HP].
    apply Forall_app. split; [exact HP|].
    constructor; [|constructor]. apply (Hcard a); [now left | exact Hr].
Qed.

End ModelCards.

(** ** The extractors on the sample cards *)

Example parse_full_card :
  crawl_models.parse_soup (datetime := Reference.datetime) [Samples.full_card]
  = Ok [{| crawl_models.model_id := "deepseek-ai/DeepSeek-V3";
           crawl_models.url := "https://huggingface.co/deepseek-ai/DeepSeek-V3";
           crawl_models.task := Some "Text Generation";
           crawl_models.parameters := Some "685B";
           crawl_models.updated := Some "2025-03-25";
           crawl_models.downloads := Some 1200000;
           crawl_models.likes := Some 3665 |}].
Proof. vm_compute. reflexivity. Qed.

Example parse_full_paper :
  crawl_paper.parse_soup (datetime := Reference.datetime) [Samples.full_paper]
  = Ok [("https://huggingface.co/papers/2501.00001",
         {| crawl_paper.paper_url := "https://huggingface.co/papers/2501.00001";
            crawl_paper.github := Some "https://github.com/org/repo";
            crawl_paper.arxiv := Some "https://arxiv.org/abs/2501.00001";
            crawl_paper.upvotes := Some 1200;
            crawl_paper.published := Some "2025-01-05";
            crawl_paper.github_stars := Some 3400 |})].
Proof. vm_compute. reflexivity. Qed.

Example run_on_sample_site :
  map crawl_paper.url
    (match fst (crawl_paper.run (parser := Samples.parser)
                  (datetime := Reference.datetime) (network := Samples.site) []) with
     | Ok rows => rows
     | Raise _ => []
     end)
  = ["https://huggingface.co/papers/2501.00001";
     "https://huggingface.co/papers/2501.00002"] /\
  map crawl_paper.title
    (match fst (crawl_paper.run (parser := Samples.parser)
                  (datetime := Reference.datetime) (network := Samples.site) []) with
     | Ok rows => rows
     | Raise _ => []
     end)
  = ["A paper"; "A paper"].
Proof. split; vm_compute; reflexivity. Qed.

(** ** Uniqueness of the addresses *)

(** **** C2, as stated, fails for the models extractor: two cards with the
    same link give two records with the same address. *)
Lemma models_emit_duplicate_urls :
  exists r1 r2,
    crawl_models.parse_soup (datetime := Reference.datetime)
      [Samples.model_card "/user/model" [] []; Samples.model_card "/user/model" [] []]
    = Ok [r1; r2] /\
    crawl_models.url r1 = crawl_models.url r2.
Proof. do 2 eexists. split; reflexivity. Qed.

(** **** C2, amended
    The papers extractor returns one card per address: its keys have no
    duplicate and are the addresses of the cards of the page.  The models
    extractor returns one record per card that has a link, in document order,
    and removes no duplicate. *)
Theorem card_addresses {datetime : DateTime} (doc : Soup.soup) :
  (exists d,
      crawl_paper.parse_soup doc = Ok d /\
      NoDup (crawl_paper.keys d) /\
      forall u,
        In u (crawl_paper.keys d) <->
        In u (addresses crawl_paper.is_paper_link
                (Soup.soup_find_all (Soup.is_tag "article") doc))) /\
  (forall rs,
      crawl_models.parse_soup doc = Ok rs ->
      map crawl_models.url rs =
      addresses crawl_models.is_link (Soup.soup_find_all crawl_models.is_card doc)).
Proof.
  split.
  - unfold crawl_paper.parse_soup.
    destruct (card_loop_returns (Soup.soup_find_all (Soup.is_tag "article") doc) [])
      as [d Hd].
    exists d. split; [exact Hd|].
    rewrite (card_loop_keys _ _ _ Hd). split.
    + apply fold_add_new_NoDup. constructor.
    + intros u. rewrite fold_add_new_In. cbn [crawl_paper.keys map In]. tauto.
  - intros rs H. now rewrite (parse_cards_urls _ _ _ H).
Qed.

Lemma card_addresses_witness :
  (exists d,
      crawl_paper.parse_soup (datetime := Reference.datetime) Samples.listing_doc = Ok d /\
      crawl_paper.keys d
      = ["https://huggingface.co/papers/2501.00001";
         "https://huggingface.co/papers/2501.00002"] /\
      NoDup (crawl_paper.keys d)) /\
  crawl_models.parse_soup (datetime := Reference.datetime)
    [Samples.model_card "/user/model" [] []; Samples.model_card "/user/model" [] []]
  = Ok [Samples.bare_record; Samples.bare_record] /\
  map crawl_models.url [Samples.bare_record; Samples.bare_record]
  = ["https://huggingface.co/user/model"; "https://huggingface.co/user/model"].
Proof.
  split.
  - destruct (proj1 (card_addresses (datetime := Reference.datetime)
                       Samples.listing_doc)) as (d & Hd & Hnd & _).
    exists d. split; [exact Hd|]. split; [|exact Hnd].
    vm_compute in Hd. now injection Hd as <-.
  - split; [reflexivity|].
    exact (proj2 (card_addresses (datetime := Reference.datetime)
                    [Samples.model_card "/user/model" [] [];
                     Samples.model_card "/user/model" [] []]) _ eq_refl).
Defined.

(** ** Merging the fragments of one paper *)

Section Merge.

Import crawl_paper.

Context {datetime : DateTime}.

Ltac fragment_cases article :=
  unfold fragment, stars_element;
  destruct (Soup.find is_upvote_tag article);
  destruct (Soup.find is_pub_span article);
  (destruct (Soup.find is_github_link article) as [g|];
   [destruct (Soup.find is_star_span g)|]);
  destruct (Soup.find is_arxiv_link article);
  reflexivity.

Lemma fragment_paper_url (article : Soup.cursor) (c : PaperCard) :
  paper_url (fragment article c) = paper_url c.
Proof. fragment_cases article. Qed.

Lemma fragment_upvotes (article : Soup.cursor) (c : PaperCard) :
  upvotes (fragment article c) =
  match Soup.find is_upvote_tag article with
  | Some t => normalised (Soup.text (Soup.here t))
  | None => upvotes c
  end.
Proof. fragment_cases article. Qed.

Lemma fragment_published (article : Soup.cursor) (c : PaperCard) :
  published (fragment article c) =
  match Soup.find is_pub_span article with
  | Some p => Some (published_value (pub_text_of p))
  | None => published c
  end.
Proof. fragment_cases article. Qed.

Lemma fragment_github (article : Soup.cursor) (c : PaperCard) :
  github (fragment article c) =
  match Soup.find is_github_link article with
  | Some g => Some (Soup.attr_value "href" (Soup.here g))
  | None => github c
  end.
Proof. fragment_cases article. Qed.

Lemma fragment_github_stars (article : Soup.cursor) (c : PaperCard) :
  github_stars (fragment article c) =
  match stars_element article with
  | Some sp => normalised (Soup.text (Soup.here sp))
  | None => github_stars c
  end.
Proof. fragment_cases article. Qed.

Lemma fragment_arxiv (article : Soup.cursor) (c : PaperCard) :
  arxiv (fragment article c) =
  match Soup.find is_arxiv_link article with
  | Some a => Some (Soup.attr_value "href" (Soup.here a))
  | None => arxiv c
  end.
Proof. fragment_cases article. Qed.

(** Two fragments of one paper, starting from the empty dictionary. *)
Lemma two_fragments (a1 a2 : Soup.cursor) (u : string) :
  address is_paper_link a1 = Some u ->
  address is_paper_link a2 = Some u ->
  card_loop [a1; a2] [] = Ok [(u, fragment a2 (fragment a1 (blank u)))].
Proof.
  intros H1 H2. cbn [card_loop].
  rewrite (card_step_linked _ _ _ H1). cbn [bind].
  rewrite (card_step_linked _ _ _ H2). cbn [bind].
  unfold ensure, contains, add. cbn [keys map fst existsb app update].
  rewrite String.eqb_refl. cbn [update orb keys map fst existsb].
  rewrite String.eqb_refl. cbn [orb update]. now rewrite String.eqb_refl.
Qed.

End Merge.

(** **** C3, as stated, fails: a later fragment whose upvote element holds no
    number replaces the count read from an earlier fragment by null. *)
Lemma later_fragment_erases_upvotes :
  exists c1 c2,
    crawl_paper.parse_soup (datetime := Reference.datetime)
      [Samples.counted_fragment]
    = Ok [("https://huggingface.co/papers/2501.00001", c1)] /\
    crawl_paper.upvotes c1 = Some 12 /\
    crawl_paper.parse_number "-" = Ok None /\
    crawl_paper.parse_soup (datetime := Reference.datetime)
      [Samples.counted_fragment; Samples.uncounted_fragment]
    = Ok [("https://huggingface.co/papers/2501.00001", c2)] /\
    crawl_paper.upvotes c2 = None.
Proof. do 2 eexists. repeat split; reflexivity. Qed.

(** **** C3, amended
    The fragments of one paper are merged in one card, field by field.  A
    fragment assigns a field exactly when it has the field's element, with
    what is read from that element (for a count, what the normaliser
    returns, which may be null); a field whose element the fragment lacks
    keeps its value; the dictionary keeps exactly one entry for the address
    and its other entries are unchanged.  Of two fragments of one paper, one
    supplying the upvotes and lacking a star element, the other supplying
    the stars and lacking an upvote element, the merged card has both
    counts, in either order. *)
Theorem fragments_merge_per_field {datetime : DateTime} :
  (forall (papers : crawl_paper.dict) (article : Soup.cursor) (u : string),
      NoDup (crawl_paper.keys papers) ->
      address crawl_paper.is_paper_link article = Some u ->
      exists papers' c',
        crawl_paper.card_step papers article = Ok papers' /\
        count_occ string_dec (crawl_paper.keys papers') u = 1%nat /\
        crawl_paper.get u papers' = Some c' /\
        (forall k, k <> u -> crawl_paper.get k papers' = crawl_paper.get k papers) /\
        crawl_paper.paper_url c' = crawl_paper.paper_url (prior u papers) /\
        match Soup.find crawl_paper.is_upvote_tag article with
        | Some t =>
            crawl_paper.parse_number (Soup.text (Soup.here t))
            = Ok (crawl_paper.upvotes c')
        | None => crawl_paper.upvotes c' = crawl_paper.upvotes (prior u papers)
        end /\
        match Soup.find crawl_paper.is_pub_span article with
        | Some p =>
            crawl_paper.published c'
            = Some (crawl_paper.published_value (crawl_paper.pub_text_of p))
        | None => crawl_paper.published c' = crawl_paper.published (prior u papers)
        end /\
        match Soup.find crawl_paper.is_github_link article with
        | Some g =>
            crawl_paper.github c' = Some (Soup.attr_value "href" (Soup.here g))
        | None => crawl_paper.github c' = crawl_paper.github (prior u papers)
        end /\
        match stars_element article with
        | Some sp =>
            crawl_paper.parse_number (Soup.text (Soup.here sp))
            = Ok (crawl_paper.github_stars c')
        | None =>
            crawl_paper.github_stars c' = crawl_paper.github_stars (prior u papers)
        end /\
        match Soup.find crawl_paper.is_arxiv_link article with
        | Some a => crawl_paper.arxiv c' = Some (Soup.attr_value "href" (Soup.here a))
        | None => crawl_paper.arxiv c' = crawl_paper.arxiv (prior u papers)
        end) /\
  (forall (a1 a2 : Soup.cursor) (u : string) (t sp : Soup.cursor) (n s : Z),
      address crawl_paper.is_paper_link a1 = Some u ->
      address crawl_paper.is_paper_link a2 = Some u ->
      Soup.find crawl_paper.is_upvote_tag a1 = Some t ->
      crawl_paper.parse_number (Soup.text (Soup.here t)) = Ok (Some n) ->
      stars_element a1 = None ->
      stars_element a2 = Some sp ->
      crawl_paper.parse_number (Soup.text (Soup.here sp)) = Ok (Some s) ->
      Soup.find crawl_paper.is_upvote_tag a2 = None ->
      forall articles, articles = [a1; a2] \/ articles = [a2; a1] ->
        exists c,
          crawl_paper.card_loop articles [] = Ok [(u, c)] /\
          crawl_paper.upvotes c = Some n /\
          crawl_paper.github_stars c = Some s).
Proof.
  split.
  - intros papers article u Hnd Hu.
    exists (crawl_paper.update u (fragment article) (ensure u papers)),
           (fragment article (prior u papers)).
    split; [now apply card_step_linked|].
    split; [rewrite keys_update, keys_ensure; now apply count_occ_add_new|].
    split; [now rewrite get_update_same, get_ensure_same|].
    split; [intros k Hk; now rewrite get_update_other, get_ensure_other|].
    split; [apply fragment_paper_url|].
    rewrite fragment_upvotes, fragment_published, fragment_github,
      fragment_github_stars, fragment_arxiv.
    repeat split.
    + destruct (Soup.find crawl_paper.is_upvote_tag article);
        [apply paper_parse_number_normalised | reflexivity].
    + now destruct (Soup.find crawl_paper.is_pub_span article).
    + now destruct (Soup.find crawl_paper.is_github_link article).
    + destruct (stars_element article);
        [apply paper_parse_number_normalised | reflexivity].
    + now destruct (Soup.find crawl_paper.is_arxiv_link article).
  - intros a1 a2 u t sp n s H1 H2 Ht Hn Hs1 Hs2 Hs Ht2 articles [-> | ->].
    + exists (fragment a2 (fragment a1 (crawl_paper.blank u))).
      split; [now apply two_fragments|].
      rewrite !fragment_upvotes, !fragment_github_stars, Ht, Ht2, Hs2.
      unfold normalised. now rewrite Hn, Hs.
    + exists (fragment a1 (fragment a2 (crawl_paper.blank u))).
      split; [now apply two_fragments|].
      rewrite !fragment_upvotes, !fragment_github_stars, Ht, Hs1, Hs2.
      unfold normalised. now rewrite Hn, Hs.
Qed.

Lemma fragments_merge_per_field_witness :
  (NoDup (crawl_paper.keys
            [("https://huggingface.co/papers/2501.00001",
              crawl_paper.set_upvotes (Some 12)
                (crawl_paper.blank "https://huggingface.co/papers/2501.00001"))]) /\
   address crawl_paper.is_paper_link (Soup.preorder Samples.starred_fragment)
   = Some "https://huggingface.co/papers/2501.00001" /\
   exists papers' c',
     crawl_paper.card_step (datetime := Reference.datetime)
       [("https://huggingface.co/papers/2501.00001",
         crawl_paper.set_upvotes (Some 12)
           (crawl_paper.blank "https://huggingface.co/papers/2501.00001"))]
       (Soup.preorder Samples.starred_fragment) = Ok papers' /\
     crawl_paper.get "https://huggingface.co/papers/2501.00001" papers' = Some c' /\
     crawl_paper.upvotes c' = Some 12 /\
     crawl_paper.github_stars c' = Some 3400) /\
  (forall articles,
      articles = [Soup.preorder Samples.counted_fragment;
                  Soup.preorder Samples.starred_fragment] \/
      articles = [Soup.preorder Samples.starred_fragment;
                  Soup.preorder Samples.counted_fragment] ->
      exists c,
        crawl_paper.card_loop (datetime := Reference.datetime) articles []
        = Ok [("https://huggingface.co/papers/2501.00001", c)] /\
        crawl_paper.upvotes c = Some 12 /\
        crawl_paper.github_stars c = Some 3400).
Proof.
  split.
  - assert (Hnd : NoDup (crawl_paper.keys
                           [("https://huggingface.co/papers/2501.00001",
                             crawl_paper.set_upvotes (Some 12)
                               (crawl_paper.blank
                                  "https://huggingface.co/papers/2501.00001"))]))
      by (constructor; [intros [] | constructor]).
    split; [exact Hnd|]. split; [vm_compute; reflexivity|].
    destruct (proj1 (fragments_merge_per_field (datetime := Reference.datetime))
                _ (Soup.preorder Samples.starred_fragment)
                "https://huggingface.co/papers/2501.00001" Hnd eq_refl)
      as (papers' & c' & Hstep & _ & Hget & _ & _ & Hup & _ & _ & Hst & _).
    exists papers', c'. split; [exact Hstep|]. split; [exact Hget|].
    vm_compute in Hup. vm_compute in Hst. split; [exact Hup|].
    injection Hst as Hst. symmetry. exact Hst.
  - let found := eval vm_compute in
        (Soup.find crawl_paper.is_upvote_tag (Soup.preorder Samples.counted_fragment),
         stars_element (Soup.preorder Samples.starred_fragment)) in
    match found with
    | (Some ?t, Some ?sp) =>
        apply (proj2 (fragments_merge_per_field (datetime := Reference.datetime))
                 (Soup.preorder Samples.counted_fragment)
                 (Soup.preorder Samples.starred_fragment)
                 "https://huggingface.co/papers/2501.00001" t sp 12 3400)
    end; vm_compute; reflexivity.
Defined.

(** ** The fields of a model card *)

Section ModelFields.

Import crawl_models.

Context {datetime : DateTime}.

(** A record is made of what the field lookups return. *)
Lemma parse_card_fields (article : Soup.cursor) (r : ModelRecord) :
  parse_card article = Ok (Some r) ->
  exists a_tag,
    Soup.find is_link article = Some a_tag /\
    model_id r = card_model_id a_tag /\
    card_task article = Ok (task r) /\
    parameters r = card_params article /\
    card_updated article = Ok (updated r) /\
    card_downloads article = Ok (downloads r) /\
    card_likes article = Ok (likes r).
Proof.
  unfold parse_card.
  destruct (Soup.find is_link article) as [a_tag|]; [|discriminate].
  destruct (card_task article); [|discriminate].
  destruct (card_updated article); [|discriminate].
  destruct (card_downloads article); [|discriminate].
  destruct (card_likes article); [|discriminate].
  intros [= <-]. exists a_tag. repeat split; reflexivity.
Qed.

Lemma parse_card_assembled (article a_tag : Soup.cursor)
      (t u : option string) (d l : option Z) :
  Soup.find is_link article = Some a_tag ->
  card_task article = Ok t ->
  card_updated article = Ok u ->
  card_downloads article = Ok d ->
  card_likes article = Ok l ->
  parse_card article =
  Ok (Some {| model_id := card_model_id a_tag;
              url := "https://huggingface.co" ++ Soup.attr_value "href" (Soup.here a_tag);
              task := t;
              parameters := card_params article;
              updated := u;
              downloads := d;
              likes := l |}).
Proof.
  intros Ha Ht Hu Hd Hl. unfold parse_card. now rewrite Ha, Ht, Hu, Hd, Hl.
Qed.

(** A card that raises makes the whole extraction raise. *)
Lemma parse_cards_raise (articles : list Soup.cursor) (article : Soup.cursor) (e : exn) :
  In article articles ->
  parse_card article = Raise e ->
  forall models, exists e', parse_cards articles models = Raise e'.
Proof.
  induction articles as [|a rest IH]; intros Hin He models; [destruct Hin|].
  cbn [parse_cards]. destruct Hin as [->|Hin].
  - rewrite He. now exists e.
  - destruct (parse_card a) as [[m|]|e0]; cbn [bind]; [now apply IH.. | now exists e0].
Qed.

End ModelFields.

(** ** The identifier of a model *)

(** **** C4, as stated, fails: the fallback identifier keeps every segment
    of the path. *)
Lemma model_id_keeps_the_owner :
  exists r,
    crawl_models.parse_soup (datetime := Reference.datetime)
      [Samples.model_card "/user/model" [] []] = Ok [r] /\
    crawl_models.model_id r = "user/model" /\
    crawl_models.model_id r <> "model".
Proof. eexists. repeat split. discriminate. Qed.

(** **** C4, amended
    The identifier of a record is the stripped text of the [h4] element of
    the card's link when the link has one, whatever that text; for a card
    whose link has no [h4] element it is the [href] of the link without its
    leading and trailing slashes (so [/user/model] gives [user/model]). *)
Theorem model_id_fallback {datetime : DateTime}
        (article a_tag : Soup.cursor) (r : crawl_models.ModelRecord) :
  Soup.find crawl_models.is_link article = Some a_tag ->
  crawl_models.parse_card article = Ok (Some r) ->
  (Soup.find (Soup.is_tag "h4") a_tag = None ->
   crawl_models.model_id r
   = Str.strip_chars "/" (Soup.attr_value "href" (Soup.here a_tag))) /\
  (forall h4,
      Soup.find (Soup.is_tag "h4") a_tag = Some h4 ->
      crawl_models.model_id r = Str.strip (Soup.text (Soup.here h4))).
Proof.
  intros Ha Hr. apply parse_card_fields in Hr as (a' & Ha' & Hid & _).
  rewrite Ha in Ha'. injection Ha' as <-.
  rewrite Hid. unfold crawl_models.card_model_id.
  split; [intros Hh | intros h4 Hh]; now rewrite Hh.
Qed.

Lemma model_id_fallback_witness :
  exists a_tag,
    Soup.find crawl_models.is_link
      (Soup.preorder (Samples.model_card "/user/model" [] [])) = Some a_tag /\
    crawl_models.parse_card (datetime := Reference.datetime)
      (Soup.preorder (Samples.model_card "/user/model" [] []))
    = Ok (Some Samples.bare_record) /\
    Soup.find (Soup.is_tag "h4") a_tag = None /\
    crawl_models.model_id Samples.bare_record = "user/model".
Proof.
  eexists. split; [reflexivity|]. split; [reflexivity|]. split; [reflexivity|].
  exact (proj1 (model_id_fallback (datetime := Reference.datetime)
                  (Soup.preorder (Samples.model_card "/user/model" [] []))
                  _ Samples.bare_record eq_refl eq_refl) eq_refl).
Defined.

(** ** Missing elements *)

(** **** C5, as stated, fails for the link of a model card: a card without
    one gives no record at all, although its parameter badge is there. *)
Lemma card_without_link_is_dropped :
  Soup.find crawl_models.is_link (Soup.preorder Samples.unlinked_card) = None /\
  crawl_models.card_params (Soup.preorder Samples.unlinked_card) = Some "7B" /\
  crawl_models.parse_soup (datetime := Reference.datetime) [Samples.unlinked_card]
  = Ok [].
Proof. repeat split. Qed.

(** **** C5, amended
    Every field lookup other than the one of the card's link tolerates a
    missing element: the lookup raises nothing and gives null (["N/A"] for
    the title and the abstract of a detail page), and the record is made of
    whatever the lookups return.  A card without a link is skipped as a
    whole, no record is made for it, and the extraction goes on with the
    cards that follow. *)
Theorem missing_elements_tolerated {datetime : DateTime} :
  (forall (article : Soup.cursor) (rest : list Soup.cursor)
          (models : list crawl_models.ModelRecord),
      Soup.find crawl_models.is_link article = None ->
      crawl_models.parse_card article = Ok None /\
      crawl_models.parse_cards (article :: rest) models
      = crawl_models.parse_cards rest models) /\
  (forall article : Soup.cursor,
      (Soup.find crawl_models.is_task_svg article = None ->
       crawl_models.card_task article = Ok None) /\
      (Soup.find crawl_models.is_param_span article = None ->
       crawl_models.card_params article = None) /\
      (Soup.find (Soup.is_tag "time") article = None ->
       crawl_models.card_updated article = Ok None) /\
      (Soup.find crawl_models.is_download_svg article = None ->
       crawl_models.card_downloads article = Ok None) /\
      (Soup.find crawl_models.is_like_svg article = None ->
       crawl_models.card_likes article = Ok None)) /\
  (forall (article a_tag : Soup.cursor) (t u : option string) (d l : option Z),
      Soup.find crawl_models.is_link article = Some a_tag ->
      crawl_models.card_task article = Ok t ->
      crawl_models.card_updated article = Ok u ->
      crawl_models.card_downloads article = Ok d ->
      crawl_models.card_likes article = Ok l ->
      crawl_models.parse_card article =
      Ok (Some {| crawl_models.model_id := crawl_models.card_model_id a_tag;
                  crawl_models.url :=
                    "https://huggingface.co" ++ Soup.attr_value "href" (Soup.here a_tag);
                  crawl_models.task := t;
                  crawl_models.parameters := crawl_models.card_params article;
                  crawl_models.updated := u;
                  crawl_models.downloads := d;
                  crawl_models.likes := l |})) /\
  (forall doc : Soup.soup,
      (Soup.soup_find (Soup.is_tag "h1") doc = None ->
       fst (crawl_paper.details_of doc) = "N/A") /\
      (Soup.soup_find (Soup.is_tag "p") doc = None ->
       snd (crawl_paper.details_of doc) = "N/A")) /\
  (forall (papers : crawl_paper.dict) (article : Soup.cursor),
      Soup.find crawl_paper.is_paper_link article = None ->
      crawl_paper.card_step papers article = Ok papers) /\
  (forall (papers : crawl_paper.dict) (article : Soup.cursor) (u : string),
      address crawl_paper.is_paper_link article = Some u ->
      Soup.find crawl_paper.is_upvote_tag article = None ->
      Soup.find crawl_paper.is_pub_span article = None ->
      Soup.find crawl_paper.is_github_link article = None ->
      Soup.find crawl_paper.is_arxiv_link article = None ->
      crawl_paper.card_step papers article = Ok (ensure u papers)).
Proof.
  split; [|split; [|split; [|split; [|split]]]].
  - intros article rest models H.
    assert (Hc : crawl_models.parse_card article = Ok None)
      by (unfold crawl_models.parse_card; now rewrite H).
    split; [exact Hc|]. cbn [crawl_models.parse_cards]. now rewrite Hc.
  - intros article.
    unfold crawl_models.card_task, crawl_models.card_params,
      crawl_models.card_updated, crawl_models.card_downloads,
      crawl_models.card_likes.
    repeat split; intros ->; reflexivity.
  - intros article a_tag t u d l. apply parse_card_assembled.
  - intros doc. unfold crawl_paper.details_of. split; intros ->; reflexivity.
  - intros papers article H. unfold crawl_paper.card_step. now rewrite H.
  - intros papers article u Hu H1 H2 H3 H4.
    rewrite (card_step_linked _ _ _ Hu). f_equal.
    rewrite <- (update_id u (ensure u papers)) at 2.
    apply update_ext. intros c. unfold fragment. now rewrite H1, H2, H3, H4.
Qed.

Lemma missing_elements_tolerated_witness :
  Soup.find crawl_models.is_link (Soup.preorder Samples.unlinked_card) = None /\
  crawl_models.parse_cards (datetime := Reference.datetime)
    [Soup.preorder Samples.unlinked_card;
     Soup.preorder (Samples.model_card "/user/model" [] [])] []
  = Ok [Samples.bare_record].
Proof.
  split; [reflexivity|].
  exact (eq_trans
           (proj2 (proj1 (missing_elements_tolerated (datetime := Reference.datetime))
                     (Soup.preorder Samples.unlinked_card)
                     [Soup.preorder (Samples.model_card "/user/model" [] [])] []
                     eq_refl))
           eq_refl).
Defined.

(** A lookup whose element is there can still raise: the task icon with no
    string after it, and a like count that [isdigit] accepts and [int] does
    not. *)
Example task_icon_without_string_raises :
  crawl_models.parse_soup (datetime := Reference.datetime) [Samples.untitled_card]
  = Raise AttributeError.
Proof. reflexivity. Qed.

Example superscript_likes_raise :
  crawl_models.parse_soup (datetime := Reference.datetime) [Samples.superscript_card]
  = Raise ValueError.
Proof. reflexivity. Qed.

(** ** Dates that do not parse *)

Section Published.

Import crawl_paper.

Context {datetime : DateTime}.

(** The date stored for a paper stays as long as no later card of that
    paper has a date label. *)
Lemma published_kept (u : string) (x : option string)
      (articles : list Soup.cursor) (papers papers' : dict) :
  (forall article,
      In article articles ->
      address is_paper_link article = Some u ->
      Soup.find is_pub_span article = None) ->
  (exists c, get u papers = Some c /\ published c = x) ->
  card_loop articles papers = Ok papers' ->
  exists c, get u papers' = Some c /\ published c = x.
Proof.
  intros Hlater.
  apply (card_loop_invariant
           (fun d => exists c, get u d = Some c /\ published c = x) articles).
  intros d article d' Hin [c [Hc Hx]].
  destruct (address is_paper_link article) as [u'|] eqn:Hu.
  - rewrite (card_step_linked _ _ _ Hu). intros [= <-].
    destruct (string_dec u u') as [<-|Hne].
    + rewrite get_update_same, get_ensure_same. cbn [option_map].
      eexists. split; [reflexivity|].
      rewrite fragment_published, (Hlater article Hin Hu).
      unfold prior. now rewrite Hc.
    + rewrite get_update_other, get_ensure_other by exact Hne.
      now exists c.
  - rewrite (card_step_unlinked _ _ Hu). intros [= <-]. now exists c.
Qed.

End Published.

(** **** C10
    A card of the models listing whose first [time] element carries a
    [datetime] attribute that [fromisoformat] rejects makes [parse_models]
    raise: nothing catches the [ValueError]; the card raises it unless the
    task lookup, which comes first, has raised already.  In the papers
    extractor a date label that [strptime] rejects is stored as it is, the
    label being the text of the element, stripped, without the words
    ["Published on "]; it is the date of the paper in the dictionary
    returned, unless a later card of the same paper has a date label too. *)
Theorem date_failures {datetime : DateTime} :
  (forall (doc : Soup.soup) (article a_tag time_tag : Soup.cursor) (stamp : string),
      In article (Soup.soup_find_all crawl_models.is_card doc) ->
      Soup.find crawl_models.is_link article = Some a_tag ->
      Soup.find (Soup.is_tag "time") article = Some time_tag ->
      Soup.attr "datetime" (Soup.here time_tag) = Some stamp ->
      fromisoformat_date (Str.replace "Z" "+00:00" stamp) = None ->
      (forall t, crawl_models.card_task article = Ok t ->
                 crawl_models.parse_card article = Raise ValueError) /\
      (exists e, crawl_models.parse_card article = Raise e) /\
      (exists e, crawl_models.parse_soup doc = Raise e)) /\
  (forall (papers : crawl_paper.dict) (article pub_span : Soup.cursor) (u : string),
      address crawl_paper.is_paper_link article = Some u ->
      Soup.find crawl_paper.is_pub_span article = Some pub_span ->
      strptime_date (crawl_paper.pub_text_of pub_span) = None ->
      exists papers' c',
        crawl_paper.card_step papers article = Ok papers' /\
        crawl_paper.get u papers' = Some c' /\
        crawl_paper.published c' = Some (crawl_paper.pub_text_of pub_span)) /\
  (forall (doc : Soup.soup) (before after : list Soup.cursor)
          (article pub_span : Soup.cursor) (u : string),
      Soup.soup_find_all (Soup.is_tag "article") doc = (before ++ article :: after)%list ->
      address crawl_paper.is_paper_link article = Some u ->
      Soup.find crawl_paper.is_pub_span article = Some pub_span ->
      strptime_date (crawl_paper.pub_text_of pub_span) = None ->
      (forall later,
          In later after ->
          address crawl_paper.is_paper_link later = Some u ->
          Soup.find crawl_paper.is_pub_span later = None) ->
      exists d c,
        crawl_paper.parse_soup doc = Ok d /\
        crawl_paper.get u d = Some c /\
        crawl_paper.published c = Some (crawl_paper.pub_text_of pub_span)).
Proof.
  assert (Hstep :
            forall (papers : crawl_paper.dict) (article pub_span : Soup.cursor) (u : string),
              address crawl_paper.is_paper_link article = Some u ->
              Soup.find crawl_paper.is_pub_span article = Some pub_span ->
              strptime_date (crawl_paper.pub_text_of pub_span) = None ->
              exists papers' c',
                crawl_paper.card_step papers article = Ok papers' /\
                crawl_paper.get u papers' = Some c' /\
                crawl_paper.published c' = Some (crawl_paper.pub_text_of pub_span)).
  { intros papers article pub_span u Hu Hp Hd.
    exists (crawl_paper.update u (fragment article) (ensure u papers)),
           (fragment article (prior u papers)).
    split; [now apply card_step_linked|].
    split; [now rewrite get_update_same, get_ensure_same|].
    rewrite fragment_published, Hp. unfold crawl_paper.published_value.
    now rewrite Hd. }
  split; [|split; [exact Hstep|]].
  - intros doc article a_tag time_tag stamp Hin Ha Ht Hs Hiso.
    assert (Hu : crawl_models.card_updated article = Raise ValueError)
      by (unfold crawl_models.card_updated; now rewrite Ht, Hs, Hiso).
    assert (Hcard : forall t, crawl_models.card_task article = Ok t ->
                              crawl_models.parse_card article = Raise ValueError)
      by (intros t Htask; unfold crawl_models.parse_card;
          now rewrite Ha, Htask, Hu).
    assert (Hraise : exists e, crawl_models.parse_card article = Raise e).
    { destruct (crawl_models.card_task article) as [t|e] eqn:Htask.
      - exists ValueError. now apply (Hcard t).
      - exists e. unfold crawl_models.parse_card. now rewrite Ha, Htask. }
    split; [exact Hcard|]. split; [exact Hraise|].
    destruct Hraise as [e He].
    apply (parse_cards_raise _ _ _ Hin He).
  - intros doc before after article pub_span u Hdoc Hu Hp Hd Hlater.
    unfold crawl_paper.parse_soup. rewrite Hdoc, card_loop_app.
    destruct (card_loop_returns before []) as [d0 Hd0]. rewrite Hd0. cbn [bind].
    cbn [crawl_paper.card_loop].
    destruct (Hstep d0 article pub_span u Hu Hp Hd) as (d1 & c1 & Hd1 & Hg1 & Hp1).
    rewrite Hd1. cbn [bind].
    destruct (card_loop_returns after d1) as [d Hdd].
    destruct (published_kept u _ after d1 d Hlater
                (ex_intro _ c1 (conj Hg1 Hp1)) Hdd) as [c [Hc Hx]].
    exists d, c. now split.
Qed.

Lemma date_failures_witness :
  (exists a_tag time_tag,
      In (Soup.preorder Samples.misdated_card)
         (Soup.soup_find_all crawl_models.is_card [Samples.misdated_card]) /\
      Soup.find crawl_models.is_link (Soup.preorder Samples.misdated_card) = Some a_tag /\
      Soup.find (Soup.is_tag "time") (Soup.preorder Samples.misdated_card) = Some time_tag /\
      Soup.attr "datetime" (Soup.here time_tag) = Some "yesterday" /\
      Reference.iso_date (Str.replace "Z" "+00:00" "yesterday") = None) /\
  (exists e,
      crawl_models.parse_soup (datetime := Reference.datetime) [Samples.misdated_card]
      = Raise e) /\
  (exists pub_span,
      address crawl_paper.is_paper_link (Soup.preorder Samples.undated_paper)
      = Some "https://huggingface.co/papers/2501.00002" /\
      Soup.find crawl_paper.is_pub_span (Soup.preorder Samples.undated_paper)
      = Some pub_span /\
      crawl_paper.pub_text_of pub_span = "last week" /\
      Reference.bdY_date "last week" = None) /\
  exists d c,
    crawl_paper.parse_soup (datetime := Reference.datetime) [Samples.undated_paper]
    = Ok d /\
    crawl_paper.get "https://huggingface.co/papers/2501.00002" d = Some c /\
    crawl_paper.published c = Some "last week".
Proof.
  split; [|split; [|split]].
  - do 2 eexists. split; [left; reflexivity|]. repeat split.
  - eapply (proj1 (date_failures (datetime := Reference.datetime))
              [Samples.misdated_card] (Soup.preorder Samples.misdated_card));
      [left; reflexivity | reflexivity..].
  - eexists. split; [vm_compute; reflexivity|].
    split; [vm_compute; reflexivity|]. split; vm_compute; reflexivity.
  - apply (proj2 (proj2 (date_failures (datetime := Reference.datetime)))
             [Samples.undated_paper] [] []
             (Soup.preorder Samples.undated_paper)
             (Soup.preorder Samples.date_label)
             "https://huggingface.co/papers/2501.00002");
      [vm_compute; reflexivity .. | intros later []].
Defined.

(** ** The sign of the counts *)

Section Counts.

Context {datetime : DateTime}.

Lemma number_after_nonneg (found : option string) (x : option Z) :
  no_minus found -> crawl_models.number_after found = Ok x -> nonneg x.
Proof.
  unfold crawl_models.number_after. destruct found as [t|]; cbn [no_minus].
  - intros Hm. destruct (Str.is_empty t); [now intros [= <-]|].
    destruct x as [n|]; [|constructor]. cbn [nonneg].
    now apply models_parse_number_nonneg.
  - now intros _ [= <-].
Qed.

Lemma card_downloads_nonneg (article : Soup.cursor) (x : option Z) :
  no_minus (string_after crawl_models.is_download_svg article) ->
  crawl_models.card_downloads article = Ok x -> nonneg x.
Proof.
  unfold string_after, crawl_models.card_downloads.
  destruct (Soup.find crawl_models.is_download_svg article) as [svg|].
  - apply number_after_nonneg.
  - now intros _ [= <-].
Qed.

Lemma card_likes_nonneg (article : Soup.cursor) (x : option Z) :
  no_minus (string_after crawl_models.is_like_svg article) ->
  crawl_models.card_likes article = Ok x -> nonneg x.
Proof.
  unfold string_after, crawl_models.card_likes.
  destruct (Soup.find crawl_models.is_like_svg article) as [svg|];
    [|now intros _ [= <-]].
  intros Hm.
  destruct (crawl_models.number_after (Soup.find_next_string svg)) as [likes|e] eqn:Hn;
    [|discriminate].
  cbn [bind]. apply (number_after_nonneg _ _ Hm) in Hn.
  destruct (Soup.find_next_string svg) as [t|]; [|now intros [= <-]].
  cbn [no_minus] in Hm.
  destruct (negb (Str.is_empty t) && Str.isdigit (Str.strip t))%bool;
    [|now intros [= <-]].
  destruct x as [n|]; [|constructor]. cbn [nonneg].
  apply int_branch_nonneg. now apply mem_strip.
Qed.

Lemma values_update_all (Q : crawl_paper.PaperCard -> Prop) (k : string)
      (f : crawl_paper.PaperCard -> crawl_paper.PaperCard) (d : crawl_paper.dict) :
  (forall c, Q c -> Q (f c)) ->
  Forall Q (crawl_paper.values d) ->
  Forall Q (crawl_paper.values (crawl_paper.update k f d)).
Proof.
  intros Hf. unfold crawl_paper.values.
  induction d as [|[k' v] d IH]; cbn [crawl_paper.update map snd]; [auto|].
  intros H. inversion H as [|? ? Hv Hd]; subst.
  destruct (String.eqb k k'); cbn [map snd]; constructor; auto.
Qed.

Lemma values_ensure_all (Q : crawl_paper.PaperCard -> Prop) (k : string)
      (d : crawl_paper.dict) :
  Q (crawl_paper.blank k) ->
  Forall Q (crawl_paper.values d) ->
  Forall Q (crawl_paper.values (ensure k d)).
Proof.
  intros Hb H. unfold ensure. destruct (crawl_paper.contains k d); [exact H|].
  unfold crawl_paper.add, crawl_paper.values. rewrite map_app.
  apply Forall_app. split; [exact H | repeat constructor; exact Hb].
Qed.

(** The entries of a dictionary after [d[k][field] = ...] *)
Lemma In_update (k k' : string) (f : crawl_paper.PaperCard -> crawl_paper.PaperCard)
      (c : crawl_paper.PaperCard) (d : crawl_paper.dict) :
  In (k', c) (crawl_paper.update k f d) ->
  In (k', c) d \/ (k' = k /\ exists c0, In (k, c0) d /\ c = f c0).
Proof.
  induction d as [|[k1 v] d IH]; cbn [crawl_paper.update]; [intros []|].
  destruct (String.eqb k k1) eqn:E.
  - apply String.eqb_eq in E. subst k1. intros [[= <- <-]|H].
    + right. split; [reflexivity|]. exists v. split; [now left | reflexivity].
    + left. now right.
  - intros [H|H]; [left; now left|].
    destruct (IH H) as [Hin|[-> [c0 [Hin ->]]]].
    + left. now right.
    + right. split; [reflexivity|]. exists c0. split; [now right | reflexivity].
Qed.

(** The entries of a dictionary after [if k not in d: d[k] = blank] *)
Lemma In_ensure (k k' : string) (c : crawl_paper.PaperCard) (d : crawl_paper.dict) :
  In (k', c) (ensure k d) -> In (k', c) d \/ (k' = k /\ c = crawl_paper.blank k).
Proof.
  unfold ensure. destruct (crawl_paper.contains k d); [now left|].
  unfold crawl_paper.add. intros H. apply in_app_or in H as [H|[[= <- <-]|[]]].
  - now left.
  - right. now split.
Qed.

(** A property of the entries that the blank card has and that every
    fragment keeps for the card of its own paper holds of every entry
    returned. *)
Lemma card_loop_entries (Q : string -> crawl_paper.PaperCard -> Prop)
      (articles : list Soup.cursor) :
  (forall u, Q u (crawl_paper.blank u)) ->
  (forall article u c,
      In article articles ->
      address crawl_paper.is_paper_link article = Some u ->
      Q u c -> Q u (fragment article c)) ->
  forall d,
    crawl_paper.card_loop articles [] = Ok d ->
    forall k c, In (k, c) d -> Q k c.
Proof.
  intros Hb Hf d.
  apply (card_loop_invariant (fun d => forall k c, In (k, c) d -> Q k c) articles);
    [|intros k c []].
  intros papers article papers' Hin HP.
  destruct (address crawl_paper.is_paper_link article) as [u|] eqn:Hu.
  - rewrite (card_step_linked _ _ _ Hu). intros [= <-] k c Hkc.
    assert (He : forall k0 c0, In (k0, c0) (ensure u papers) -> Q k0 c0).
    { intros k0 c0 H0. apply In_ensure in H0 as [H0|[-> ->]]; [now apply HP | apply Hb]. }
    apply In_update in Hkc as [Hkc|[-> [c0 [Hc0 ->]]]]; [now apply He|].
    apply (Hf article u c0 Hin Hu). now apply He.
  - rewrite (card_step_unlinked _ _ Hu). now intros [= <-].
Qed.

End Counts.

(** **** C8, as stated, fails: a count written with a minus sign is
    returned as a negative number. *)
Lemma negative_count_is_kept :
  crawl_models.parse_number "-5" = Ok (Some (-5)) /\
  exists c,
    crawl_paper.parse_soup (datetime := Reference.datetime) [Samples.downvoted_paper]
    = Ok [("https://huggingface.co/papers/2501.00003", c)] /\
    crawl_paper.upvotes c = Some (-5) /\
    ~ nonneg (crawl_paper.upvotes c).
Proof.
  split; [reflexivity|]. eexists. split; [reflexivity|]. split; [reflexivity|].
  cbn. lia.
Qed.

(** **** C8, amended
    In the records of both extractors a count is null or an integer, never
    a string, and each count is not negative as long as the text it is read
    from has no minus sign.  Every model record is made from a card of the
    page; its [downloads] is not negative if the string after the download
    icon of that card has no minus sign, and its [likes] likewise with the
    like icon, whatever the other count and the other cards hold.  Every
    number stored in [upvotes] or [github_stars] of a paper is what the
    normaliser gives for the text of the upvote element, or of the star
    element, of a card of that paper, and it is not negative if that text
    has no minus sign. *)
Theorem counts_nonneg_without_minus {datetime : DateTime} (doc : Soup.soup) :
  (forall rs,
      crawl_models.parse_soup doc = Ok rs ->
      Forall (fun r =>
                exists article,
                  In article (Soup.soup_find_all crawl_models.is_card doc) /\
                  crawl_models.parse_card article = Ok (Some r) /\
                  (no_minus (string_after crawl_models.is_download_svg article) ->
                   nonneg (crawl_models.downloads r)) /\
                  (no_minus (string_after crawl_models.is_like_svg article) ->
                   nonneg (crawl_models.likes r)))
             rs) /\
  (exists d,
      crawl_paper.parse_soup doc = Ok d /\
      forall k c,
        In (k, c) d ->
        (forall n,
            crawl_paper.upvotes c = Some n ->
            exists article t,
              In article (Soup.soup_find_all (Soup.is_tag "article") doc) /\
              address crawl_paper.is_paper_link article = Some k /\
              Soup.find crawl_paper.is_upvote_tag article = Some t /\
              normalised (Soup.text (Soup.here t)) = Some n /\
              (Str.mem "-" (Soup.text (Soup.here t)) = false -> 0 <= n)) /\
        (forall n,
            crawl_paper.github_stars c = Some n ->
            exists article t,
              In article (Soup.soup_find_all (Soup.is_tag "article") doc) /\
              address crawl_paper.is_paper_link article = Some k /\
              stars_element article = Some t /\
              normalised (Soup.text (Soup.here t)) = Some n /\
              (Str.mem "-" (Soup.text (Soup.here t)) = false -> 0 <= n))).
Proof.
  split.
  - intros rs. unfold crawl_models.parse_soup.
    apply parse_cards_all; [|constructor].
    intros article r Hin Hr. exists article.
    split; [exact Hin|]. split; [exact Hr|].
    apply parse_card_fields in Hr as (_ & _ & _ & _ & _ & _ & Hd & Hl).
    split; intros Hm;
      [eapply card_downloads_nonneg | eapply card_likes_nonneg]; eassumption.
  - unfold crawl_paper.parse_soup.
    destruct (card_loop_returns (Soup.soup_find_all (Soup.is_tag "article") doc) [])
      as [d Hd].
    exists d. split; [exact Hd|].
    revert d Hd. apply card_loop_entries.
    + intros u. split; intros n; discriminate.
    + intros article u c Hin Hu [Hup Hst]. split; intros n.
      * rewrite fragment_upvotes.
        destruct (Soup.find crawl_paper.is_upvote_tag article) as [t|] eqn:Ht;
          [|apply Hup].
        intros Hn. exists article, t. repeat split; try assumption.
        intros Hm. now apply (normalised_nonneg _ _ Hm).
      * rewrite fragment_github_stars.
        destruct (stars_element article) as [t|] eqn:Ht; [|apply Hst].
        intros Hn. exists article, t. repeat split; try assumption.
        intros Hm. now apply (normalised_nonneg _ _ Hm).
Qed.

Lemma counts_nonneg_without_minus_witness :
  (exists r1 r2,
      crawl_models.parse_soup (datetime := Reference.datetime) Samples.mixed_counts
      = Ok [r1; r2] /\
      crawl_models.downloads r1 = Some (-5) /\
      crawl_models.downloads r2 = Some 10 /\
      exists article,
        In article (Soup.soup_find_all crawl_models.is_card Samples.mixed_counts) /\
        crawl_models.parse_card (datetime := Reference.datetime) article = Ok (Some r2) /\
        no_minus (string_after crawl_models.is_download_svg article) /\
        nonneg (crawl_models.downloads r2)) /\
  (exists d c,
      crawl_paper.parse_soup (datetime := Reference.datetime) Samples.mixed_counts
      = Ok d /\
      In ("https://huggingface.co/papers/2501.00001", c) d /\
      crawl_paper.upvotes c = Some 12 /\
      exists article t,
        In article (Soup.soup_find_all (Soup.is_tag "article") Samples.mixed_counts) /\
        address crawl_paper.is_paper_link article
        = Some "https://huggingface.co/papers/2501.00001" /\
        Soup.find crawl_paper.is_upvote_tag article = Some t /\
        normalised (Soup.text (Soup.here t)) = Some 12 /\
        (Str.mem "-" (Soup.text (Soup.here t)) = false -> 0 <= 12)).
Proof.
  pose proof (counts_nonneg_without_minus (datetime := Reference.datetime)
                Samples.mixed_counts) as [Hmodels [d [Hd Hpapers]]].
  split.
  - destruct (crawl_models.parse_soup Samples.mixed_counts) as [rs|e] eqn:Hrs;
      vm_compute in Hrs; [|discriminate Hrs].
    specialize (Hmodels rs eq_refl). injection Hrs as <-.
    inversion Hmodels as [|r1 l1 _ H1]; subst.
    inversion H1 as [|r2 l2 [article (Hin & Hr & Hdl & _)] _]; subst.
    do 2 eexists. split; [reflexivity|]. split; [reflexivity|]. split; [reflexivity|].
    exists article. split; [exact Hin|]. split; [exact Hr|].
    assert (Hm : no_minus (string_after crawl_models.is_download_svg article)).
    { vm_compute in Hin. destruct Hin as [<-|[<-|[]]].
      - vm_compute in Hr. discriminate Hr.
      - vm_compute. reflexivity. }
    split; [exact Hm | exact (Hdl Hm)].
  - vm_compute in Hd. injection Hd as <-.
    pose proof (Hpapers "https://huggingface.co/papers/2501.00001" _
                  (or_intror (or_introl eq_refl))) as [Hup _].
    do 2 eexists. split; [vm_compute; reflexivity|].
    split; [right; left; reflexivity|]. split; [reflexivity|].
    exact (Hup 12 eq_refl).
Defined.

(** ** The detail pages *)

Section Run.

Import crawl_paper.

Context {parser : HtmlParser} {datetime : DateTime} {network : Network}.

Lemma gather_fetch (urls : list string) :
  forall h,
    snd (gather (map fetch_url urls) h) = (h ++ urls)%list /\
    (forall pages,
        fst (gather (map fetch_url urls) h) = Ok pages ->
        Forall2 answered (replies h urls) pages) /\
    (Forall (fun reply => reply <> Failed) (replies h urls) ->
     exists pages, fst (gather (map fetch_url urls) h) = Ok pages).
Proof.
  induction urls as [|u rest IH]; intros h; cbn [map gather replies].
  - unfold io_ret. cbn [fst snd]. rewrite app_nil_r.
    split; [reflexivity|]. split.
    + intros pages [= <-]. constructor.
    + intros _. now exists [].
  - unfold fetch_url at 1 3 5.
    destruct (IH (h ++ [u])%list) as (Hlog & Hpages & Hret).
    destruct (gather (map fetch_url rest) (h ++ [u])%list) as [rs h2].
    cbn [fst snd] in *. split; [|split].
    + rewrite Hlog, <- app_assoc. reflexivity.
    + intros pages. destruct (session_get h u) as [|status body]; [discriminate|].
      cbn [bind]. destruct rs as [l|e]; [|discriminate]. cbn [bind].
      intros [= <-]. constructor; [now exists status | now apply Hpages].
    + intros Hall. inversion Hall as [|? ? Hu Hrest]; subst.
      destruct (Hret Hrest) as [l ->].
      destruct (session_get h u) as [|status body]; [contradiction|].
      now exists (body :: l).
Qed.

Lemma values_update_urls (k : string) (f : PaperCard -> PaperCard) (d : dict) :
  (forall c, paper_url (f c) = paper_url c) ->
  map paper_url (values (update k f d)) = map paper_url (values d).
Proof.
  intros Hf. unfold values. induction d as [|[k' v] d IH];
    cbn [update map snd]; [reflexivity|].
  destruct (String.eqb k k'); cbn [map snd]; [now rewrite Hf | now rewrite IH].
Qed.

(** Every card holds the address it is stored under. *)
Lemma card_loop_paper_urls (articles : list Soup.cursor) (d : dict) :
  card_loop articles [] = Ok d -> map paper_url (values d) = keys d.
Proof.
  apply (card_loop_invariant (fun d => map paper_url (values d) = keys d) articles);
    [|reflexivity].
  intros papers article papers' _ HP.
  destruct (address is_paper_link article) as [u|] eqn:Hu.
  - rewrite (card_step_linked _ _ _ Hu). intros [= <-].
    rewrite values_update_urls by apply fragment_paper_url.
    rewrite keys_update. unfold ensure. destruct (contains u papers); [exact HP|].
    unfold add, values, keys in *. rewrite !map_app, HP. reflexivity.
  - rewrite (card_step_unlinked _ _ Hu). now intros [= <-].
Qed.


(** The run once the listing is fetched and its cards are extracted. *)
Lemma run_listed (h : list string) (status : Z) (page_content : string)
      (paper_cards : dict) :
  session_get h "https://huggingface.co/papers/trending"
  = Responded status page_content ->
  parse_trending_cards page_content = Ok paper_cards ->
  run h =
  (pages <- fst (gather (map fetch_url (keys paper_cards))
                   (h ++ ["https://huggingface.co/papers/trending"])%list) ;;
   Ok (map (fun cp => row (fst cp) (snd cp)) (combine (values paper_cards) pages)),
   snd (gather (map fetch_url (keys paper_cards))
          (h ++ ["https://huggingface.co/papers/trending"])%list)).
Proof.
  intros Hget Hcards.
  assert (Hurls : map paper_url (values paper_cards) = keys paper_cards)
    by (eapply card_loop_paper_urls; exact Hcards).
  unfold run, io_bind, io_lift, io_ret. unfold fetch_url at 1.
  change (BASE_URL ++ "/papers/trending")
    with "https://huggingface.co/papers/trending".
  rewrite Hget, Hcards.
  rewrite <- (map_map paper_url fetch_url), Hurls.
  now destruct (gather _ _) as [[pages|e] h2].
Qed.


End Run.



(** ** Fetching *)

(** **** C1, as stated, fails: the body of a response with status 404 is
    returned as the content of the page. *)
Lemma error_page_is_returned :
  session_get (Network := Samples.missing_site) [] "https://huggingface.co/models"
  = Responded 404 "Not Found" /\
  fst (crawl_models.fetch_url (network := Samples.missing_site)
         "https://huggingface.co/models" []) = Ok "Not Found" /\
  fst (crawl_paper.fetch_url (network := Samples.missing_site)
         "https://huggingface.co/papers/trending" []) = Ok "Not Found".
Proof. repeat split. Qed.

(** **** C1, amended
    For every address, [fetch_url] of either pipeline makes one request and
    either returns the body of the response, whatever its status, or fails
    with the error of the client when no response comes; the status is not
    looked at. *)
Theorem fetch_url_returns_any_response {network : Network} (url : string) (h : list string) :
  crawl_models.fetch_url url h = crawl_paper.fetch_url url h /\
  snd (crawl_models.fetch_url url h) = (h ++ [url])%list /\
  ((exists status body,
       session_get h url = Responded status body /\
       fst (crawl_models.fetch_url url h) = Ok body) \/
   (session_get h url = Failed /\
    fst (crawl_models.fetch_url url h) = Raise ClientError)).
Proof.
  split; [reflexivity|]. split; [reflexivity|].
  unfold crawl_models.fetch_url. cbn [fst].
  destruct (session_get h url) as [|status body].
  - right. now split.
  - left. exists status, body. now split.
Qed.

(** * Further properties *)

(** ** More on strings *)

Lemma lower_char_idem (c : ascii) : Str.lower_char (Str.lower_char c) = Str.lower_char c.
Proof. each_char c. Qed.

Lemma lower_idem (s : string) : Str.lower (Str.lower s) = Str.lower s.
Proof.
  induction s as [|c s IH]; cbn [Str.lower]; [reflexivity|].
  now rewrite IH, lower_char_idem.
Qed.

Lemma is_empty_lower (s : string) : Str.is_empty (Str.lower s) = Str.is_empty s.
Proof. now destruct s. Qed.

Lemma is_empty_eq (s : string) : Str.is_empty s = true -> s = "".
Proof. now destruct s. Qed.

Lemma lstrip_idem (p : ascii -> bool) (s : string) :
  Str.lstrip_with p (Str.lstrip_with p s) = Str.lstrip_with p s.
Proof.
  induction s as [|c s IH]; cbn [Str.lstrip_with]; [reflexivity|].
  destruct (p c) eqn:E; [exact IH|]. cbn [Str.lstrip_with]. now rewrite E.
Qed.

(** A string that [rstrip] leaves alone is empty or ends outside [p]; so
    are its suffixes. *)
Lemma rstrip_fixed_tail (p : ascii -> bool) (c : ascii) (s : string) :
  Str.rstrip_with p (String c s) = String c s -> Str.rstrip_with p s = s.
Proof.
  cbn [Str.rstrip_with]. destruct (Str.rstrip_with p s) as [|d r] eqn:E.
  - destruct (p c); [discriminate|]. now intros [= <-].
  - now intros [= <-].
Qed.

Lemma rstrip_idem (p : ascii -> bool) (s : string) :
  Str.rstrip_with p (Str.rstrip_with p s) = Str.rstrip_with p s.
Proof.
  induction s as [|c s IH]; cbn [Str.rstrip_with]; [reflexivity|].
  destruct (Str.rstrip_with p s) as [|d r] eqn:E.
  - destruct (p c) eqn:Ec; [reflexivity|]. cbn [Str.rstrip_with]. now rewrite Ec.
  - cbn [Str.rstrip_with] in *. cbn [Str.rstrip_with]. now rewrite IH.
Qed.

Lemma rstrip_lstrip_fixed (p : ascii -> bool) (s : string) :
  Str.rstrip_with p s = s ->
  Str.rstrip_with p (Str.lstrip_with p s) = Str.lstrip_with p s.
Proof.
  induction s as [|c s IH]; [reflexivity|].
  intros H. cbn [Str.lstrip_with]. destruct (p c); [|exact H].
  apply IH. now apply rstrip_fixed_tail in H.
Qed.

Lemma strip_with_idem (p : ascii -> bool) (s : string) :
  Str.strip_with p (Str.strip_with p s) = Str.strip_with p s.
Proof.
  unfold Str.strip_with.
  rewrite (rstrip_lstrip_fixed p (Str.rstrip_with p s)) by apply rstrip_idem.
  apply lstrip_idem.
Qed.

Lemma strip_idem (s : string) : Str.strip (Str.strip s) = Str.strip s.
Proof. apply strip_with_idem. Qed.

(** Nothing is stripped from a string that has none of the characters. *)
Lemma rstrip_none (p : ascii -> bool) (s : string) :
  Str.forallb (fun c => negb (p c)) s = true -> Str.rstrip_with p s = s.
Proof.
  induction s as [|c s IH]; [reflexivity|].
  cbn [Str.forallb Str.rstrip_with]. intros H.
  apply andb_true_iff in H as [Hc Hs]. rewrite (IH Hs).
  apply negb_true_iff in Hc. rewrite Hc. now destruct s.
Qed.

Lemma lstrip_none (p : ascii -> bool) (s : string) :
  Str.forallb (fun c => negb (p c)) s = true -> Str.lstrip_with p s = s.
Proof.
  destruct s as [|c s]; [reflexivity|].
  cbn [Str.forallb Str.lstrip_with]. intros H.
  apply andb_true_iff in H as [Hc _]. apply negb_true_iff in Hc. now rewrite Hc.
Qed.

Lemma strip_with_none (p : ascii -> bool) (s : string) :
  Str.forallb (fun c => negb (p c)) s = true -> Str.strip_with p s = s.
Proof.
  intros H. unfold Str.strip_with. rewrite (rstrip_none p s H). now apply lstrip_none.
Qed.

Lemma forallb_weaken (p q : ascii -> bool) (s : string) :
  (forall c, p c = true -> q c = true) ->
  Str.forallb p s = true -> Str.forallb q s = true.
Proof.
  intros Hpq. induction s as [|c s IH]; [reflexivity|].
  cbn [Str.forallb]. intros H. apply andb_true_iff in H as [Hc Hs].
  now rewrite (Hpq c Hc), (IH Hs).
Qed.

Lemma lower_fixed (p : ascii -> bool) (s : string) :
  (forall c, p c = true -> Str.lower_char c = c) ->
  Str.forallb p s = true -> Str.lower s = s.
Proof.
  intros Hp. induction s as [|c s IH]; [reflexivity|].
  cbn [Str.forallb Str.lower]. intros H. apply andb_true_iff in H as [Hc Hs].
  now rewrite (Hp c Hc), (IH Hs).
Qed.

Lemma mem_forallb (p : ascii -> bool) (x : ascii) (s : string) :
  Str.forallb p s = true -> p x = false -> Str.mem x s = false.
Proof.
  intros H Hx. induction s as [|c s IH]; [reflexivity|].
  cbn [Str.forallb Str.mem] in *. apply andb_true_iff in H as [Hc Hs].
  rewrite (IH Hs), orb_false_r. destruct (Ascii.eqb x c) eqn:E; [|reflexivity].
  apply Ascii.eqb_eq in E. congruence.
Qed.

Lemma endswith_mem (x : ascii) (s : string) :
  Str.mem x s = false -> Str.endswith (String x "") s = false.
Proof.
  induction s as [|c s IH]; [reflexivity|].
  cbn [Str.mem Str.endswith]. intros H. apply orb_false_elim in H as [Hc Hs].
  rewrite (IH Hs), orb_false_r. apply String.eqb_neq. intros [= -> ->].
  now rewrite Ascii.eqb_refl in Hc.
Qed.

(** ** More on the number normalisers *)

(** **** X1
    Both normalisers ignore the case of the letters and the blanks around
    the text: lower-casing or stripping the text first changes nothing, not
    even whether the call raises. *)
Theorem parse_number_ignores_case_and_blanks (text : string) :
  crawl_models.parse_number (Str.lower text) = crawl_models.parse_number text /\
  crawl_models.parse_number (Str.strip text) = crawl_models.parse_number text /\
  crawl_paper.parse_number (Str.lower text) = crawl_paper.parse_number text /\
  crawl_paper.parse_number (Str.strip text) = crawl_paper.parse_number text.
Proof.
  unfold crawl_models.parse_number, crawl_paper.parse_number.
  rewrite is_empty_lower, lower_idem.
  split; [reflexivity|]. split; [|split].
  - destruct (Str.is_empty text) eqn:E; [now rewrite (is_empty_eq _ E)|].
    destruct (Str.is_empty (Str.strip text)) eqn:E2.
    + rewrite <- lower_strip, (is_empty_eq _ E2). reflexivity.
    + now rewrite <- (lower_strip (Str.strip text)), strip_idem, lower_strip.
  - now rewrite <- (lower_strip text), lower_idem.
  - destruct (Str.is_empty text) eqn:E; [now rewrite (is_empty_eq _ E)|].
    rewrite strip_idem.
    destruct (Str.is_empty (Str.strip text)) eqn:E2; [|reflexivity].
    rewrite (is_empty_eq _ E2). reflexivity.
Qed.

(** *** Decimal notation *)

Ltac char_fact c :=
  destruct c as [[] [] [] [] [] [] [] []]; vm_compute;
  first [reflexivity | discriminate | intros _; reflexivity | intros; discriminate].

Lemma decimal_not_blank (c : ascii) :
  Str.isdecimal c = true -> negb (Num.isblank c) = true.
Proof. char_fact c. Qed.

Lemma grouped_not_space (c : ascii) :
  (Str.isdecimal c || Ascii.eqb c ",")%bool = true -> negb (Str.isspace c) = true.
Proof. char_fact c. Qed.

Lemma grouped_lower_char (c : ascii) :
  (Str.isdecimal c || Ascii.eqb c ",")%bool = true -> Str.lower_char c = c.
Proof. char_fact c. Qed.

Lemma decimal_grouped (c : ascii) :
  Str.isdecimal c = true -> (Str.isdecimal c || Ascii.eqb c ",")%bool = true.
Proof. intros ->. reflexivity. Qed.

Lemma uint_all_decimal (d : Decimal.uint) :
  Str.forallb Str.isdecimal (NilEmpty.string_of_uint d) = true.
Proof. induction d; cbn [NilEmpty.string_of_uint Str.forallb]; auto. Qed.

(** Scanning the digits of a decimal numeral reads them all, and their
    value is the one of the numeral. *)
Lemma scan_uint (d : Decimal.uint) :
  exists l,
    Num.scan_more (NilEmpty.string_of_uint d) = (l, "") /\
    List.length l = String.length (NilEmpty.string_of_uint d) /\
    forall a,
      fold_left (fun acc x => 10 * acc + x) l (Z.of_N (Unsigned.of_lu a))
      = Z.of_N (Unsigned.of_lu (Decimal.revapp d a)).
Proof.
  induction d as [|d [l (Hs & Hl & Hf)]|d [l (Hs & Hl & Hf)]|d [l (Hs & Hl & Hf)]
                  |d [l (Hs & Hl & Hf)]|d [l (Hs & Hl & Hf)]|d [l (Hs & Hl & Hf)]
                  |d [l (Hs & Hl & Hf)]|d [l (Hs & Hl & Hf)]|d [l (Hs & Hl & Hf)]
                  |d [l (Hs & Hl & Hf)]];
    [exists []; repeat split; reflexivity|..];
    cbn [NilEmpty.string_of_uint Num.scan_more];
    match goal with
    | |- context [Str.isdecimal ?c] =>
        change (Str.isdecimal c) with true; cbv iota;
        rewrite Hs;
        let v := eval vm_compute in (Num.digit_value c) in
        exists (v :: l)
    end;
    (split; [reflexivity|]; split; [cbn [List.length String.length]; now rewrite Hl|]);
    intros a; cbn [fold_left Decimal.revapp]; rewrite <- Hf; f_equal;
    cbn [Unsigned.of_lu]; rewrite ?N2Z.inj_add, ?N2Z.inj_mul; change (Z.of_N 10) with 10;
    lia.
Qed.

Lemma scan_digits_uint (d : Decimal.uint) :
  Num.scan_digits (NilEmpty.string_of_uint d) = Num.scan_more (NilEmpty.string_of_uint d).
Proof. destruct d; reflexivity. Qed.

Lemma split_sign_uint (d : Decimal.uint) :
  Num.split_sign (NilEmpty.string_of_uint d) = (false, NilEmpty.string_of_uint d).
Proof. destruct d; reflexivity. Qed.

(** [int] reads a decimal numeral of at most 4300 digits back. *)
Lemma int_of_str_uint (d : Decimal.uint) :
  d <> Decimal.Nil ->
  (String.length (NilEmpty.string_of_uint d) <= 4300)%nat ->
  Num.int_of_str (NilEmpty.string_of_uint d) = Some (Z.of_N (N.of_uint d)).
Proof.
  intros Hd Hlen. unfold Num.int_of_str, Num.trim.
  rewrite strip_with_none
    by (eapply forallb_weaken; [exact decimal_not_blank | apply uint_all_decimal]).
  rewrite split_sign_uint, scan_digits_uint.
  destruct (scan_uint d) as [l (Hs & Hl & Hf)]. rewrite Hs.
  destruct l as [|x l]; [destruct d; try contradiction; discriminate|].
  rewrite Hl. unfold Num.int_max_str_digits.
  apply Nat.leb_le in Hlen. rewrite Hlen. f_equal.
  unfold Num.with_sign, Num.decimal_value.
  specialize (Hf Decimal.Nil). cbn [Unsigned.of_lu Z.of_N] in Hf. rewrite Hf.
  unfold N.of_uint. now rewrite Unsigned.of_uint_alt.
Qed.

Lemma to_uint_not_nil (n : N) : N.to_uint n <> Decimal.Nil.
Proof. destruct n as [|p]; [discriminate | apply Unsigned.to_uint_nonnil]. Qed.

Lemma int_of_str_of_N (n : N) :
  (String.length (str_of_N n) <= 4300)%nat ->
  Num.int_of_str (str_of_N n) = Some (Z.of_N n).
Proof.
  intros H. unfold str_of_N in *.
  rewrite (int_of_str_uint _ (to_uint_not_nil n) H).
  now rewrite DecimalN.Unsigned.of_to.
Qed.

Lemma str_of_N_decimal (n : N) : Str.forallb Str.isdecimal (str_of_N n) = true.
Proof. apply uint_all_decimal. Qed.

Lemma str_of_N_not_empty (n : N) : Str.is_empty (str_of_N n) = false.
Proof.
  unfold str_of_N. pose proof (to_uint_not_nil n) as H.
  destruct (N.to_uint n); [contradiction|reflexivity..].
Qed.

Lemma grouped_facts (s : string) :
  grouped s ->
  Str.strip s = s /\ Str.lower s = s /\
  Str.endswith "k" s = false /\ Str.endswith "m" s = false.
Proof.
  unfold grouped. intros H. split; [|split; [|split]].
  - apply strip_with_none. eapply forallb_weaken; [exact grouped_not_space | exact H].
  - eapply lower_fixed; [exact grouped_lower_char | exact H].
  - apply endswith_mem. eapply mem_forallb; [exact H | reflexivity].
  - apply endswith_mem. eapply mem_forallb; [exact H | reflexivity].
Qed.

Lemma py_int_of_N (n : N) :
  (String.length (str_of_N n) <= 4300)%nat ->
  Num.py_int (str_of_N n) = Ok (Z.of_N n).
Proof. intros H. unfold Num.py_int. now rewrite int_of_str_of_N. Qed.

(** **** X2
    A number written in decimal digits, with commas anywhere between or
    around them, is read back by both normalisers: if the text without its
    commas is the decimal notation of [n] (at most 4300 digits), the result
    is [n]. *)
Theorem parse_number_grouped_digits (s : string) (n : N) :
  grouped s ->
  Str.replace "," "" s = str_of_N n ->
  (String.length (str_of_N n) <= 4300)%nat ->
  crawl_models.parse_number s = Ok (Some (Z.of_N n)) /\
  crawl_paper.parse_number s = Ok (Some (Z.of_N n)).
Proof.
  intros Hg Hs Hlen.
  destruct (grouped_facts s Hg) as (Hstrip & Hlower & Hk & Hm).
  assert (He : Str.is_empty s = false).
  { destruct s; [|reflexivity]. pose proof (str_of_N_not_empty n) as H.
    now rewrite <- Hs in H. }
  assert (Hd : grouped (str_of_N n)).
  { unfold grouped. eapply forallb_weaken; [exact decimal_grouped | apply str_of_N_decimal]. }
  destruct (grouped_facts _ Hd) as (_ & _ & Hk' & Hm').
  unfold crawl_models.parse_number, crawl_paper.parse_number.
  rewrite He, Hlower, Hstrip, Hlower, Hk, Hm, Hs, Hk', Hm', (py_int_of_N n Hlen).
  split; [reflexivity | now destruct (Str.isdigit _)].
Qed.

Lemma parse_number_grouped_digits_witness :
  grouped "12,345" /\
  Str.replace "," "" "12,345" = str_of_N 12345 /\
  (String.length (str_of_N 12345) <= 4300)%nat /\
  crawl_models.parse_number "12,345" = Ok (Some 12345) /\
  crawl_paper.parse_number "12,345" = Ok (Some 12345).
Proof.
  split; [reflexivity|]. split; [reflexivity|].
  split; [apply Nat.leb_le; reflexivity|].
  apply (parse_number_grouped_digits "12,345" 12345);
    [reflexivity | reflexivity | apply Nat.leb_le; reflexivity].
Defined.

(** What the module-level normaliser can raise. *)
Lemma scaled_raise (s : string) (factor : Z) (e : exn) :
  (x <- Num.py_float s ;;
   n <- Num.int_of_float (Num.float_mul x (Num.float_of_Z factor)) ;;
   Ok (Some n)) = Raise e ->
  e = ValueError \/
  (e = OverflowError /\
   exists x sign,
     Num.float_of_str s = Some x /\
     Num.float_mul x (Num.float_of_Z factor) = S754_infinity sign).
Proof.
  unfold Num.py_float. destruct (Num.float_of_str s) as [x|]; cbn [bind];
    [|intros [= <-]; now left].
  destruct (Num.float_mul x (Num.float_of_Z factor)) as [sg|sg| |sg m ex] eqn:E;
    cbn [Num.int_of_float bind]; try discriminate.
  - intros [= <-]. right. split; [reflexivity|]. now exists x, sg.
  - intros [= <-]. now left.
Qed.

Lemma int_branch_raise (s : string) (e : exn) :
  (n <- Num.py_int s ;; Ok (Some n)) = Raise e -> e = ValueError.
Proof.
  unfold Num.py_int. destruct (Num.int_of_str s); cbn [bind]; [discriminate|].
  now intros [= <-].
Qed.

Lemma except_ValueError_raise {A : Type} (m : result A) (h : A) (e : exn) :
  except_ValueError m h = Raise e -> m = Raise e /\ e <> ValueError.
Proof. destruct m as [a|[]]; simpl; intros H; inversion H; split; congruence. Qed.

Lemma models_parse_number_raise (text : string) (e : exn) :
  crawl_models.parse_number text = Raise e ->
  e = OverflowError /\
  exists factor x sign,
    (Str.endswith "k" (Str.strip (Str.lower text)) = true /\ factor = 1000 \/
     Str.endswith "m" (Str.strip (Str.lower text)) = true /\ factor = 1000000) /\
    Num.float_of_str (Str.drop_last (Str.strip (Str.lower text))) = Some x /\
    Num.float_mul x (Num.float_of_Z factor) = S754_infinity sign.
Proof.
  unfold crawl_models.parse_number.
  destruct (Str.is_empty text); [discriminate|].
  intros H. apply except_ValueError_raise in H as [H Hne].
  destruct (Str.endswith "k" _) eqn:Ek; [|destruct (Str.endswith "m" _) eqn:Em].
  - apply scaled_raise in H as [->|[-> (x & sg & Hx & Hi)]]; [contradiction|].
    split; [reflexivity|]. exists 1000, x, sg. auto.
  - apply scaled_raise in H as [->|[-> (x & sg & Hx & Hi)]]; [contradiction|].
    split; [reflexivity|]. exists 1000000, x, sg. auto.
  - apply int_branch_raise in H. contradiction.
Qed.

(** **** X3
    The module-level normaliser of the models pipeline raises nothing but
    [OverflowError], and only for a text with a [k] or [m] suffix whose
    number, once multiplied, is infinite; a text without such a suffix never
    makes it raise. *)
Theorem models_parse_number_raises_only_overflow (text : string) (e : exn) :
  crawl_models.parse_number text = Raise e ->
  e = OverflowError /\
  exists factor x sign,
    (Str.endswith "k" (Str.strip (Str.lower text)) = true /\ factor = 1000 \/
     Str.endswith "m" (Str.strip (Str.lower text)) = true /\ factor = 1000000) /\
    Num.float_of_str (Str.drop_last (Str.strip (Str.lower text))) = Some x /\
    Num.float_mul x (Num.float_of_Z factor) = S754_infinity sign.
Proof. apply models_parse_number_raise. Qed.

Lemma models_parse_number_raises_only_overflow_witness :
  crawl_models.parse_number "1e400M" = Raise OverflowError /\
  exists factor x sign,
    (Str.endswith "k" (Str.strip (Str.lower "1e400M")) = true /\ factor = 1000 \/
     Str.endswith "m" (Str.strip (Str.lower "1e400M")) = true /\ factor = 1000000) /\
    Num.float_of_str (Str.drop_last (Str.strip (Str.lower "1e400M"))) = Some x /\
    Num.float_mul x (Num.float_of_Z factor) = S754_infinity sign.
Proof.
  split; [reflexivity|].
  exact (proj2 (models_parse_number_raises_only_overflow "1e400M" OverflowError eq_refl)).
Defined.

(** ** What makes [parse_models] raise *)

Section ModelFailures.

Import crawl_models.

Context {datetime : DateTime}.








End ModelFailures.



(** ** The like count *)

Lemma isdigit_lower_char (c : ascii) : Str.isdigit_char c = true -> Str.lower_char c = c.
Proof. char_fact c. Qed.

Lemma isdigit_not_space (c : ascii) :
  Str.isdigit_char c = true -> negb (Str.isspace c) = true.
Proof. char_fact c. Qed.

Lemma models_parse_number_strip (text : string) :
  crawl_models.parse_number (Str.strip text) = crawl_models.parse_number text.
Proof.
  unfold crawl_models.parse_number.
  destruct (Str.is_empty text) eqn:E; [now rewrite (is_empty_eq _ E)|].
  destruct (Str.is_empty (Str.strip text)) eqn:E2.
  - rewrite <- lower_strip, (is_empty_eq _ E2). reflexivity.
  - now rewrite <- (lower_strip (Str.strip text)), strip_idem, lower_strip.
Qed.

(** On a text of digits the normaliser is [int]. *)
Lemma models_parse_number_isdigit (s : string) (n : Z) :
  Str.isdigit s = true ->
  Num.int_of_str s = Some n ->
  crawl_models.parse_number s = Ok (Some n).
Proof.
  unfold Str.isdigit. intros H Hn. apply andb_true_iff in H as [He Hd].
  apply negb_true_iff in He.
  unfold crawl_models.parse_number. rewrite He.
  rewrite (lower_fixed _ s isdigit_lower_char Hd).
  assert (Hs : Str.strip s = s)
    by (apply strip_with_none; eapply forallb_weaken;
        [exact isdigit_not_space | exact Hd]).
  rewrite Hs.
  rewrite (endswith_mem "k" s) by (eapply mem_forallb; [exact Hd | reflexivity]).
  rewrite (endswith_mem "m" s) by (eapply mem_forallb; [exact Hd | reflexivity]).
  rewrite (replace_absent "," "" s) by (eapply mem_forallb; [exact Hd | reflexivity]).
  unfold Num.py_int. now rewrite Hn.
Qed.

(** **** X5
    When the lookup of the like count returns, it returns what the
    normaliser gives for the string after the like icon: the special case
    for a text of digits never changes the value, it can only raise. *)
Theorem likes_special_case_changes_nothing (article : Soup.cursor) (x : option Z) :
  crawl_models.card_likes article = Ok x ->
  crawl_models.number_after (string_after crawl_models.is_like_svg article) = Ok x.
Proof.
  unfold crawl_models.card_likes, string_after.
  destruct (Soup.find crawl_models.is_like_svg article) as [svg|]; [|now intros [= <-]].
  destruct (crawl_models.number_after (Soup.find_next_string svg)) as [likes|e] eqn:Hn;
    cbn [bind]; [|discriminate].
  destruct (Soup.find_next_string svg) as [t|]; [|now intros [= <-]].
  destruct (negb (Str.is_empty t) && Str.isdigit (Str.strip t))%bool eqn:Hd;
    [|now intros [= <-]].
  apply andb_true_iff in Hd as [He Hd]. apply negb_true_iff in He.
  unfold Num.py_int. destruct (Num.int_of_str (Str.strip t)) as [n|] eqn:Hi;
    cbn [bind]; [|discriminate].
  intros [= <-]. rewrite <- Hn. unfold crawl_models.number_after. rewrite He.
  rewrite <- models_parse_number_strip.
  now apply models_parse_number_isdigit.
Qed.

Lemma likes_special_case_changes_nothing_witness :
  crawl_models.card_likes
    (Soup.preorder
       (Samples.model_card "/user/model" []
          [Samples.svg "flex-none w-3 text-gray-400 mr-1"; Soup.Text " 665 "]))
  = Ok (Some 665) /\
  crawl_models.number_after
    (string_after crawl_models.is_like_svg
       (Soup.preorder
          (Samples.model_card "/user/model" []
             [Samples.svg "flex-none w-3 text-gray-400 mr-1"; Soup.Text " 665 "])))
  = Ok (Some 665).
Proof.
  split; [vm_compute; reflexivity|].
  apply likes_special_case_changes_nothing.
  vm_compute; reflexivity.
Defined.

(** ** What is found satisfies what was asked *)

Lemma hd_error_filter {A : Type} (f : A -> bool) (l : list A) (x : A) :
  hd_error (filter f l) = Some x -> f x = true /\ In x l.
Proof.
  intros H. assert (Hin : In x (filter f l)).
  { destruct (filter f l); [discriminate|]. injection H as ->. now left. }
  apply filter_In in Hin. tauto.
Qed.

Lemma find_sound (p : Soup.node -> bool) (c d : Soup.cursor) :
  Soup.find p c = Some d -> p (Soup.here d) = true.
Proof.
  unfold Soup.find, Soup.select. intros H. now apply hd_error_filter in H.
Qed.

Lemma attr_search_value (name : string) (r : Re.re) (n : Soup.node) :
  Soup.attr_search name r n = true -> Re.search r (Soup.attr_value name n) = true.
Proof.
  unfold Soup.attr_search, Soup.attr_value. now destruct (Soup.attr name n).
Qed.

Lemma attr_startswith_value (name p : string) (n : Soup.node) :
  Soup.attr_startswith name p n = true ->
  Str.startswith p (Soup.attr_value name n) = true.
Proof.
  unfold Soup.attr_startswith, Soup.attr_value. now destruct (Soup.attr name n).
Qed.

Lemma both_true (p q : Soup.node -> bool) (n : Soup.node) :
  Soup.both p q n = true -> p n = true /\ q n = true.
Proof. unfold Soup.both. apply andb_true_iff. Qed.

Lemma addresses_In (link : Soup.node -> bool) (articles : list Soup.cursor) (u : string) :
  In u (addresses link articles) ->
  exists article, In article articles /\ address link article = Some u.
Proof.
  induction articles as [|a rest IH]; cbn [addresses]; [intros []|].
  destruct (address link a) as [v|] eqn:E.
  - intros [<-|H]; [exists a; split; [now left | exact E]|].
    destruct (IH H) as [art [Hin Ha]]. exists art. split; [now right | exact Ha].
  - intros H. destruct (IH H) as [art [Hin Ha]]. exists art. split; [now right | exact Ha].
Qed.

Lemma paper_address_on_site (article : Soup.cursor) (u : string) :
  address crawl_paper.is_paper_link article = Some u ->
  Str.startswith "https://huggingface.co/papers/" u = true.
Proof.
  unfold address.
  destruct (Soup.find crawl_paper.is_paper_link article) as [a_tag|] eqn:E; [|discriminate].
  intros [= <-]. apply find_sound in E. apply both_true in E as [_ E].
  apply attr_startswith_value in E.
  destruct (Soup.attr_value "href" (Soup.here a_tag)); exact E.
Qed.

(** ** Addresses *)

Lemma paper_keys_on_site {datetime : DateTime} (doc : Soup.soup) (d : crawl_paper.dict) :
  crawl_paper.parse_soup doc = Ok d ->
  Forall (fun u => Str.startswith "https://huggingface.co/papers/" u = true)
         (crawl_paper.keys d).
Proof.
  unfold crawl_paper.parse_soup. intros Hd. apply Forall_forall. intros u Hu.
  rewrite (card_loop_keys _ _ _ Hd) in Hu.
  apply fold_add_new_In in Hu as [[]|Hu].
  apply addresses_In in Hu as [article [_ Ha]].
  now apply (paper_address_on_site article).
Qed.

(** The address of a model record is the origin followed by whatever the
    [href] of the link holds: nothing makes it an address of the site. *)
Example model_address_may_leave_the_site :
  exists r,
    crawl_models.parse_soup (datetime := Reference.datetime)
      [Samples.model_card "@example.org/x" [] []] = Ok [r] /\
    crawl_models.url r = "https://huggingface.co@example.org/x".
Proof. eexists. split; reflexivity. Qed.

(** ** Invariants of the cards of papers *)

Section PaperInvariants.

Import crawl_paper.

Context {datetime : DateTime}.

(** What holds of the blank card and is kept by every fragment holds of
    every card returned. *)
Lemma card_loop_values_all (Q : PaperCard -> Prop) (articles : list Soup.cursor) :
  (forall u, Q (blank u)) ->
  (forall article c, In article articles -> Q c -> Q (fragment article c)) ->
  forall d, card_loop articles [] = Ok d -> Forall Q (values d).
Proof.
  intros Hb Hf d.
  apply (card_loop_invariant (fun d => Forall Q (values d)) articles); [|constructor].
  intros papers article papers' Hin HP.
  destruct (address is_paper_link article) as [u|] eqn:Hu.
  - rewrite (card_step_linked _ _ _ Hu). intros [= <-].
    apply values_update_all; [intros c; now apply Hf|].
    apply values_ensure_all; [apply Hb | exact HP].
  - rewrite (card_step_unlinked _ _ Hu). now intros [= <-].
Qed.

Lemma fragment_stars_need_github (article : Soup.cursor) (c : PaperCard) :
  (github c = None -> github_stars c = None) ->
  github (fragment article c) = None -> github_stars (fragment article c) = None.
Proof.
  rewrite fragment_github, fragment_github_stars. unfold stars_element.
  destruct (Soup.find is_github_link article); [discriminate | auto].
Qed.

Lemma fragment_links_match (article : Soup.cursor) (c : PaperCard) :
  when_some (fun v => Re.search (Re.seq [Re.lit "github"; Re.dot; Re.lit "com"]) v = true)
            (github c) /\
  when_some (fun v => Re.search (Re.seq [Re.lit "arxiv"; Re.dot; Re.lit "org"]) v = true)
            (arxiv c) ->
  when_some (fun v => Re.search (Re.seq [Re.lit "github"; Re.dot; Re.lit "com"]) v = true)
            (github (fragment article c)) /\
  when_some (fun v => Re.search (Re.seq [Re.lit "arxiv"; Re.dot; Re.lit "org"]) v = true)
            (arxiv (fragment article c)).
Proof.
  intros [Hg Ha]. rewrite fragment_github, fragment_arxiv. split.
  - destruct (Soup.find is_github_link article) as [g|] eqn:E; [|exact Hg].
    apply find_sound in E. apply both_true in E as [_ E].
    now apply attr_search_value in E.
  - destruct (Soup.find is_arxiv_link article) as [a|] eqn:E; [|exact Ha].
    apply find_sound in E. apply both_true in E as [_ E].
    now apply attr_search_value in E.
Qed.

(** The keys are inserted in the order of first occurrence. *)
Lemma fold_add_new_first (l : list string) :
  fold_left add_new l [] = first_occurrences l.
Proof.
  unfold first_occurrences.
  induction l as [|x l IH] using rev_ind; [reflexivity|].
  rewrite fold_left_app, IH. cbn [fold_left]. rewrite rev_app_distr.
  cbn [rev app nodup]. unfold add_new.
  destruct (in_dec string_dec x (rev l)) as [Hin|Hout].
  - assert (H : existsb (String.eqb x) (rev (nodup string_dec (rev l))) = true).
    { apply existsb_exists. exists x. split; [|apply String.eqb_refl].
      apply in_rev. rewrite rev_involutive. now apply nodup_In. }
    now rewrite H.
  - assert (H : existsb (String.eqb x) (rev (nodup string_dec (rev l))) = false).
    { destruct (existsb _ _) eqn:E; [|reflexivity].
      apply existsb_exists in E as [y [Hy E]]. apply String.eqb_eq in E. subst y.
      apply in_rev in Hy. apply nodup_In in Hy. contradiction. }
    now rewrite H.
Qed.

(** A field that no later fragment of the paper assigns keeps its value. *)
Lemma field_kept {A : Type} (proj : PaperCard -> A) (u : string) (x : A)
      (articles : list Soup.cursor) (papers papers' : dict) :
  (forall article c,
      In article articles ->
      address is_paper_link article = Some u ->
      proj (fragment article c) = proj c) ->
  (exists c, get u papers = Some c /\ proj c = x) ->
  card_loop articles papers = Ok papers' ->
  exists c, get u papers' = Some c /\ proj c = x.
Proof.
  intros Hlater.
  apply (card_loop_invariant
           (fun d => exists c, get u d = Some c /\ proj c = x) articles).
  intros d article d' Hin [c [Hc Hx]].
  destruct (address is_paper_link article) as [u'|] eqn:Hu.
  - rewrite (card_step_linked _ _ _ Hu). intros [= <-].
    destruct (string_dec u u') as [<-|Hne].
    + rewrite get_update_same, get_ensure_same. cbn [option_map].
      eexists. split; [reflexivity|].
      rewrite (Hlater article _ Hin Hu). unfold prior. now rewrite Hc.
    + rewrite get_update_other, get_ensure_other by exact Hne.
      now exists c.
  - rewrite (card_step_unlinked _ _ Hu). intros [= <-]. now exists c.
Qed.

End PaperInvariants.

(** **** X7
    In the dictionary of papers, a card has a star count only if it has a
    GitHub link: [github_stars] is null whenever [github] is. *)
Theorem stars_only_with_github {datetime : DateTime} (doc : Soup.soup) :
  exists d,
    crawl_paper.parse_soup doc = Ok d /\
    Forall (fun c => crawl_paper.github c = None -> crawl_paper.github_stars c = None)
           (crawl_paper.values d).
Proof.
  unfold crawl_paper.parse_soup.
  destruct (card_loop_returns (Soup.soup_find_all (Soup.is_tag "article") doc) [])
    as [d Hd].
  exists d. split; [exact Hd|].
  apply (card_loop_values_all _ (Soup.soup_find_all (Soup.is_tag "article") doc));
    [reflexivity | | exact Hd].
  intros article c _. apply fragment_stars_need_github.
Qed.

(** **** X8
    In the dictionary of papers, a GitHub link that is not null is an
    address in which [github.com] is found, and an arXiv link that is not
    null one in which [arxiv.org] is found (the dot standing for any
    character, as in the patterns of the source). *)
Theorem links_match_their_patterns {datetime : DateTime} (doc : Soup.soup) :
  exists d,
    crawl_paper.parse_soup doc = Ok d /\
    Forall (fun c =>
              when_some
                (fun v => Re.search (Re.seq [Re.lit "github"; Re.dot; Re.lit "com"]) v = true)
                (crawl_paper.github c) /\
              when_some
                (fun v => Re.search (Re.seq [Re.lit "arxiv"; Re.dot; Re.lit "org"]) v = true)
                (crawl_paper.arxiv c))
           (crawl_paper.values d).
Proof.
  unfold crawl_paper.parse_soup.
  destruct (card_loop_returns (Soup.soup_find_all (Soup.is_tag "article") doc) [])
    as [d Hd].
  exists d. split; [exact Hd|].
  apply (card_loop_values_all _ (Soup.soup_find_all (Soup.is_tag "article") doc));
    [intros u; split; exact I | | exact Hd].
  intros article c _. apply fragment_links_match.
Qed.

(** **** X9
    The keys of the dictionary of papers are the addresses of the cards of
    the page, each once, in the order in which they first occur. *)
Theorem keys_in_order_of_first_occurrence {datetime : DateTime} (doc : Soup.soup) :
  exists d,
    crawl_paper.parse_soup doc = Ok d /\
    crawl_paper.keys d
    = first_occurrences
        (addresses crawl_paper.is_paper_link
           (Soup.soup_find_all (Soup.is_tag "article") doc)).
Proof.
  unfold crawl_paper.parse_soup.
  destruct (card_loop_returns (Soup.soup_find_all (Soup.is_tag "article") doc) [])
    as [d Hd].
  exists d. split; [exact Hd|].
  rewrite (card_loop_keys _ _ _ Hd). apply fold_add_new_first.
Qed.

Example first_occurrences_of_three :
  first_occurrences ["a"; "b"; "a"; "c"; "b"] = ["a"; "b"; "c"].
Proof. reflexivity. Qed.

(** ** The last fragment that has an element decides *)

(** **** X10
    In the dictionary returned for a page, each field of a paper is what
    the last card of that paper having the field's element gives: the count
    the normaliser returns for the upvote and star elements, the [href] of
    the GitHub and arXiv links, the date (or the label as it is) for the
    date label.  Cards of other papers and later cards of the same paper
    without the element do not touch it. *)
Theorem last_fragment_decides {datetime : DateTime}
        (doc : Soup.soup) (before after : list Soup.cursor)
        (article : Soup.cursor) (u : string) :
  Soup.soup_find_all (Soup.is_tag "article") doc = (before ++ article :: after)%list ->
  address crawl_paper.is_paper_link article = Some u ->
  exists d c,
    crawl_paper.parse_soup doc = Ok d /\
    crawl_paper.get u d = Some c /\
    (forall t,
        Soup.find crawl_paper.is_upvote_tag article = Some t ->
        (forall later, In later after ->
                       address crawl_paper.is_paper_link later = Some u ->
                       Soup.find crawl_paper.is_upvote_tag later = None) ->
        crawl_paper.parse_number (Soup.text (Soup.here t)) = Ok (crawl_paper.upvotes c)) /\
    (forall p,
        Soup.find crawl_paper.is_pub_span article = Some p ->
        (forall later, In later after ->
                       address crawl_paper.is_paper_link later = Some u ->
                       Soup.find crawl_paper.is_pub_span later = None) ->
        crawl_paper.published c
        = Some (crawl_paper.published_value (crawl_paper.pub_text_of p))) /\
    (forall g,
        Soup.find crawl_paper.is_github_link article = Some g ->
        (forall later, In later after ->
                       address crawl_paper.is_paper_link later = Some u ->
                       Soup.find crawl_paper.is_github_link later = None) ->
        crawl_paper.github c = Some (Soup.attr_value "href" (Soup.here g))) /\
    (forall sp,
        stars_element article = Some sp ->
        (forall later, In later after ->
                       address crawl_paper.is_paper_link later = Some u ->
                       stars_element later = None) ->
        crawl_paper.parse_number (Soup.text (Soup.here sp))
        = Ok (crawl_paper.github_stars c)) /\
    (forall a,
        Soup.find crawl_paper.is_arxiv_link article = Some a ->
        (forall later, In later after ->
                       address crawl_paper.is_paper_link later = Some u ->
                       Soup.find crawl_paper.is_arxiv_link later = None) ->
        crawl_paper.arxiv c = Some (Soup.attr_value "href" (Soup.here a))).
Proof.
  intros Hdoc Hu. unfold crawl_paper.parse_soup. rewrite Hdoc, card_loop_app.
  destruct (card_loop_returns before []) as [d0 Hd0]. rewrite Hd0. cbn [bind].
  cbn [crawl_paper.card_loop]. rewrite (card_step_linked _ _ _ Hu). cbn [bind].
  set (d1 := crawl_paper.update u (fragment article) (ensure u d0)).
  set (c1 := fragment article (prior u d0)).
  assert (Hg1 : crawl_paper.get u d1 = Some c1)
    by (unfold d1, c1; now rewrite get_update_same, get_ensure_same).
  destruct (card_loop_returns after d1) as [d Hd].
  destruct (field_kept (fun _ => tt) u tt after d1 d (fun _ _ _ _ => eq_refl)
              (ex_intro _ c1 (conj Hg1 eq_refl)) Hd) as [c [Hc _]].
  exists d, c. split; [exact Hd|]. split; [exact Hc|].
  assert (Hkeep : forall (A : Type) (proj : crawl_paper.PaperCard -> A),
             (forall later c0, In later after ->
                               address crawl_paper.is_paper_link later = Some u ->
                               proj (fragment later c0) = proj c0) ->
             proj c = proj c1).
  { intros A proj Hlater.
    destruct (field_kept proj u (proj c1) after d1 d Hlater
                (ex_intro _ c1 (conj Hg1 eq_refl)) Hd) as [c' [Hc' Hx]].
    rewrite Hc in Hc'. now injection Hc' as <-. }
  split; [|split; [|split; [|split]]].
  - intros t Ht Hlater.
    rewrite (Hkeep _ crawl_paper.upvotes)
      by (intros later c0 Hin Ha; now rewrite fragment_upvotes, (Hlater later Hin Ha)).
    unfold c1. rewrite fragment_upvotes, Ht. apply paper_parse_number_normalised.
  - intros p Hp Hlater.
    rewrite (Hkeep _ crawl_paper.published)
      by (intros later c0 Hin Ha; now rewrite fragment_published, (Hlater later Hin Ha)).
    unfold c1. now rewrite fragment_published, Hp.
  - intros g Hg Hlater.
    rewrite (Hkeep _ crawl_paper.github)
      by (intros later c0 Hin Ha; now rewrite fragment_github, (Hlater later Hin Ha)).
    unfold c1. now rewrite fragment_github, Hg.
  - intros sp Hsp Hlater.
    rewrite (Hkeep _ crawl_paper.github_stars)
      by (intros later c0 Hin Ha; now rewrite fragment_github_stars, (Hlater later Hin Ha)).
    unfold c1. rewrite fragment_github_stars, Hsp. apply paper_parse_number_normalised.
  - intros a Ha Hlater.
    rewrite (Hkeep _ crawl_paper.arxiv)
      by (intros later c0 Hin Hl; now rewrite fragment_arxiv, (Hlater later Hin Hl)).
    unfold c1. now rewrite fragment_arxiv, Ha.
Qed.

Lemma last_fragment_decides_witness :
  Soup.soup_find_all (Soup.is_tag "article")
    [Samples.counted_fragment; Samples.uncounted_fragment]
  = ([Soup.preorder Samples.counted_fragment ++ Soup.preorder Samples.uncounted_fragment]
       ++ Soup.preorder Samples.uncounted_fragment :: [])%list /\
  address crawl_paper.is_paper_link (Soup.preorder Samples.uncounted_fragment)
  = Some "https://huggingface.co/papers/2501.00001" /\
  exists d c,
    crawl_paper.parse_soup (datetime := Reference.datetime)
      [Samples.counted_fragment; Samples.uncounted_fragment] = Ok d /\
    crawl_paper.get "https://huggingface.co/papers/2501.00001" d = Some c.
Proof.
  split; [vm_compute; reflexivity|]. split; [vm_compute; reflexivity|].
  destruct (last_fragment_decides (datetime := Reference.datetime)
              [Samples.counted_fragment; Samples.uncounted_fragment]
              [Soup.preorder Samples.counted_fragment
                 ++ Soup.preorder Samples.uncounted_fragment]%list
              []
              (Soup.preorder Samples.uncounted_fragment)
              "https://huggingface.co/papers/2501.00001")
    as (d & c & Hd & Hc & _); [vm_compute; reflexivity..|].
  now exists d, c.
Defined.

(** ** Texts without blanks around them *)

(** **** X11
    The texts the extractors take from elements carry no blank at either
    end: the title and the abstract of a detail page (or their placeholder),
    and the task and the parameter count of every model record. *)
Theorem extracted_texts_are_stripped {datetime : DateTime} (doc : Soup.soup) :
  stripped (fst (crawl_paper.details_of doc)) /\
  stripped (snd (crawl_paper.details_of doc)) /\
  (forall rs,
      crawl_models.parse_soup doc = Ok rs ->
      Forall (fun r => stripped_opt (crawl_models.task r) /\
                       stripped_opt (crawl_models.parameters r)) rs).
Proof.
  unfold stripped. split; [|split].
  - unfold crawl_paper.details_of. cbn [fst].
    destruct (Soup.soup_find (Soup.is_tag "h1") doc); [apply strip_idem | reflexivity].
  - unfold crawl_paper.details_of. cbn [snd].
    destruct (Soup.soup_find (Soup.is_tag "p") doc); [apply strip_idem | reflexivity].
  - intros rs. unfold crawl_models.parse_soup.
    apply parse_cards_all; [|constructor].
    intros article r _ Hr.
    apply parse_card_fields in Hr as (_ & _ & _ & Ht & Hp & _).
    split.
    + unfold crawl_models.card_task in Ht.
      destruct (Soup.find crawl_models.is_task_svg article) as [svg|];
        [|injection Ht as <-; exact I].
      destruct (Soup.find_next_string svg); [|discriminate].
      injection Ht as <-. apply strip_idem.
    + rewrite Hp. unfold crawl_models.card_params.
      destruct (Soup.find crawl_models.is_param_span article); [apply strip_idem | exact I].
Qed.

Lemma extracted_texts_are_stripped_witness :
  crawl_models.parse_soup (datetime := Reference.datetime) [Samples.full_card]
  = Ok [{| crawl_models.model_id := "deepseek-ai/DeepSeek-V3";
           crawl_models.url := "https://huggingface.co/deepseek-ai/DeepSeek-V3";
           crawl_models.task := Some "Text Generation";
           crawl_models.parameters := Some "685B";
           crawl_models.updated := Some "2025-03-25";
           crawl_models.downloads := Some 1200000;
           crawl_models.likes := Some 3665 |}] /\
  stripped "Text Generation".
Proof.
  split; [vm_compute; reflexivity|].
  pose proof (proj2 (proj2 (extracted_texts_are_stripped (datetime := Reference.datetime)
                              [Samples.full_card])) _
                    (parse_full_card)) as H.
  inversion H as [|r rs [Ht _] _]. exact Ht.
Defined.

(** ** Failures of the network *)

Section Failures.

Import crawl_paper.

Context {parser : HtmlParser} {datetime : DateTime} {network : Network}.

Lemma gather_fetch_failed (urls : list string) :
  forall h,
    In Failed (replies h urls) ->
    fst (gather (map fetch_url urls) h) = Raise ClientError.
Proof.
  induction urls as [|u rest IH]; intros h; cbn [map gather replies]; [intros []|].
  unfold fetch_url at 1. specialize (IH (h ++ [u])%list).
  destruct (gather (map fetch_url rest) (h ++ [u])%list) as [rs h2].
  cbn [fst] in *. intros [Hu|Hrest].
  - now rewrite Hu.
  - rewrite (IH Hrest). now destruct (session_get h u).
Qed.

Lemma run_unlisted (h : list string) :
  session_get h "https://huggingface.co/papers/trending" = Failed ->
  run h = (Raise ClientError, (h ++ ["https://huggingface.co/papers/trending"])%list).
Proof.
  intros Hget. unfold run, io_bind. unfold fetch_url at 1.
  change (BASE_URL ++ "/papers/trending")
    with "https://huggingface.co/papers/trending".
  now rewrite Hget.
Qed.


End Failures.

(** ** The addresses requested *)

Section OnSite.

Import crawl_paper.

Context {parser : HtmlParser} {datetime : DateTime} {network : Network}.

Lemma rows_urls_all (P : string -> Prop) (cards : list PaperCard) :
  forall pages,
    Forall P (map paper_url cards) ->
    Forall (fun r => P (url r))
           (map (fun cp => row (fst cp) (snd cp)) (combine cards pages)).
Proof.
  induction cards as [|c cards IH]; intros [|p pages] H;
    cbn [combine map fst snd]; try constructor.
  - now inversion H.
  - apply IH. now inversion H.
Qed.

End OnSite.

(** **** X6
    The crawl of the papers stays on the site.  Every key of the dictionary
    of papers begins with [https://huggingface.co/papers/]: the origin of the
    site followed by a slash, so that the host of the address is the site.
    Hence, whatever the network answers and whatever the pages hold, every
    address that the run requests begins with it, whether the run returns or
    raises, and so does the [url] of every row that it returns. *)
Theorem papers_crawl_stays_on_site
        {parser : HtmlParser} {datetime : DateTime} {network : Network}
        (h : list string) :
  (forall doc,
      exists d,
        crawl_paper.parse_soup doc = Ok d /\
        Forall (fun u => Str.startswith "https://huggingface.co/papers/" u = true)
               (crawl_paper.keys d)) /\
  (exists requested,
      snd (crawl_paper.run h) = (h ++ requested)%list /\
      Forall (fun u => Str.startswith "https://huggingface.co/papers/" u = true)
             requested) /\
  (forall rows,
      fst (crawl_paper.run h) = Ok rows ->
      Forall (fun r => Str.startswith "https://huggingface.co/papers/"
                         (crawl_paper.url r) = true)
             rows).
Proof.
  assert (Hkeys : forall doc,
             exists d,
               crawl_paper.parse_soup doc = Ok d /\
               Forall (fun u => Str.startswith "https://huggingface.co/papers/" u = true)
                      (crawl_paper.keys d)).
  { intros doc. unfold crawl_paper.parse_soup.
    destruct (card_loop_returns (Soup.soup_find_all (Soup.is_tag "article") doc) [])
      as [d Hd].
    exists d. split; [exact Hd|]. now apply (paper_keys_on_site doc). }
  split; [exact Hkeys|].
  destruct (session_get h "https://huggingface.co/papers/trending")
    as [|status page_content] eqn:Hget.
  - rewrite (run_unlisted h Hget). cbn [fst snd]. split; [|discriminate].
    exists ["https://huggingface.co/papers/trending"].
    split; [reflexivity|]. now repeat constructor.
  - destruct (Hkeys (BeautifulSoup page_content)) as [d [Hd Hon]].
    rewrite (run_listed h status page_content d Hget Hd).
    destruct (gather_fetch (crawl_paper.keys d)
                (h ++ ["https://huggingface.co/papers/trending"])%list) as (Hlog & _).
    cbn [fst snd]. split.
    + exists ("https://huggingface.co/papers/trending" :: crawl_paper.keys d).
      split; [rewrite Hlog, <- app_assoc; reflexivity|].
      constructor; [reflexivity | exact Hon].
    + intros rows. destruct (fst (gather _ _)) as [pages|e]; [|discriminate].
      cbn [bind]. intros [= <-].
      apply (rows_urls_all
               (fun u => Str.startswith "https://huggingface.co/papers/" u = true)).
      unfold crawl_paper.parse_soup in Hd.
      now rewrite (card_loop_paper_urls _ _ Hd).
Qed.

Lemma papers_crawl_stays_on_site_witness :
  (exists rows,
      fst (crawl_paper.run (parser := Samples.parser) (datetime := Reference.datetime)
             (network := Samples.site) []) = Ok rows /\
      map crawl_paper.url rows
      = ["https://huggingface.co/papers/2501.00001";
         "https://huggingface.co/papers/2501.00002"] /\
      Forall (fun r => Str.startswith "https://huggingface.co/papers/"
                         (crawl_paper.url r) = true)
             rows).
Proof.
  eexists. split; [vm_compute; reflexivity|]. split; [reflexivity|].
  apply (proj2 (proj2 (papers_crawl_stays_on_site
                         (parser := Samples.parser) (datetime := Reference.datetime)
                         (network := Samples.site) []))).
  vm_compute; reflexivity.
Defined.

(** **** X12
    The run of the papers pipeline is all or nothing.  If the listing is
    not answered, no detail page is requested and the run raises the error
    of the client.  If the listing is answered and one of the detail
    requests is not, every detail page has been requested all the same, and
    the run raises the error of the client: no row is returned for the pages
    that were answered. *)
Theorem papers_run_all_or_nothing
        {parser : HtmlParser} {datetime : DateTime} {network : Network}
        (h : list string) :
  (session_get h "https://huggingface.co/papers/trending" = Failed ->
   crawl_paper.run h
   = (Raise ClientError, (h ++ ["https://huggingface.co/papers/trending"])%list)) /\
  (forall status page_content paper_cards,
      session_get h "https://huggingface.co/papers/trending"
      = Responded status page_content ->
      crawl_paper.parse_trending_cards page_content = Ok paper_cards ->
      In Failed (replies (h ++ ["https://huggingface.co/papers/trending"])%list
                         (crawl_paper.keys paper_cards)) ->
      crawl_paper.run h
      = (Raise ClientError,
         (h ++ "https://huggingface.co/papers/trending"
            :: crawl_paper.keys paper_cards)%list)).
Proof.
  split; [apply run_unlisted|].
  intros status page_content paper_cards Hget Hcards Hfail.
  rewrite (run_listed h status page_content paper_cards Hget Hcards).
  rewrite (gather_fetch_failed _ _ Hfail).
  destruct (gather_fetch (crawl_paper.keys paper_cards)
              (h ++ ["https://huggingface.co/papers/trending"])%list) as (Hlog & _).
  rewrite Hlog, <- app_assoc. reflexivity.
Qed.

Lemma papers_run_all_or_nothing_witness :
  session_get (Network := Sites.flaky) [] "https://huggingface.co/papers/trending"
  = Responded 200 Samples.listing_html /\
  In Failed
     (replies (network := Sites.flaky) ["https://huggingface.co/papers/trending"]
        ["https://huggingface.co/papers/2501.00001";
         "https://huggingface.co/papers/2501.00002"]) /\
  crawl_paper.run (parser := Samples.parser) (datetime := Reference.datetime)
    (network := Sites.flaky) []
  = (Raise ClientError,
     ["https://huggingface.co/papers/trending";
      "https://huggingface.co/papers/2501.00001";
      "https://huggingface.co/papers/2501.00002"]).
Proof.
  split; [reflexivity|]. split; [right; left; reflexivity|].
  refine (proj2 (papers_run_all_or_nothing
                   (parser := Samples.parser) (datetime := Reference.datetime)
                   (network := Sites.flaky) [])
                200 Samples.listing_html
                [("https://huggingface.co/papers/2501.00001",
                  crawl_paper.blank "https://huggingface.co/papers/2501.00001");
                 ("https://huggingface.co/papers/2501.00002",
                  crawl_paper.blank "https://huggingface.co/papers/2501.00002")]
                eq_refl _ _).
  - vm_compute; reflexivity.
  - right; left; reflexivity.
Defined.

(** ** The two crawls, one after the other *)



(** ** The word cloud *)

Lemma lstrip_empty (p : ascii -> bool) (s : string) :
  Str.lstrip_with p s = "" <-> Str.forallb p s = true.
Proof.
  induction s as [|c s IH]; cbn [Str.lstrip_with Str.forallb]; [tauto|].
  destruct (p c); cbn [andb]; [exact IH | split; discriminate].
Qed.

Lemma rstrip_empty (p : ascii -> bool) (s : string) :
  Str.rstrip_with p s = "" <-> Str.forallb p s = true.
Proof.
  induction s as [|c s IH]; cbn [Str.rstrip_with Str.forallb]; [tauto|].
  destruct (Str.rstrip_with p s) as [|d r].
  - destruct (p c); cbn [andb].
    + split; [intros _; now apply IH | reflexivity].
    + split; discriminate.
  - split; [discriminate|]. intros H. apply andb_true_iff in H as [_ H].
    apply IH in H. discriminate.
Qed.

Lemma strip_empty (s : string) : Str.strip s = "" <-> blank s.
Proof.
  unfold Str.strip, Str.strip_with, blank. rewrite lstrip_empty. split.
  - intros H. apply rstrip_empty. apply rstrip_empty in H.
    now rewrite rstrip_idem in H.
  - intros H. apply rstrip_empty in H. now rewrite H.
Qed.

Lemma forallb_append (p : ascii -> bool) (s t : string) :
  Str.forallb p (s ++ t) = (Str.forallb p s && Str.forallb p t)%bool.
Proof.
  induction s as [|c s IH]; cbn [append Str.forallb]; [reflexivity|].
  now rewrite IH, andb_assoc.
Qed.

Lemma blank_concat (l : list string) :
  blank (String.concat " " l) <-> Forall blank l.
Proof.
  unfold blank. induction l as [|x l IH]; cbn [String.concat].
  - split; [constructor | reflexivity].
  - destruct l as [|y l].
    + split; [intros H; now repeat constructor | intros H; now inversion H].
    + rewrite !forallb_append. cbn [Str.forallb]. change (Str.isspace " ") with true.
      cbn [andb]. rewrite andb_true_iff, IH. split.
      * intros [Hx Hl]. now constructor.
      * intros H. now inversion H.
Qed.

(** **** X14
    [generate_wordcloud] draws nothing, and shows its notice instead,
    exactly when every text of the column that is not null is made of blanks
    only; in particular for an empty column and for a column of nulls.
    Otherwise the cloud is made of the non-null texts joined by spaces. *)
Theorem wordcloud_skipped_when_blank (text_series : list (option string)) :
  (analyze_app.generate_wordcloud text_series = None <->
   Forall blank (analyze_app.dropna text_series)) /\
  (forall text,
      analyze_app.generate_wordcloud text_series = Some text ->
      text = String.concat " " (analyze_app.dropna text_series) /\
      ~ blank text).
Proof.
  unfold analyze_app.generate_wordcloud.
  destruct (Str.is_empty (Str.strip (String.concat " " (analyze_app.dropna text_series))))
    eqn:E.
  - apply is_empty_eq in E. apply strip_empty in E. split.
    + split; [intros _; now apply blank_concat | reflexivity].
    + discriminate.
  - assert (Hn : ~ blank (String.concat " " (analyze_app.dropna text_series))).
    { intros H. apply strip_empty in H. now rewrite H in E. }
    split.
    + split; [discriminate|]. intros H. apply blank_concat in H. contradiction.
    + intros text [= <-]. now split.
Qed.

Lemma wordcloud_skipped_when_blank_witness :
  analyze_app.generate_wordcloud [Some "Text Generation"; None; Some "Image Classification"]
  = Some "Text Generation Image Classification" /\
  ~ blank "Text Generation Image Classification".
Proof.
  split; [reflexivity|].
  exact (proj2 (proj2 (wordcloud_skipped_when_blank
                         [Some "Text Generation"; None; Some "Image Classification"])
                      _ eq_refl)).
Defined.

(** ** The rows and their cards *)

Section Rows.

Import crawl_paper.

Lemma own_keys (d : dict) :
  map paper_url (values d) = keys d ->
  Forall (fun kv => paper_url (snd kv) = fst kv) d.
Proof.
  unfold values, keys. induction d as [|[k v] d IH]; cbn [map fst snd]; [constructor|].
  intros [= Hk Hd]. constructor; [exact Hk | now apply IH].
Qed.

Lemma get_In (k : string) (v : PaperCard) (d : dict) :
  NoDup (keys d) -> In (k, v) d -> get k d = Some v.
Proof.
  unfold keys. induction d as [|[k' v'] d IH]; cbn [map fst get In]; [intros _ []|].
  intros Hnd [H|H].
  - injection H as -> ->. now rewrite String.eqb_refl.
  - inversion Hnd as [|? ? Hout Hnd']; subst.
    destruct (String.eqb k k') eqn:E; [|now apply IH].
    apply String.eqb_eq in E. subst k'. exfalso. apply Hout.
    change k with (fst (k, v)). now apply in_map.
Qed.

End Rows.

(** **** X15
    Every row returned by the run of the papers pipeline carries the
    fields of the card stored in the dictionary under the row's own address. *)
Theorem rows_carry_their_cards
        {parser : HtmlParser} {datetime : DateTime} {network : Network}
        (h : list string) (status : Z) (page_content : string)
        (paper_cards : crawl_paper.dict) (rows : list crawl_paper.PaperRecord) :
  session_get h "https://huggingface.co/papers/trending"
  = Responded status page_content ->
  crawl_paper.parse_trending_cards page_content = Ok paper_cards ->
  fst (crawl_paper.run h) = Ok rows ->
  Forall (fun r =>
            exists card,
              crawl_paper.get (crawl_paper.url r) paper_cards = Some card /\
              crawl_paper.row_github r = crawl_paper.github card /\
              crawl_paper.row_arxiv r = crawl_paper.arxiv card /\
              crawl_paper.row_upvotes r = crawl_paper.upvotes card /\
              crawl_paper.row_published r = crawl_paper.published card /\
              crawl_paper.row_github_stars r = crawl_paper.github_stars card)
         rows.
Proof.
  intros Hget Hcards.
  rewrite (run_listed h status page_content paper_cards Hget Hcards). cbn [fst].
  destruct (fst (gather _ _)) as [pages|e]; cbn [bind]; [|discriminate].
  intros [= <-]. apply Forall_forall. intros r Hr.
  apply in_map_iff in Hr as [[card page] [<- Hin]].
  apply in_combine_l in Hin. unfold crawl_paper.values in Hin.
  apply in_map_iff in Hin as [[k v] [Hv Hin]]. cbn [snd] in Hv. subst v.
  assert (Hown : crawl_paper.paper_url card = k).
  { assert (Hall := own_keys paper_cards (card_loop_paper_urls _ _ Hcards)).
    rewrite Forall_forall in Hall. exact (Hall (k, card) Hin). }
  assert (Hnd : NoDup (crawl_paper.keys paper_cards)).
  { unfold crawl_paper.parse_trending_cards, crawl_paper.parse_soup in Hcards.
    rewrite (card_loop_keys _ _ _ Hcards). apply fold_add_new_NoDup. constructor. }
  exists card. cbn [fst snd]. unfold crawl_paper.row. cbn.
  rewrite Hown. split; [now apply get_In|]. repeat split.
Qed.

Lemma rows_carry_their_cards_witness :
  session_get (Network := Sites.full) [] "https://huggingface.co/papers/trending"
  = Responded 200 Sites.full_html /\
  exists cards rows,
    crawl_paper.parse_trending_cards (parser := Sites.full_parser)
      (datetime := Reference.datetime) Sites.full_html = Ok cards /\
    fst (crawl_paper.run (parser := Sites.full_parser) (datetime := Reference.datetime)
           (network := Sites.full) []) = Ok rows /\
    map crawl_paper.row_upvotes rows = [Some 1200] /\
    map crawl_paper.row_github_stars rows = [Some 3400] /\
    map crawl_paper.row_published rows = [Some "2025-01-05"] /\
    Forall (fun r => exists card,
                crawl_paper.get (crawl_paper.url r) cards = Some card /\
                crawl_paper.row_github r = crawl_paper.github card /\
                crawl_paper.row_arxiv r = crawl_paper.arxiv card /\
                crawl_paper.row_upvotes r = crawl_paper.upvotes card /\
                crawl_paper.row_published r = crawl_paper.published card /\
                crawl_paper.row_github_stars r = crawl_paper.github_stars card)
           rows.
Proof.
  split; [reflexivity|]. do 2 eexists.
  split; [vm_compute; reflexivity|]. split; [vm_compute; reflexivity|].
  split; [reflexivity|]. split; [reflexivity|]. split; [reflexivity|].
  apply (rows_carry_their_cards
           (parser := Sites.full_parser) (datetime := Reference.datetime)
           (network := Sites.full) [] 200 Sites.full_html);
    vm_compute; reflexivity.
Defined.
